(** * Approval ledger and status relay of the dashboard: a shallow embedding

    The two request handlers of the dashboard's API are embedded here:
    - [functions/api/approve.js] (module [Approve]): the approval ledger,
      [onRequestPost] records a decision, [onRequestGet] lists the state;
    - the status relay (module [Sync], the handler of [POST /api/sync] and
      its [GET]): stores the pushed snapshot and seeds the pending queue.

    Both run against Cloudflare KV namespaces reached through the bindings
    of [env].  A namespace is a finite map from string keys to string
    values; every sequence kept in it is one serialized JSON document.

    What belongs to the JavaScript runtime rather than to the repository is
    kept apart in the first part of the file: JSON values, truthiness,
    property access, [ToString], strict equality, and the few string and
    array methods the handlers call.  [JSON.stringify], [JSON.parse] and
    [atob] are parameters of the development, the first two constrained
    only by the round trip the handlers rely on; a concrete codec and a
    concrete decoder instantiate them where statements are evaluated. *)

From Stdlib Require Import ZArith String Ascii List Lia DecimalString DecimalZ.
From stdpp Require Import base option list strings gmap.

Local Open Scope Z_scope.
Local Open Scope string_scope.

(** ** JavaScript values *)

(** The values [JSON.parse] and [request.json()] produce.  Numbers are the
    integers (the counts and ids that occur in status documents); the
    runtime holds a number as a double, so that of the integers beyond
    2^53 only those a double represents are values.  An object lists its
    own properties in enumeration order. *)
#[warnings="-register-all"]
Inductive json : Type :=
  | JNull
  | JBool (b : bool)
  | JNum (n : Z)
  | JStr (s : string)
  | JArr (items : list json)
  | JObj (props : list (string * json)).

(** The result of reading a property or a variable: [None] is JavaScript's
    [undefined], which no JSON document contains. *)
Definition jsval : Type := option json.
Definition undefined : jsval := None.

(** Exceptions the runtime raises in the handlers. *)
Inductive JsError : Type :=
  | TypeError
  | SyntaxError.

Inductive result (A : Type) : Type :=
  | Value (a : A)
  | Throw (e : JsError).
Arguments Value {A} a.
Arguments Throw {A} e.

(** [!!v]: truthiness.  Zero, the empty string, [null], [false] and
    [undefined] are falsy; every array and every object is truthy. *)
Definition truthy_json (v : json) : bool :=
  match v with
  | JNull => false
  | JBool b => b
  | JNum n => negb (Z.eqb n 0)
  | JStr s => negb (String.eqb s EmptyString)
  | JArr _ | JObj _ => true
  end.

Definition truthy (v : jsval) : bool :=
  match v with
  | Some j => truthy_json j
  | None => false
  end.

(** Truthiness of a value that is a string or [null]/[undefined], such as
    the result of a KV [get], a header or an environment variable. *)
Definition truthy_str (s : option string) : bool :=
  match s with
  | Some r => negb (String.eqb r EmptyString)
  | None => false
  end.

(** Own-property lookup in an object. *)
Fixpoint own_property (props : list (string * json)) (name : string) : jsval :=
  match props with
  | [] => undefined
  | (k, v) :: rest => if String.eqb k name then Some v else own_property rest name
  end.

(** [v.name] for a property name that no prototype defines (the handlers
    read [id], [action], [note], [pending_approvals], [summary] and
    [active_agents]): reading from [null] raises a TypeError, reading from
    a primitive or an array yields [undefined]. *)
Definition get_prop (v : json) (name : string) : result jsval :=
  match v with
  | JNull => Throw TypeError
  | JObj props => Value (own_property props name)
  | _ => Value undefined
  end.

(** The decimal numeral of an integer. *)
Definition decimal_numeral (n : Z) : string :=
  NilZero.string_of_int (Z.to_int n).

(** The double nearest to a natural number, ties to the even
    significand: the number the runtime holds for a numeral.  From 2^1024
    on the result stands for [Infinity]. *)
Definition nearest_double (m : Z) : Z :=
  let bits := Z.log2 m + 1 in
  if Z.leb bits 53 then m
  else
    let shift := bits - 53 in
    let q := Z.shiftr m shift in
    let r := m - Z.shiftl q shift in
    let half := Z.shiftl 1 (shift - 1) in
    let q' := if Z.ltb half r || (Z.eqb r half && Z.odd q) then q + 1 else q in
    Z.shiftl q' shift.

(** Of the two multiples of 10^e around a double [x], the one that reads
    back as [x]; if both do, the nearer one, and the one with the even
    digits at equal distance. *)
Definition candidate (x e : Z) : option Z :=
  let p := 10 ^ e in
  let lo := (x / p) * p in
  let hi := lo + p in
  let lo_ok := Z.eqb (nearest_double lo) x in
  let hi_ok := Z.eqb (nearest_double hi) x in
  if lo_ok && hi_ok then
    if Z.ltb (x - lo) (hi - x) then Some lo
    else if Z.ltb (hi - x) (x - lo) then Some hi
    else if Z.even (x / p) then Some lo else Some hi
  else if lo_ok then Some lo
  else if hi_ok then Some hi
  else None.

(** The integer with the fewest significant digits that reads back as
    the double [x]: the digits the runtime prints for [x].  The search
    starts with [e] trailing zeros and ends with [x] itself. *)
Fixpoint shortest (e : nat) (x : Z) : Z :=
  match e with
  | O => x
  | S e' =>
      match candidate x (Z.of_nat e) with
      | Some v => v
      | None => shortest e' x
      end
  end.

Fixpoint strip_zeros (s : string) : string :=
  match s with
  | EmptyString => EmptyString
  | String c rest =>
      match strip_zeros rest with
      | EmptyString => if Ascii.eqb c "0" then EmptyString else String c EmptyString
      | r => String c r
      end
  end.

(** The digits in full up to 21 of them, exponent notation beyond. *)
Definition number_form (v : Z) : string :=
  let text := decimal_numeral v in
  let n := String.length text in
  if Nat.leb n 21 then text
  else
    match strip_zeros text with
    | String d EmptyString => String d ("e+" +:+ decimal_numeral (Z.of_nat n - 1))
    | String d rest =>
        String d (String "." (rest +:+ "e+" +:+ decimal_numeral (Z.of_nat n - 1)))
    | EmptyString => text
    end.

(** [Number.prototype.toString] on an integer.  Below 2^53 every integer
    is a double and prints as its decimal numeral.  Beyond, the number
    is the nearest double and prints with the fewest digits that read
    back as it, followed by zeros, and in exponent notation from 10^21
    on. *)
Definition Number_toString (n : Z) : string :=
  if Z.ltb (Z.abs n) (2 ^ 53) then decimal_numeral n
  else
    let x := nearest_double (Z.abs n) in
    let sign := if Z.ltb n 0 then "-" else EmptyString in
    if Z.leb (2 ^ 1024) x then sign +:+ "Infinity"
    else sign +:+ number_form (shortest (String.length (decimal_numeral x) - 1) x).

(** [String(v)], as applied by template literals and by [+] with a string
    operand.  An array is its elements joined by commas, [null] elements
    printing as nothing.  An object of a parsed document inherits
    [Object.prototype.toString] unless it has an own [toString] member;
    that member is no function, [valueOf] yields no primitive (the own
    one is no function either, the inherited one returns the object), and
    the conversion raises a TypeError. *)
Fixpoint ToString_json (v : json) : result string :=
  match v with
  | JNull => Value "null"
  | JBool true => Value "true"
  | JBool false => Value "false"
  | JNum n => Value (Number_toString n)
  | JStr s => Value s
  | JArr items =>
      (fix join (l : list json) : result string :=
         match l with
         | [] => Value EmptyString
         | x :: rest =>
             match match x with JNull => Value EmptyString | _ => ToString_json x end with
             | Throw e => Throw e
             | Value sx =>
                 match rest with
                 | [] => Value sx
                 | _ :: _ =>
                     match join rest with
                     | Throw e => Throw e
                     | Value sr => Value (sx +:+ "," +:+ sr)
                     end
                 end
             end
         end) items
  | JObj props =>
      match own_property props "toString" with
      | Some _ => Throw TypeError
      | None => Value "[object Object]"
      end
  end.

Definition ToString (v : jsval) : result string :=
  match v with
  | Some j => ToString_json j
  | None => Value "undefined"
  end.

(** [a === b] for values of two separately parsed documents: primitives
    compare by type and value, while an array or an object is only ever
    identical to itself, hence never to a value of the other document. *)
Definition strict_eq (a b : jsval) : bool :=
  match a, b with
  | None, None => true
  | Some JNull, Some JNull => true
  | Some (JBool x), Some (JBool y) => Bool.eqb x y
  | Some (JNum x), Some (JNum y) => Z.eqb x y
  | Some (JStr x), Some (JStr y) => String.eqb x y
  | _, _ => false
  end.

(** [arr.includes(v)] on an array literal of primitives. *)
Definition Array_includes (arr : list json) (v : jsval) : bool :=
  existsb (fun x => strict_eq (Some x) v) arr.

(** [arr.includes(s)] on an array literal of strings. *)
Definition includes_string (arr : list string) (s : string) : bool :=
  existsb (String.eqb s) arr.

(** [s.toLowerCase()] on the ASCII letters. *)
Definition lower_ascii (c : ascii) : ascii :=
  let n := nat_of_ascii c in
  if ((65 <=? n) && (n <=? 90))%nat then ascii_of_nat (n + 32) else c.

Fixpoint toLowerCase (s : string) : string :=
  match s with
  | EmptyString => EmptyString
  | String c rest => String (lower_ascii c) (toLowerCase rest)
  end.

(** [v.toLowerCase()] on a value of a parsed document: only a string has
    the method, calling it on anything else raises a TypeError. *)
Definition call_toLowerCase (v : json) : result string :=
  match v with
  | JStr s => Value (toLowerCase s)
  | _ => Throw TypeError
  end.

(** [s.replace(pat, rep)] with a string pattern: the first occurrence only. *)
Fixpoint String_replace (s pat rep : string) : string :=
  if String.prefix pat s
  then rep +:+ substring (String.length pat) (String.length s - String.length pat) s
  else match s with
       | EmptyString => EmptyString
       | String c rest => String c (String_replace rest pat rep)
       end.

(** [a || b] on values. *)
Definition or_else (a : jsval) (b : json) : json :=
  match a with
  | Some j => if truthy_json j then j else b
  | None => b
  end.

(** ** The environment and the handler monad *)

(** A KV namespace. *)
Abbreviation KV := (gmap string string).

(** The bindings the platform passes as [env]; each may be missing from
    the deployment's configuration. *)
Record Env : Type := mkEnv {
  SYNC_SECRET : option string;
  DASHBOARD_DATA : option KV;
  APPROVALS : option KV
}.

Inductive Namespace : Type :=
  | NS_DASHBOARD_DATA
  | NS_APPROVALS.

Definition binding (ns : Namespace) (env : Env) : option KV :=
  match ns with
  | NS_DASHBOARD_DATA => DASHBOARD_DATA env
  | NS_APPROVALS => APPROVALS env
  end.

Definition set_binding (ns : Namespace) (kv : KV) (env : Env) : Env :=
  match ns with
  | NS_DASHBOARD_DATA =>
      {| SYNC_SECRET := SYNC_SECRET env; DASHBOARD_DATA := Some kv; APPROVALS := APPROVALS env |}
  | NS_APPROVALS =>
      {| SYNC_SECRET := SYNC_SECRET env; DASHBOARD_DATA := DASHBOARD_DATA env; APPROVALS := Some kv |}
  end.

(** A handler is a computation on the environment that returns a value or
    throws; what it wrote before throwing stays written. *)
Definition M (A : Type) : Type := Env -> result A * Env.

Definition ret {A : Type} (a : A) : M A := fun env => (Value a, env).

Definition bind {A B : Type} (m : M A) (k : A -> M B) : M B :=
  fun env =>
    match m env with
    | (Value a, env') => k a env'
    | (Throw e, env') => (Throw e, env')
    end.

Definition throw {A : Type} (e : JsError) : M A := fun env => (Throw e, env).

Definition lift {A : Type} (r : result A) : M A := fun env => (r, env).

Declare Scope js_scope.
Delimit Scope js_scope with js.
Notation "'let*' x ':=' m 'in' k" := (bind m (fun x => k))
  (at level 10, x name, m at level 100, k at level 200) : js_scope.
Notation "m ';;;' k" := (bind m (fun _ => k))
  (at level 100, k at level 200, right associativity) : js_scope.
Local Open Scope js_scope.

(** [env.NS], read as a condition. *)
Definition bound (ns : Namespace) : M bool :=
  fun env => (Value (bool_decide (is_Some (binding ns env))), env).

(** [await env.NS.get(key)]: the stored string, or [null]. *)
Definition KV_get (ns : Namespace) (key : string) : M (option string) :=
  fun env =>
    match binding ns env with
    | Some kv => (Value (kv !! key), env)
    | None => (Throw TypeError, env)
    end.

(** [await env.NS.put(key, value)]. *)
Definition KV_put (ns : Namespace) (key value : string) : M unit :=
  fun env =>
    match binding ns env with
    | Some kv => (Value tt, set_binding ns (<[key := value]> kv) env)
    | None => (Throw TypeError, env)
    end.

(** [arr.filter(f)] where the callback may throw. *)
Fixpoint Array_filter (f : json -> result bool) (items : list json) : result (list json) :=
  match items with
  | [] => Value []
  | x :: rest =>
      match f x with
      | Throw e => Throw e
      | Value keep =>
          match Array_filter f rest with
          | Throw e => Throw e
          | Value rest' => Value (if keep then x :: rest' else rest')
          end
      end
  end.

(** Calling an array method on a parsed document: a TypeError unless the
    document is an array. *)
Definition as_array (v : json) : result (list json) :=
  match v with
  | JArr items => Value items
  | _ => Throw TypeError
  end.

(** ** Requests and responses *)

(** What a handler reads from the request: the [Authorization] and the
    [Cookie] header ([None] when the request has none), and the outcome
    of [request.json()] ([None] when the body is not JSON). *)
Record Request : Type := mkRequest {
  header_Authorization : option string;
  header_Cookie : option string;
  body_json : option json
}.

Record Response : Type := mkResponse {
  status : Z;
  headers : list (string * string);
  body : string
}.

Definition json_headers : list (string * string) :=
  [("Content-Type", "application/json"); ("Cache-Control", "no-store")].

(** ** The runtime's JSON object *)

(** [JSON.stringify] on a document and [JSON.parse] on a string ([None]
    when it throws a SyntaxError). *)
Class JSONCodec : Type := {
  JSON_stringify : json -> string;
  JSON_parse : string -> option json
}.

(** What the handlers rely on: a serialized document parses back to
    itself, and no document serializes to the empty string. *)
Class JSONLaws `{JSONCodec} : Prop := {
  parse_stringify : forall v : json, JSON_parse (JSON_stringify v) = Some v;
  stringify_nonempty : forall v : json, JSON_stringify v <> EmptyString
}.

Section Runtime.
Context `{JSONCodec}.

Definition JSON_parse_or_throw (raw : string) : result json :=
  match JSON_parse raw with
  | Some v => Value v
  | None => Throw SyntaxError
  end.

(** The [json(data, status)] helper both files define. *)
Definition json_response (data : json) (status : Z) : Response :=
  {| status := status; headers := json_headers; body := JSON_stringify data |}.

End Runtime.

(** ** The Access cookie ([getAuthenticatedEmail], approve.js lines 107-120)

    The helper reads the [Cookie] header, takes the token after
    [CF_Authorization=], decodes the second dot-separated segment with
    [atob] and parses it; whatever is thrown on the way is caught and
    turned into [null].  [atob] belongs to the runtime, like the JSON
    object. *)

(** [atob(s)]: the decoded byte string, [None] when it throws. *)
Class Base64 : Type := {
  atob : string -> option string
}.

Module Access.

(** The text left after a literal prefix, if the string starts with it. *)
Fixpoint after_prefix (p s : string) : option string :=
  match p with
  | EmptyString => Some s
  | String a p' =>
      match s with
      | EmptyString => None
      | String b s' => if Ascii.eqb a b then after_prefix p' s' else None
      end
  end.

(** The longest run of characters other than [;] at the head of a
    string: what [([^;]+)] captures where it matches. *)
Fixpoint until_semicolon (s : string) : string :=
  match s with
  | EmptyString => EmptyString
  | String c rest => if Ascii.eqb c ";" then EmptyString else String c (until_semicolon rest)
  end.

(** A match of [/CF_Authorization=([^;]+)/] that starts at the head. *)
Definition match_here (s : string) : option string :=
  match after_prefix "CF_Authorization=" s with
  | Some rest =>
      match until_semicolon rest with
      | EmptyString => None
      | String c token => Some (String c token)
      end
  | None => None
  end.

(** [cookie.match(/CF_Authorization=([^;]+)/)]: the capture group of the
    leftmost match, [None] when there is none. *)
Fixpoint match_CF_Authorization (cookie : string) : option string :=
  match match_here cookie with
  | Some token => Some token
  | None =>
      match cookie with
      | EmptyString => None
      | String _ rest => match_CF_Authorization rest
      end
  end.

(** [s.split(".")] *)
Fixpoint split_dot (s : string) : list string :=
  match s with
  | EmptyString => [EmptyString]
  | String c rest =>
      if Ascii.eqb c "."
      then EmptyString :: split_dot rest
      else match split_dot rest with
           | first :: others => String c first :: others
           | [] => [String c EmptyString]
           end
  end.

Section Helper.
Context `{JSONCodec} `{Base64}.

(** The body of the [try] block on the captured token, [None] when it
    throws: [atob] of the second segment (of the string [undefined] when
    there is none), [JSON.parse], then [payload.email || null]. *)
Definition payload_email (segment : string) : option json :=
  match atob segment with
  | None => None
  | Some text =>
      match JSON_parse text with
      | None => None
      | Some payload =>
          match get_prop payload "email" with
          | Throw _ => None
          | Value email => if truthy email then email else None
          end
      end
  end.

Definition token_email (token : string) : option json :=
  payload_email (default "undefined" (nth_error (split_dot token) 1)).

(** The helper, as a function of the [Cookie] header. *)
Definition getAuthenticatedEmail (cookie_header : option string) : option json :=
  let cookie := default EmptyString
                  (if truthy_str cookie_header then cookie_header else None) in
  match match_CF_Authorization cookie with
  | None => None
  | Some token => token_email token
  end.

End Helper.

(** No occurrence of a character. *)
Fixpoint free_of (c : ascii) (s : string) : bool :=
  match s with
  | EmptyString => true
  | String b rest => negb (Ascii.eqb b c) && free_of c rest
  end.

(** A forgiving base64 decoder in the way of [atob]: ASCII whitespace is
    dropped, one or two padding characters are allowed at the end of a
    text whose length is a multiple of four, a length of one modulo four
    or a character outside the alphabet is an error. *)
Definition is_space (c : ascii) : bool :=
  let n := nat_of_ascii c in
  ((n =? 9) || (n =? 10) || (n =? 12) || (n =? 13) || (n =? 32))%nat.

Definition sextet (c : ascii) : option nat :=
  let n := nat_of_ascii c in
  if ((65 <=? n) && (n <=? 90))%nat then Some (n - 65)%nat
  else if ((97 <=? n) && (n <=? 122))%nat then Some (n - 71)%nat
  else if ((48 <=? n) && (n <=? 57))%nat then Some (n + 4)%nat
  else if (n =? 43)%nat then Some 62%nat
  else if (n =? 47)%nat then Some 63%nat
  else None.

Fixpoint drop_spaces (s : string) : list ascii :=
  match s with
  | EmptyString => []
  | String c rest => if is_space c then drop_spaces rest else c :: drop_spaces rest
  end.

Definition drop_padding (l : list ascii) : list ascii :=
  if (length l mod 4 =? 0)%nat then
    match rev l with
    | a :: b :: r =>
        if Ascii.eqb a "=" then (if Ascii.eqb b "=" then rev r else rev (b :: r)) else l
    | _ => l
    end
  else l.

Fixpoint sextets (l : list ascii) : option (list nat) :=
  match l with
  | [] => Some []
  | c :: rest =>
      match sextet c, sextets rest with
      | Some n, Some ns => Some (n :: ns)
      | _, _ => None
      end
  end.

Fixpoint bytes_of (l : list nat) : string :=
  match l with
  | a :: b :: c :: d :: rest =>
      String (ascii_of_nat (a * 4 + b / 16))
        (String (ascii_of_nat ((b mod 16) * 16 + c / 4))
           (String (ascii_of_nat ((c mod 4) * 64 + d)) (bytes_of rest)))
  | [a; b; c] =>
      String (ascii_of_nat (a * 4 + b / 16))
        (String (ascii_of_nat ((b mod 16) * 16 + c / 4)) EmptyString)
  | [a; b] => String (ascii_of_nat (a * 4 + b / 16)) EmptyString
  | _ => EmptyString
  end.

Definition decode (s : string) : option string :=
  let l := drop_padding (drop_spaces s) in
  if (length l mod 4 =? 1)%nat then None
  else match sextets l with
       | Some ns => Some (bytes_of ns)
       | None => None
       end.

Definition base64 : Base64 := {| atob := decode |}.

End Access.

(** ** [functions/api/approve.js] *)

Module Approve.

Definition ALLOWED_APPROVERS : list string :=
  ["rinvest4@gmail.com"; "amandalastudios@gmail.com"].

(** The decision record built at lines 49-55. *)
Definition make_decision (id action : json) (note : jsval) (email : json) (now : string) : json :=
  JObj [("id", id); ("action", action); ("note", or_else note (JStr EmptyString));
        ("by", email); ("at", JStr now)].

(** [{ ok: true, ...decision }] *)
Definition spread_ok (decision : json) : json :=
  match decision with
  | JObj props => JObj (("ok", JBool true) :: props)
  | _ => JObj [("ok", JBool true)]
  end.

Definition error_body (msg : string) : json := JObj [("error", JStr msg)].

Definition msg_forbidden : string :=
  "Forbidden " +:+ String (ascii_of_nat 226) (String (ascii_of_nat 128)
    (String (ascii_of_nat 148) " not an authorized approver")).
Definition msg_missing : string := "Missing required fields: id, action".
Definition msg_action : string :=
  let q := String (ascii_of_nat 34) EmptyString in
  "action must be " +:+ q +:+ "approve" +:+ q +:+ " or " +:+ q +:+ "reject" +:+ q.

Section Handlers.
Context `{JSONCodec} `{Base64}.

(** [getAuthenticatedEmail(request)], lines 107-120: the helper on the
    request's [Cookie] header.  What it returns is the [email] member of
    the token's payload, of whatever type, if that is truthy. *)
Definition getAuthenticatedEmail (request : Request) : option json :=
  Access.getAuthenticatedEmail (header_Cookie request).

(** Lines 58-78: the writes to the APPROVALS namespace.  The key of the
    decision record is built first, and building it can throw. *)
Definition persist (id decision : json) : M unit :=
  let* name := lift (ToString_json id) in
  KV_put NS_APPROVALS ("decision:" +:+ name) (JSON_stringify decision) ;;;
  (* Remove from pending list *)
  let* pendingRaw := KV_get NS_APPROVALS "pending" in
  (if truthy_str pendingRaw then
     let* pending := lift (JSON_parse_or_throw (default EmptyString pendingRaw)) in
     let* items := lift (as_array pending) in
     let* updated := lift (Array_filter
                       (fun item =>
                          match get_prop item "id" with
                          | Value item_id => Value (negb (strict_eq item_id (Some id)))
                          | Throw e => Throw e
                          end) items) in
     KV_put NS_APPROVALS "pending" (JSON_stringify (JArr updated))
   else ret tt) ;;;
  (* Add to history *)
  let* historyRaw := KV_get NS_APPROVALS "history" in
  let* history := (if truthy_str historyRaw
                   then lift (JSON_parse_or_throw (default EmptyString historyRaw))
                   else ret (JArr [])) in
  let* entries := lift (as_array history) in
  let unshifted := decision :: entries in
  (* Keep last 100 decisions *)
  KV_put NS_APPROVALS "history" (JSON_stringify (JArr (firstn 100 unshifted))).

(** [POST /api/approve]; [now] is the reading of [new Date().toISOString()]. *)
Definition onRequestPost (request : Request) (now : string) : M Response :=
  match getAuthenticatedEmail request with
  | None => ret (json_response (error_body "Unauthorized") 401)
  | Some email =>
    let* lowered := lift (call_toLowerCase email) in
    if negb (includes_string ALLOWED_APPROVERS lowered)
    then ret (json_response (error_body msg_forbidden) 403)
    else
      match body_json request with
      | None => ret (json_response (error_body "Invalid JSON body") 400)
      | Some body =>
        let* id := lift (get_prop body "id") in
        let* action := lift (get_prop body "action") in
        let* note := lift (get_prop body "note") in
        match id, action with
        | Some id, Some action =>
          if negb (truthy_json id) || negb (truthy_json action)
          then ret (json_response (error_body msg_missing) 400)
          else if negb (Array_includes [JStr "approve"; JStr "reject"] (Some action))
          then ret (json_response (error_body msg_action) 400)
          else
            let decision := make_decision id action note email now in
            (* Store in KV if available *)
            let* configured := bound NS_APPROVALS in
            (if configured then persist id decision else ret tt) ;;;
            ret (json_response (spread_ok decision) 200)
        | _, _ => ret (json_response (error_body msg_missing) 400)
        end
      end
  end.

(** [GET /api/approve] *)
Definition onRequestGet (request : Request) : M Response :=
  match getAuthenticatedEmail request with
  | None => ret (json_response (error_body "Unauthorized") 401)
  | Some email =>
    let* configured := bound NS_APPROVALS in
    if negb configured
    then ret (json_response (JObj [("pending", JArr []); ("history", JArr [])]) 200)
    else
      let* pendingRaw := KV_get NS_APPROVALS "pending" in
      let* historyRaw := KV_get NS_APPROVALS "history" in
      let* pending := (if truthy_str pendingRaw
                       then lift (JSON_parse_or_throw (default EmptyString pendingRaw))
                       else ret (JArr [])) in
      let* history := (if truthy_str historyRaw
                       then lift (JSON_parse_or_throw (default EmptyString historyRaw))
                       else ret (JArr [])) in
      ret (json_response (JObj [("pending", pending); ("history", history)]) 200)
  end.

End Handlers.

End Approve.

(** ** The status relay ([POST /api/sync] and its [GET]) *)

Module Sync.

Definition msg_no_data : string := "No status data available. Waiting for first sync.".

Definition error_body (msg : string) : json := JObj [("error", JStr msg)].

Section Handlers.
Context `{JSONCodec}.

(** Lines 50-55: the [agents] field of the response. *)
Definition agents_summary (statusData : json) : result string :=
  match get_prop statusData "summary" with
  | Throw e => Throw e
  | Value summary =>
      match summary with
      | Some s =>
          if truthy_json s
          then match get_prop s "active_agents" with
               | Value n =>
                   match ToString n with
                   | Value text => Value (text +:+ " active")
                   | Throw e => Throw e
                   end
               | Throw e => Throw e
               end
          else Value "unknown"
      | None => Value "unknown"
      end
  end.

(** Lines 41-48: first-write seeding of the pending queue. *)
Definition seed_pending (statusData : json) : M unit :=
  let* pendingRaw := KV_get NS_APPROVALS "pending" in
  if negb (truthy_str pendingRaw)
  then
    (* Initialize KV pending list from the pushed status.json *)
    let* pending_approvals := lift (get_prop statusData "pending_approvals") in
    let approvals := or_else pending_approvals (JArr []) in
    KV_put NS_APPROVALS "pending" (JSON_stringify approvals)
  else ret tt.

(** [POST /api/sync]; [now_sync] and [now_resp] are the two readings of
    [new Date().toISOString()], at lines 37 and 52. *)
Definition onRequestPost (request : Request) (now_sync now_resp : string) : M Response :=
  fun env =>
    let authHeader := default EmptyString (header_Authorization request) in
    let token := String_replace authHeader "Bearer " EmptyString in
    if negb (truthy_str (SYNC_SECRET env))
       || negb (String.eqb token (default EmptyString (SYNC_SECRET env)))
    then ret (json_response (error_body "Unauthorized") 401) env
    else
      match body_json request with
      | None => ret (json_response (error_body "Invalid JSON") 400) env
      | Some statusData =>
        ((* Store in KV *)
         let* configured := bound NS_DASHBOARD_DATA in
         (if configured then
            KV_put NS_DASHBOARD_DATA "status" (JSON_stringify statusData) ;;;
            KV_put NS_DASHBOARD_DATA "last_sync" now_sync
          else ret tt) ;;;
         let* approvals_configured := bound NS_APPROVALS in
         (if approvals_configured then seed_pending statusData else ret tt) ;;;
         let* agents := lift (agents_summary statusData) in
         ret (json_response
                (JObj [("ok", JBool true); ("received_at", JStr now_resp);
                       ("agents", JStr agents)]) 200)) env
      end.

(** [GET /api/sync]: the stored string itself is the response body. *)
Definition onRequestGet : M Response :=
  let not_found := json_response (error_body msg_no_data) 404 in
  let* configured := bound NS_DASHBOARD_DATA in
  if configured then
    let* data := KV_get NS_DASHBOARD_DATA "status" in
    if truthy_str data
    then ret {| status := 200; headers := json_headers; body := default EmptyString data |}
    else ret not_found
  else ret not_found.

End Handlers.

End Sync.

(** ** A concrete codec: compact JSON text

    [write] prints a document the way [JSON.stringify] does without an
    indent argument, a number as its decimal numeral (which is what the
    runtime prints up to 2^53); [read] parses that output language back.
    It instantiates the runtime's JSON object wherever a statement is
    evaluated on concrete stores. *)

Module CompactJSON.

Definition quote : ascii := ascii_of_nat 34.
Definition backslash : ascii := ascii_of_nat 92.

Definition hex_digit (n : nat) : ascii :=
  if (n <? 10)%nat then ascii_of_nat (48 + n) else ascii_of_nat (87 + n).

Definition hex_value (c : ascii) : option nat :=
  let n := nat_of_ascii c in
  if ((48 <=? n) && (n <=? 57))%nat then Some (n - 48)%nat
  else if ((97 <=? n) && (n <=? 102))%nat then Some (n - 87)%nat
  else if ((65 <=? n) && (n <=? 70))%nat then Some (n - 55)%nat
  else None.

(** The escapes of [JSON.stringify]: the quote, the backslash, the five
    short escapes, and [\u00xx] for the other control characters. *)
Definition escape_char (c : ascii) : string :=
  let n := nat_of_ascii c in
  if (n =? 34)%nat then String backslash (String quote EmptyString)
  else if (n =? 92)%nat then String backslash (String backslash EmptyString)
  else if (n =? 8)%nat then String backslash "b"
  else if (n =? 12)%nat then String backslash "f"
  else if (n =? 10)%nat then String backslash "n"
  else if (n =? 13)%nat then String backslash "r"
  else if (n =? 9)%nat then String backslash "t"
  else if (n <? 32)%nat
       then String backslash
              (String "u" (String "0" (String "0"
                 (String (hex_digit (n / 16)) (String (hex_digit (n mod 16)) EmptyString)))))
  else String c EmptyString.

Fixpoint write_string (s k : string) : string :=
  match s with
  | EmptyString => String quote k
  | String c rest => escape_char c +:+ write_string rest k
  end.

(** The elements after the first, each behind its comma, up to the
    closing text. *)
Definition write_items (w : json -> string -> string) (close : string)
    : list json -> string :=
  fix more (l : list json) : string :=
    match l with
    | [] => close
    | y :: l' => String "," (w y (more l'))
    end.

Definition write_member (w : json -> string -> string) (name : string) (x : json)
    (k : string) : string :=
  String quote (write_string name (String ":" (w x k))).

Definition write_members (w : json -> string -> string) (close : string)
    : list (string * json) -> string :=
  fix more (l : list (string * json)) : string :=
    match l with
    | [] => close
    | (name, y) :: l' => String "," (write_member w name y (more l'))
    end.

(** [write_to v k] is the text of [v] followed by [k]. *)
Fixpoint write_to (v : json) (k : string) {struct v} : string :=
  match v with
  | JNull => "null" +:+ k
  | JBool true => "true" +:+ k
  | JBool false => "false" +:+ k
  | JNum n => decimal_numeral n +:+ k
  | JStr s => String quote (write_string s k)
  | JArr items =>
      String "[" match items with
                 | [] => String "]" k
                 | x :: rest => write_to x (write_items write_to (String "]" k) rest)
                 end
  | JObj props =>
      String "{" match props with
                 | [] => String "}" k
                 | (name, x) :: rest =>
                     write_member write_to name x
                       (write_members write_to (String "}" k) rest)
                 end
  end.

Definition write (v : json) : string := write_to v EmptyString.

Definition unescape (e : ascii) : option ascii :=
  if Ascii.eqb e quote then Some quote
  else if Ascii.eqb e backslash then Some backslash
  else if Ascii.eqb e "/" then Some "/"%char
  else if Ascii.eqb e "b" then Some (ascii_of_nat 8)
  else if Ascii.eqb e "f" then Some (ascii_of_nat 12)
  else if Ascii.eqb e "n" then Some (ascii_of_nat 10)
  else if Ascii.eqb e "r" then Some (ascii_of_nat 13)
  else if Ascii.eqb e "t" then Some (ascii_of_nat 9)
  else None.

Definition push_char (c : ascii) (r : option (string * string)) : option (string * string) :=
  match r with
  | Some (s, k) => Some (String c s, k)
  | None => None
  end.

(** The characters of a string literal after its opening quote, and what
    follows the closing one.  Of the [\u] escapes only those of one-byte
    characters are read. *)
Fixpoint read_string (s : string) : option (string * string) :=
  match s with
  | EmptyString => None
  | String c rest =>
      if Ascii.eqb c quote then Some (EmptyString, rest)
      else if Ascii.eqb c backslash then
        match rest with
        | EmptyString => None
        | String e rest1 =>
            if Ascii.eqb e "u" then
              match rest1 with
              | String h1 (String h2 (String h3 (String h4 rest2))) =>
                  match hex_value h1, hex_value h2, hex_value h3, hex_value h4 with
                  | Some a, Some b, Some c', Some d =>
                      let n := (((a * 16 + b) * 16 + c') * 16 + d)%nat in
                      if (n <? 128)%nat
                      then push_char (ascii_of_nat n) (read_string rest2)
                      else None
                  | _, _, _, _ => None
                  end
              | _ => None
              end
            else match unescape e with
                 | Some ch => push_char ch (read_string rest1)
                 | None => None
                 end
        end
      else if (nat_of_ascii c <? 32)%nat then None
      else push_char c (read_string rest)
  end.

Definition number_char (c : ascii) : bool :=
  let n := nat_of_ascii c in
  ((48 <=? n) && (n <=? 57))%nat || Ascii.eqb c "-".

Fixpoint span_number (s : string) : string * string :=
  match s with
  | EmptyString => (EmptyString, EmptyString)
  | String c rest =>
      if number_char c
      then let (digits, k) := span_number rest in (String c digits, k)
      else (EmptyString, s)
  end.

Definition read_number (s : string) : option (json * string) :=
  let (text, k) := span_number s in
  match NilZero.int_of_string text with
  | Some d => Some (JNum (Z.of_int d), k)
  | None => None
  end.

Fixpoint strip_prefix (p s : string) : option string :=
  match p with
  | EmptyString => Some s
  | String a p' =>
      match s with
      | EmptyString => None
      | String b s' => if Ascii.eqb a b then strip_prefix p' s' else None
      end
  end.

Definition read_literal (s : string) : option (json * string) :=
  match strip_prefix "null" s with
  | Some k => Some (JNull, k)
  | None =>
      match strip_prefix "true" s with
      | Some k => Some (JBool true, k)
      | None =>
          match strip_prefix "false" s with
          | Some k => Some (JBool false, k)
          | None => read_number s
          end
      end
  end.

(** One value, with the text that follows it. *)
Fixpoint read_value (fuel : nat) (s : string) {struct fuel} : option (json * string) :=
  match fuel with
  | O => None
  | S fuel' =>
      match s with
      | EmptyString => None
      | String c rest =>
          if Ascii.eqb c quote then
            match read_string rest with
            | Some (str, k) => Some (JStr str, k)
            | None => None
            end
          else if Ascii.eqb c "[" then
            match rest with
            | String c' k =>
                if Ascii.eqb c' "]" then Some (JArr [], k)
                else match read_elements fuel' rest with
                     | Some (items, k') => Some (JArr items, k')
                     | None => None
                     end
            | EmptyString => None
            end
          else if Ascii.eqb c "{" then
            match rest with
            | String c' k =>
                if Ascii.eqb c' "}" then Some (JObj [], k)
                else match read_members fuel' rest with
                     | Some (props, k') => Some (JObj props, k')
                     | None => None
                     end
            | EmptyString => None
            end
          else read_literal s
      end
  end
with read_elements (fuel : nat) (s : string) {struct fuel} : option (list json * string) :=
  match fuel with
  | O => None
  | S fuel' =>
      match read_value fuel' s with
      | Some (x, String c k) =>
          if Ascii.eqb c "," then
            match read_elements fuel' k with
            | Some (items, k') => Some (x :: items, k')
            | None => None
            end
          else if Ascii.eqb c "]" then Some ([x], k)
          else None
      | _ => None
      end
  end
with read_members (fuel : nat) (s : string) {struct fuel}
       : option (list (string * json) * string) :=
  match fuel with
  | O => None
  | S fuel' =>
      match s with
      | String q rest =>
          if Ascii.eqb q quote then
            match read_string rest with
            | Some (name, String colon rest1) =>
                if Ascii.eqb colon ":" then
                  match read_value fuel' rest1 with
                  | Some (x, String c k) =>
                      if Ascii.eqb c "," then
                        match read_members fuel' k with
                        | Some (props, k') => Some ((name, x) :: props, k')
                        | None => None
                        end
                      else if Ascii.eqb c "}" then Some ([(name, x)], k)
                      else None
                  | _ => None
                  end
                else None
            | _ => None
            end
          else None
      | EmptyString => None
      end
  end.

Definition read (s : string) : option json :=
  match read_value (S (String.length s)) s with
  | Some (v, EmptyString) => Some v
  | _ => None
  end.

Definition codec : JSONCodec := {| JSON_stringify := write; JSON_parse := read |}.

(** Fuel that suffices to read a document back: one unit per value. *)
Fixpoint need (v : json) : nat :=
  match v with
  | JArr items => S (fold_right (fun x n => S (need x + n)%nat) O items)
  | JObj props => S (fold_right (fun m n => S (need (snd m) + n)%nat) O props)
  | _ => 1%nat
  end.

Definition need_items (l : list json) : nat :=
  fold_right (fun x n => S (need x + n)%nat) O l.

Definition need_members (l : list (string * json)) : nat :=
  fold_right (fun m n => S (need (snd m) + n)%nat) O l.

(** Text that may follow a number: it does not go on with a digit. *)
Definition terminated (k : string) : Prop :=
  match k with
  | EmptyString => True
  | String c _ => number_char c = false
  end.

(** The two invariants of the round trip: with enough fuel the text of
    a document reads back as the document, and that text is at least as
    long as the fuel it needs. *)
Definition reads_back (v : json) : Prop :=
  forall (fuel : nat) (k : string),
    (need v <= fuel)%nat -> terminated k -> read_value fuel (write_to v k) = Some (v, k).

Definition fuel_in_text (v : json) : Prop :=
  forall k : string, (need v + String.length k <= String.length (write_to v k))%nat.

Fixpoint number_text (s : string) : bool :=
  match s with
  | EmptyString => true
  | String c rest => number_char c && number_text rest
  end.

End CompactJSON.

(** ** Observations and vocabulary of the statements *)

(** [item.id] of an item of the pending queue that is not [null]. *)
Definition item_id (item : json) : jsval :=
  match item with
  | JObj props => own_property props "id"
  | _ => undefined
  end.

(** The callback of the pending filter, [item.id !== id]. *)
Definition other_id (id : json) (item : json) : bool :=
  negb (strict_eq (item_id item) (Some id)).

Definition not_null (item : json) : Prop := item <> JNull.

(** The three preconditions of a decision, and the failures a caller can
    observe. *)
Definition is_approver (email : string) : bool :=
  includes_string Approve.ALLOWED_APPROVERS (toLowerCase email).

Definition has_fields (id action : jsval) : bool := truthy id && truthy action.

Definition valid_action (action : jsval) : bool :=
  Array_includes [JStr "approve"; JStr "reject"] action.

Inductive Failure : Type :=
  | Unauthorized
  | NotAuthorized
  | InvalidPayload
  | MissingField
  | InvalidAction.

(** The order of the checks in [Approve.onRequestPost], lines 30-47. *)
Definition first_failure (id action : jsval) (email : string) : option Failure :=
  if negb (is_approver email) then Some NotAuthorized
  else if negb (has_fields id action) then Some MissingField
  else if negb (valid_action action) then Some InvalidAction
  else None.

(** The order of the preconditions in the words of the specification:
    fields present, then action kind, then allow-list membership. *)
Definition documented_first_failure (id action : jsval) (email : string) : option Failure :=
  if negb (has_fields id action) then Some MissingField
  else if negb (valid_action action) then Some InvalidAction
  else if negb (is_approver email) then Some NotAuthorized
  else None.

(** What seeding writes for a snapshot: its [pending_approvals], or the
    empty sequence. *)
Definition seed_of (statusData : json) : json :=
  match get_prop statusData "pending_approvals" with
  | Value pending_approvals => or_else pending_approvals (JArr [])
  | Throw _ => JArr []
  end.

(** A push the relay authenticates: the secret is configured and the
    bearer token is that secret. *)
Definition authorized_push (request : Request) (env : Env) : Prop :=
  truthy_str (SYNC_SECRET env) = true /\
  String_replace (default EmptyString (header_Authorization request)) "Bearer " EmptyString
    = default EmptyString (SYNC_SECRET env).

Section Observations.
Context `{JSONCodec} `{Base64}.

(** A request of the caller with the string identity [email] that
    passes every check of lines 20-47, for the decision
    [{id, action, note, by: email}]. *)
Definition accepted (request : Request) (email : string) (id action : json) (note : jsval) : Prop :=
  Approve.getAuthenticatedEmail request = Some (JStr email) /\
  is_approver email = true /\
  (exists body : json,
      body_json request = Some body /\
      get_prop body "id" = Value (Some id) /\
      get_prop body "action" = Value (Some action) /\
      get_prop body "note" = Value note) /\
  truthy_json id = true /\
  (action = JStr "approve" \/ action = JStr "reject").

(** The id and the decision record of a call of [Approve.onRequestPost]
    that passes every check of lines 20-47. *)
Definition checked (request : Request) (now : string) : option (json * json) :=
  match Approve.getAuthenticatedEmail request with
  | Some (JStr email) =>
      if is_approver email then
        match body_json request with
        | Some body =>
            match get_prop body "id", get_prop body "action", get_prop body "note" with
            | Value (Some id), Value (Some action), Value note =>
                if truthy_json id && truthy_json action && valid_action (Some action)
                then Some (id, Approve.make_decision id action note (JStr email) now)
                else None
            | _, _, _ => None
            end
        | None => None
        end
      else None
  | _ => None
  end.

(** The id and the decision record a call of [Approve.onRequestPost]
    persists in a bound store: the call passes every check, and the key
    of the decision record can be built from its id. *)
Definition recorded (request : Request) (now : string) : option (json * json) :=
  match checked request now with
  | Some (id, decision) =>
      match ToString_json id with
      | Value _ => Some (id, decision)
      | Throw _ => None
      end
  | None => None
  end.

(** [raw ? JSON.parse(raw) : []], read as a sequence: what the ledger
    holds under a key. *)
Definition stored_list (kv : KV) (key : string) : result (list json) :=
  if truthy_str (kv !! key)
  then match JSON_parse_or_throw (default EmptyString (kv !! key)) with
       | Value v => as_array v
       | Throw e => Throw e
       end
  else Value [].

(** A pending queue the ledger can filter: a sequence without [null]. *)
Definition pending_ok (kv : KV) : Prop :=
  exists items : list json, stored_list kv "pending" = Value items /\ Forall not_null items.

Definition failure_response (f : Failure) : Response :=
  match f with
  | Unauthorized => json_response (Approve.error_body "Unauthorized") 401
  | NotAuthorized => json_response (Approve.error_body Approve.msg_forbidden) 403
  | InvalidPayload => json_response (Approve.error_body "Invalid JSON body") 400
  | MissingField => json_response (Approve.error_body Approve.msg_missing) 400
  | InvalidAction => json_response (Approve.error_body Approve.msg_action) 400
  end.

(** The response to a recorded decision. *)
Definition decision_response (decision : json) : Response :=
  json_response (Approve.spread_ok decision) 200.

(** The environment after a sequence of calls of [POST /api/approve],
    each with the clock reading it gets. *)
Fixpoint run_posts (calls : list (Request * string)) (env : Env) : Env :=
  match calls with
  | [] => env
  | (request, now) :: rest => run_posts rest (snd (Approve.onRequestPost request now env))
  end.

(** The APPROVALS namespace after lines 58-77 ran for an id whose text
    is [name], on a namespace whose pending queue is [items] and whose
    history is [hist]: the decision record is put, the pending queue is
    rewritten only if it was there, the history is rewritten. *)
Definition persisted (kv : KV) (name : string) (id decision : json)
    (items hist : list json) : KV :=
  let kv1 := <["decision:" +:+ name := JSON_stringify decision]> kv in
  let kv2 := if truthy_str (kv !! "pending")
             then <["pending" := JSON_stringify (JArr (List.filter (other_id id) items))]> kv1
             else kv1 in
  <["history" := JSON_stringify (JArr (firstn 100 (decision :: hist)))]> kv2.

(** The stored snapshot, if any. *)
Definition stored_status (env : Env) : option string :=
  match DASHBOARD_DATA env with
  | Some kv => kv !! "status"
  | None => None
  end.

Definition status_response (data : string) : Response :=
  {| status := 200; headers := json_headers; body := data |}.

Definition not_found_response : Response :=
  json_response (Sync.error_body Sync.msg_no_data) 404.

Definition push_response (now_resp agents : string) : Response :=
  json_response (JObj [("ok", JBool true); ("received_at", JStr now_resp);
                       ("agents", JStr agents)]) 200.

(** The environment after lines 35-48 ran for a snapshot that is not
    [null]: each namespace is written only if it is bound, the pending
    queue only if no truthy value is stored for it. *)
Definition pushed (env : Env) (statusData : json) (now_sync : string) : Env :=
  {| SYNC_SECRET := SYNC_SECRET env;
     DASHBOARD_DATA :=
       (fun kv : KV => <["last_sync" := now_sync]> (<["status" := JSON_stringify statusData]> kv))
         <$> DASHBOARD_DATA env;
     APPROVALS :=
       (fun kv : KV =>
          if truthy_str (kv !! "pending") then kv
          else <["pending" := JSON_stringify (seed_of statusData)]> kv)
         <$> APPROVALS env |}.

(** The decisions a sequence of calls records, oldest first. *)
Fixpoint decisions (calls : list (Request * string)) : list json :=
  match calls with
  | [] => []
  | (request, now) :: rest =>
      match recorded request now with
      | Some (_, decision) => decision :: decisions rest
      | None => decisions rest
      end
  end.

End Observations.

(** ** Concrete stores and requests

    The scenarios of the specification's testable properties, over the
    compact JSON codec. *)

Module Scenario.

Definition item_A : json := JObj [("id", JStr "A"); ("title", JStr "Rotate backup key")].
Definition item_B : json := JObj [("id", JStr "B"); ("title", JStr "Prune snapshots")].

Definition T : string := "2026-01-15T09:30:00.000Z".
Definition T' : string := "2026-01-15T09:31:00.000Z".

(** A ledger whose pending queue is [[A, B]] and whose history is empty. *)
Definition ledger_AB : KV := <["pending" := CompactJSON.write (JArr [item_A; item_B])]> ∅.

Definition env_AB : Env :=
  {| SYNC_SECRET := Some "s3cret"; DASHBOARD_DATA := Some ∅; APPROVALS := Some ledger_AB |}.

(** A deployment with both stores bound and nothing written yet. *)
Definition env_fresh : Env :=
  {| SYNC_SECRET := Some "s3cret"; DASHBOARD_DATA := Some ∅; APPROVALS := Some ∅ |}.

(** No approvals store. *)
Definition env_no_approvals : Env :=
  {| SYNC_SECRET := Some "s3cret"; DASHBOARD_DATA := Some ∅; APPROVALS := None |}.

(** No status store, an empty approvals store. *)
Definition env_no_status : Env :=
  {| SYNC_SECRET := Some "s3cret"; DASHBOARD_DATA := None; APPROVALS := Some ∅ |}.

(** Two callers and their Access cookies; the second segment of each
    token is the base64 text of [{"email":"Rinvest4@Gmail.com"}] and of
    [{"email":"eve@example.com"}]. *)
Definition approver : string := "Rinvest4@Gmail.com".
Definition stranger : string := "eve@example.com".

Definition approver_cookie : string :=
  "CF_Authorization=eyJhbGciOiJSUzI1NiJ9.eyJlbWFpbCI6IlJpbnZlc3Q0QEdtYWlsLmNvbSJ9.c2ln".
Definition stranger_cookie : string :=
  "theme=dark; CF_Authorization=eyJhbGciOiJSUzI1NiJ9.eyJlbWFpbCI6ImV2ZUBleGFtcGxlLmNvbSJ9.c2ln".

Definition decide_request (cookie : string) (fields : list (string * json)) : Request :=
  {| header_Authorization := None; header_Cookie := Some cookie;
     body_json := Some (JObj fields) |}.

Definition approve_A : Request :=
  decide_request approver_cookie [("id", JStr "A"); ("action", JStr "approve")].

Definition reject_C : Request :=
  decide_request approver_cookie
    [("id", JStr "C"); ("action", JStr "reject"); ("note", JStr "not ours")].

Definition decision_A : json :=
  JObj [("id", JStr "A"); ("action", JStr "approve"); ("note", JStr EmptyString);
        ("by", JStr approver); ("at", JStr T)].

Definition decision_C : json :=
  JObj [("id", JStr "C"); ("action", JStr "reject"); ("note", JStr "not ours");
        ("by", JStr approver); ("at", JStr T)].

(** A stranger's request that names neither id nor action. *)
Definition stranger_empty : Request := decide_request stranger_cookie [].

(** An approver's request without an id and with an unknown action. *)
Definition approver_bad_action : Request :=
  decide_request approver_cookie [("action", JStr "postpone")].

(** The [n]-th of a series of distinct decisions. *)
Definition nth_call (n : nat) : Request * string :=
  (decide_request approver_cookie
     [("id", JStr ("item-" +:+ decimal_numeral (Z.of_nat n)));
      ("action", JStr (if Nat.even n then "approve" else "reject"))],
   "2026-01-15T10:00:00." +:+ decimal_numeral (Z.of_nat n) +:+ "Z").

Definition calls_101 : list (Request * string) := map nth_call (seq 0 101).

Definition push_request (statusData : json) : Request :=
  {| header_Authorization := Some "Bearer s3cret"; header_Cookie := None;
     body_json := Some statusData |}.

Definition snapshot_AB : json :=
  JObj [("summary", JObj [("active_agents", JNum 3)]);
        ("pending_approvals", JArr [item_A; item_B])].

Definition snapshot_later : json :=
  JObj [("summary", JObj [("active_agents", JNum 4)]);
        ("pending_approvals", JArr [])].

(** A snapshot whose summary carries no agent count. *)
Definition snapshot_no_count : json := JObj [("summary", JObj [])].

End Scenario.

(** ** What a handler leaves alone, and what it returns *)

(** Two states of a binding that agree outside the keys [touched]; a
    binding is never created or removed. *)
Definition kv_agree (touched : string -> bool) (a b : option KV) : Prop :=
  match a, b with
  | Some kv, Some kv' => forall key : string, touched key = false -> kv' !! key = kv !! key
  | None, None => True
  | _, _ => False
  end.

(** [env'] differs from [env] at most under the given keys of the two
    namespaces. *)
Definition writes_only (dashboard_keys approvals_keys : string -> bool) (env env' : Env) : Prop :=
  SYNC_SECRET env' = SYNC_SECRET env /\
  kv_agree dashboard_keys (DASHBOARD_DATA env) (DASHBOARD_DATA env') /\
  kv_agree approvals_keys (APPROVALS env) (APPROVALS env').

Definition no_key (key : string) : bool := false.

(** The keys a decision on an id with the text [name] is stored under:
    its own record, the pending queue and the history. *)
Definition ledger_key (name : string) (key : string) : bool :=
  String.eqb key ("decision:" +:+ name) || String.eqb key "pending" || String.eqb key "history".

(** The keys a call of [POST /api/approve] can write, read off its body:
    those of a decision on the body's [id], and none when the body has no
    [id] or the [id] has no text. *)
Definition request_keys (request : Request) (key : string) : bool :=
  match body_json request with
  | Some body =>
      match get_prop body "id" with
      | Value (Some id) =>
          match ToString_json id with
          | Value name => ledger_key name key
          | Throw _ => false
          end
      | _ => false
      end
  | None => false
  end.

Definition status_key (key : string) : bool :=
  String.eqb key "status" || String.eqb key "last_sync".

Definition pending_key (key : string) : bool := String.eqb key "pending".

(** A computation whose final environment is always related to the
    initial one, whether it returns or throws. *)
Definition keeps {A : Type} (R : Env -> Env -> Prop) (m : M A) : Prop :=
  forall env : Env, R env (snd (m env)).

(** A computation whose returned value, when it returns, satisfies [P]. *)
Definition returns {A : Type} (P : A -> Prop) (m : M A) : Prop :=
  forall env : Env,
    match fst (m env) with
    | Value a => P a
    | Throw _ => True
    end.

(** The ids a sequence of calls records decisions for, oldest first. *)
Fixpoint decided `{JSONCodec} `{Base64} (calls : list (Request * string)) : list json :=
  match calls with
  | [] => []
  | (request, now) :: rest =>
      match recorded request now with
      | Some (id, _) => id :: decided rest
      | None => decided rest
      end
  end.

(** An item none of the given ids is identical to. *)
Definition undecided (ids : list json) (item : json) : bool :=
  forallb (fun id => other_id id item) ids.

Section Failures.
Context `{JSONCodec}.

(** A stored pending value the ledger cannot filter: it does not parse,
    is not an array, or holds a [null] item. *)
Definition pending_fails (kv : KV) (e : JsError) : Prop :=
  stored_list kv "pending" = Throw e \/
  (e = TypeError /\
   exists items : list json, stored_list kv "pending" = Value items /\ In JNull items).

End Failures.

(** Further concrete requests and stores. *)
Module Cases.

Definition payload_rinvest : string := "eyJlbWFpbCI6InJpbnZlc3Q0QGdtYWlsLmNvbSJ9".

Definition cookie_rinvest : string :=
  "theme=dark; CF_Authorization=eyJhbGciOiJSUzI1NiJ9." +:+ payload_rinvest +:+ ".c2ln; lang=en".

Definition anonymous : Request :=
  {| header_Authorization := None; header_Cookie := None;
     body_json := Some (JObj [("id", JStr "A"); ("action", JStr "approve")]) |}.

Definition reader : Request :=
  {| header_Authorization := None; header_Cookie := Some Scenario.stranger_cookie;
     body_json := None |}.

Definition approver_no_body : Request :=
  {| header_Authorization := None; header_Cookie := Some cookie_rinvest;
     body_json := None |}.


(** A ledger whose pending value is not JSON. *)
Definition ledger_garbled : KV := <["pending" := "oops"]> ∅.

Definition env_garbled : Env :=
  {| SYNC_SECRET := Some "s3cret"; DASHBOARD_DATA := Some ∅; APPROVALS := Some ledger_garbled |}.

(** A ledger whose history value is an object. *)
Definition ledger_bad_history : KV :=
  <["history" := CompactJSON.write (JObj [])]>
    (<["pending" := CompactJSON.write (JArr [Scenario.item_A; Scenario.item_B])]> ∅).

Definition env_bad_history : Env :=
  {| SYNC_SECRET := Some "s3cret"; DASHBOARD_DATA := Some ∅;
     APPROVALS := Some ledger_bad_history |}.

Definition env_no_secret : Env :=
  {| SYNC_SECRET := None; DASHBOARD_DATA := Some ∅; APPROVALS := Some ∅ |}.

Definition push_with (header : string) (statusData : option json) : Request :=
  {| header_Authorization := Some header; header_Cookie := None; body_json := statusData |}.

(** A snapshot whose [pending_approvals] is an object, not a list. *)
Definition snapshot_odd : json :=
  JObj [("pending_approvals", JObj [("A", JStr "x")])].

Definition approve_B : Request :=
  Scenario.decide_request Scenario.approver_cookie [("id", JStr "B"); ("action", JStr "approve")].

Definition reject_A : Request :=
  Scenario.decide_request Scenario.approver_cookie
    [("id", JStr "A"); ("action", JStr "reject"); ("note", JStr "changed my mind")].

Definition decision_A_rejected : json :=
  JObj [("id", JStr "A"); ("action", JStr "reject"); ("note", JStr "changed my mind");
        ("by", JStr Scenario.approver); ("at", JStr Scenario.T')].

(** An id that is an object with an own [toString] member, and an
    approver's request to decide it. *)
Definition odd_id : json := JObj [("toString", JNum 1)].

Definition approve_odd_id : Request :=
  Scenario.decide_request Scenario.approver_cookie
    [("id", odd_id); ("action", JStr "approve")].

(** A token whose payload is [{"email":123}], and a request under it. *)
Definition numeric_cookie : string :=
  "CF_Authorization=eyJhbGciOiJSUzI1NiJ9.eyJlbWFpbCI6MTIzfQ==.c2ln".

Definition approve_A_as_number : Request :=
  Scenario.decide_request numeric_cookie [("id", JStr "A"); ("action", JStr "approve")].

End Cases.

(** * Properties *)

(** ** The handler monad *)

Lemma binding_set_binding (ns : Namespace) (kv : KV) (env : Env) :
  binding ns (set_binding ns kv env) = Some kv.
Proof. destruct ns; reflexivity. Qed.

Lemma set_binding_twice (ns : Namespace) (kv kv' : KV) (env : Env) :
  set_binding ns kv' (set_binding ns kv env) = set_binding ns kv' env.
Proof. destruct ns; reflexivity. Qed.

Lemma bind_value {A B : Type} (m : M A) (k : A -> M B) (env env' : Env) (a : A) :
  m env = (Value a, env') -> bind m k env = k a env'.
Proof. intros Hm. unfold bind. rewrite Hm. reflexivity. Qed.

Lemma bound_some (ns : Namespace) (env : Env) (kv : KV) :
  binding ns env = Some kv -> bound ns env = (Value true, env).
Proof.
  intros Hb. unfold bound. rewrite Hb.
  rewrite bool_decide_eq_true_2; [reflexivity | eauto].
Qed.

Lemma bound_none (ns : Namespace) (env : Env) :
  binding ns env = None -> bound ns env = (Value false, env).
Proof.
  intros Hb. unfold bound. rewrite Hb.
  rewrite bool_decide_eq_false_2; [reflexivity | apply is_Some_None].
Qed.

Lemma KV_get_run (ns : Namespace) (key : string) (env : Env) (kv : KV) :
  binding ns env = Some kv -> KV_get ns key env = (Value (kv !! key), env).
Proof. intros Hb. unfold KV_get. rewrite Hb. reflexivity. Qed.

Lemma KV_put_run (ns : Namespace) (key value : string) (env : Env) (kv : KV) :
  binding ns env = Some kv ->
  KV_put ns key value env = (Value tt, set_binding ns (<[key := value]> kv) env).
Proof. intros Hb. unfold KV_put. rewrite Hb. reflexivity. Qed.

(** ** JavaScript values *)

Example toLowerCase_mixed : toLowerCase "Rinvest4@Gmail.COM" = "rinvest4@gmail.com".
Proof. reflexivity. Qed.

Example replace_bearer : String_replace "Bearer s3cret" "Bearer " EmptyString = "s3cret".
Proof. reflexivity. Qed.

Example replace_first_only :
  String_replace "Bearer Bearer x" "Bearer " EmptyString = "Bearer x".
Proof. reflexivity. Qed.

Example ToString_array :
  ToString_json (JArr [JNum 1; JNull; JArr [JNum (-2); JStr "x"]; JObj []; JBool true])
  = Value "1,,-2,x,[object Object],true".
Proof. reflexivity. Qed.

Example ToString_own_toString :
  ToString_json (JObj [("toString", JNum 1)]) = Throw TypeError /\
  ToString_json (JArr [JStr "a"; JObj [("toString", JNull)]]) = Throw TypeError /\
  ToString_json (JObj [("valueOf", JNum 1)]) = Value "[object Object]".
Proof. repeat split; reflexivity. Qed.

Example Number_toString_large :
  Number_toString 9007199254740991 = "9007199254740991" /\
  Number_toString (2 ^ 60) = "1152921504606847000" /\
  Number_toString (10 ^ 21) = "1e+21" /\
  Number_toString (- 123456789012345678901234567890) = "-1.2345678901234568e+29" /\
  Number_toString (10 ^ 400) = "Infinity".
Proof. repeat split; vm_compute; reflexivity. Qed.

Example call_toLowerCase_number : call_toLowerCase (JNum 123) = Throw TypeError.
Proof. reflexivity. Qed.

Example strict_eq_types : strict_eq (Some (JStr "5")) (Some (JNum 5)) = false.
Proof. reflexivity. Qed.

Example strict_eq_arrays : strict_eq (Some (JArr [])) (Some (JArr [])) = false.
Proof. reflexivity. Qed.

Example compact_write :
  CompactJSON.write (JArr [JNum 10; JNull; JBool true; JArr []; JObj []; JNum (-7)])
  = "[10,null,true,[],{},-7]".
Proof. reflexivity. Qed.

Example compact_read_nested :
  CompactJSON.read "[[1,[2]],false]" = Some (JArr [JArr [JNum 1; JArr [JNum 2]]; JBool false]).
Proof. reflexivity. Qed.

Example compact_read_unfinished : CompactJSON.read "[1,2" = None.
Proof. reflexivity. Qed.

Lemma get_prop_not_null (item : json) (name : string) :
  not_null item -> exists v : jsval, get_prop item name = Value v.
Proof.
  intros Hnn. destruct item; simpl; eauto. contradiction Hnn; reflexivity.
Qed.

Lemma get_prop_id (item : json) :
  not_null item -> get_prop item "id" = Value (item_id item).
Proof.
  intros Hnn. destruct item; try reflexivity. contradiction Hnn; reflexivity.
Qed.

Lemma truthy_not_null (v : json) : truthy_json v = true -> not_null v.
Proof. intros Ht ->. discriminate Ht. Qed.

Lemma strict_eq_string (v : jsval) (s : string) :
  strict_eq v (Some (JStr s)) = true <-> v = Some (JStr s).
Proof.
  split.
  - destruct v as [[ | b | n | t | l | o] | ]; simpl; try discriminate.
    intros Heq. apply String.eqb_eq in Heq. congruence.
  - intros ->. simpl. apply String.eqb_refl.
Qed.

Lemma Array_filter_other_id (id : json) (items : list json) :
  Forall not_null items ->
  Array_filter (fun item =>
                  match get_prop item "id" with
                  | Value item_id => Value (negb (strict_eq item_id (Some id)))
                  | Throw e => Throw e
                  end) items
  = Value (List.filter (other_id id) items).
Proof.
  induction 1 as [ | item items Hnn _ IH]; simpl.
  - reflexivity.
  - rewrite (get_prop_id item Hnn), IH. reflexivity.
Qed.

Lemma Forall_not_null_filter (f : json -> bool) (items : list json) :
  Forall not_null items -> Forall not_null (List.filter f items).
Proof.
  induction 1 as [ | item items Hnn _ IH]; simpl.
  - constructor.
  - destruct (f item); [constructor | ]; assumption.
Qed.

(** ** The ledger's writes *)

Section Stored.
Context `{Hlaws : JSONLaws}.

Lemma truthy_stringify (v : json) : truthy_str (Some (JSON_stringify v)) = true.
Proof.
  simpl. destruct (String.eqb_spec (JSON_stringify v) EmptyString) as [Hempty | _].
  - contradiction (stringify_nonempty v).
  - reflexivity.
Qed.

Lemma stored_list_insert (kv : KV) (key : string) (l : list json) :
  stored_list (<[key := JSON_stringify (JArr l)]> kv) key = Value l.
Proof.
  unfold stored_list. rewrite lookup_insert_eq, truthy_stringify. simpl.
  unfold JSON_parse_or_throw. rewrite parse_stringify. reflexivity.
Qed.

Lemma stored_list_insert_ne (kv : KV) (key key' value : string) :
  key' <> key -> stored_list (<[key' := value]> kv) key = stored_list kv key.
Proof.
  intros Hne. unfold stored_list. rewrite lookup_insert_ne by exact Hne. reflexivity.
Qed.

Lemma stored_list_absent (kv : KV) (key : string) :
  kv !! key = None -> stored_list kv key = Value [].
Proof. intros Hk. unfold stored_list. rewrite Hk. reflexivity. Qed.

End Stored.

Lemma decision_key_not_pending (name : string) : "decision:" +:+ name <> "pending".
Proof. discriminate. Qed.

Lemma decision_key_not_history (name : string) : "decision:" +:+ name <> "history".
Proof. discriminate. Qed.

Section Persist.
Context `{Hcodec : JSONCodec}.

(** Lines 58-77 on a namespace whose pending queue and history read as
    sequences: nothing throws, and the namespace becomes [persisted]. *)
Lemma persist_run (env : Env) (kv : KV) (name : string) (id decision : json)
    (items hist : list json) :
  ToString_json id = Value name ->
  APPROVALS env = Some kv ->
  stored_list kv "pending" = Value items ->
  Forall not_null items ->
  stored_list kv "history" = Value hist ->
  Approve.persist id decision env
  = (Value tt, set_binding NS_APPROVALS (persisted kv name id decision items hist) env).
Proof.
  intros Hname Hkv Hpending Hnn Hhistory.
  unfold Approve.persist, persisted, stored_list in *.
  rewrite Hname.
  set (dkey := "decision:" +:+ name).
  set (kv1 := <[dkey := JSON_stringify decision]> kv).
  assert (Hp1 : kv1 !! "pending" = kv !! "pending")
    by (apply lookup_insert_ne, decision_key_not_pending).
  assert (Hh1 : kv1 !! "history" = kv !! "history")
    by (apply lookup_insert_ne, decision_key_not_history).
  unfold bind, lift, ret.
  rewrite (KV_put_run NS_APPROVALS _ _ env kv Hkv). cbv beta iota.
  rewrite (KV_get_run _ _ _ kv1) by apply binding_set_binding. cbv beta iota.
  rewrite Hp1.
  destruct (truthy_str (kv !! "pending")).
  - destruct (JSON_parse_or_throw (default EmptyString (kv !! "pending"))) as [doc | e];
      [ | discriminate Hpending].
    rewrite Hpending, (Array_filter_other_id id items Hnn).
    rewrite (KV_put_run _ _ _ _ kv1) by apply binding_set_binding.
    rewrite set_binding_twice. cbv beta iota.
    set (kv2 := <["pending" := JSON_stringify (JArr (List.filter (other_id id) items))]> kv1).
    assert (Hh2 : kv2 !! "history" = kv !! "history")
      by (unfold kv2; rewrite lookup_insert_ne by discriminate; exact Hh1).
    rewrite (KV_get_run _ _ _ kv2) by apply binding_set_binding. cbv beta iota.
    rewrite Hh2.
    destruct (truthy_str (kv !! "history")).
    + destruct (JSON_parse_or_throw (default EmptyString (kv !! "history"))) as [hdoc | e];
        [ | discriminate Hhistory].
      rewrite Hhistory.
      rewrite (KV_put_run _ _ _ _ kv2) by apply binding_set_binding.
      rewrite set_binding_twice. reflexivity.
    + injection Hhistory as <-. simpl as_array. cbv beta iota.
      rewrite (KV_put_run _ _ _ _ kv2) by apply binding_set_binding.
      rewrite set_binding_twice. reflexivity.
  - rewrite (KV_get_run _ _ _ kv1) by apply binding_set_binding. cbv beta iota.
    rewrite Hh1.
    destruct (truthy_str (kv !! "history")).
    + destruct (JSON_parse_or_throw (default EmptyString (kv !! "history"))) as [hdoc | e];
        [ | discriminate Hhistory].
      rewrite Hhistory.
      rewrite (KV_put_run _ _ _ _ kv1) by apply binding_set_binding.
      rewrite set_binding_twice. reflexivity.
    + injection Hhistory as <-. simpl as_array. cbv beta iota.
      rewrite (KV_put_run _ _ _ _ kv1) by apply binding_set_binding.
      rewrite set_binding_twice. reflexivity.
Qed.

End Persist.

(** ** [POST /api/approve]: which calls record a decision *)

Section PostRuns.
Context `{Hcodec : JSONCodec} `{Hb64 : Base64}.

Lemma accepted_checked (request : Request) (email : string) (id action : json)
    (note : jsval) (now : string) :
  accepted request email id action note ->
  checked request now = Some (id, Approve.make_decision id action note (JStr email) now).
Proof.
  intros (Hemail & Happrover & (body & Hbody & Hid & Haction & Hnote) & Htruthy & Hkind).
  unfold checked. rewrite Hemail, Happrover, Hbody, Hid, Haction, Hnote, Htruthy.
  destruct Hkind as [-> | ->]; reflexivity.
Qed.

Lemma accepted_recorded (request : Request) (email name : string) (id action : json)
    (note : jsval) (now : string) :
  accepted request email id action note ->
  ToString_json id = Value name ->
  recorded request now = Some (id, Approve.make_decision id action note (JStr email) now).
Proof.
  intros Hacc Hname. unfold recorded.
  rewrite (accepted_checked _ _ _ _ _ now Hacc), Hname. reflexivity.
Qed.

Lemma recorded_checked (request : Request) (now : string) (id decision : json) :
  recorded request now = Some (id, decision) ->
  checked request now = Some (id, decision) /\
  exists name : string, ToString_json id = Value name.
Proof.
  unfold recorded.
  destruct (checked request now) as [[id' decision'] | ]; [ | discriminate].
  destruct (ToString_json id') as [name | e] eqn:Hname; [ | discriminate].
  intros [= <- <-]. split; [reflexivity | ]. exists name. exact Hname.
Qed.

(** A call that passes the checks runs lines 58-80 and nothing else. *)
Lemma onRequestPost_checked (request : Request) (now : string) (id decision : json) :
  forall env : Env,
  checked request now = Some (id, decision) ->
  Approve.onRequestPost request now env
  = (let* configured := bound NS_APPROVALS in
     (if configured then Approve.persist id decision else ret tt) ;;;
     ret (decision_response decision)) env.
Proof.
  intros env.
  unfold checked, Approve.onRequestPost, is_approver, valid_action.
  destruct (Approve.getAuthenticatedEmail request) as [[ | b | n | email | l | o] | ];
    try discriminate.
  cbn [call_toLowerCase]. unfold bind at 1. unfold lift at 1.
  destruct (includes_string Approve.ALLOWED_APPROVERS (toLowerCase email)); [ | discriminate].
  change (negb true) with false. cbv iota.
  destruct (body_json request) as [body | ]; [ | discriminate].
  destruct (get_prop body "id") as [[id' | ] | e]; try discriminate.
  destruct (get_prop body "action") as [[action | ] | e]; try discriminate.
  destruct (get_prop body "note") as [note | e]; try discriminate.
  unfold bind, lift, ret. cbv beta iota.
  destruct (truthy_json id'); [ | discriminate].
  destruct (truthy_json action); [ | discriminate].
  destruct (Array_includes [JStr "approve"; JStr "reject"] (Some action)); [ | discriminate].
  intros [= <- <-]. reflexivity.
Qed.

(** A call that fails a check leaves the environment as it was. *)
Lemma onRequestPost_not_checked (request : Request) (now : string) (env : Env) :
  checked request now = None ->
  snd (Approve.onRequestPost request now env) = env.
Proof.
  unfold checked, Approve.onRequestPost, is_approver, valid_action.
  destruct (Approve.getAuthenticatedEmail request) as [[ | b | n | email | l | o] | ];
    try reflexivity.
  cbn [call_toLowerCase]. unfold bind at 1. unfold lift at 1.
  destruct (includes_string Approve.ALLOWED_APPROVERS (toLowerCase email)); [ | reflexivity].
  change (negb true) with false. cbv iota.
  destruct (body_json request) as [body | ]; [ | reflexivity].
  destruct (get_prop body "id") as [[id' | ] | e]; try reflexivity;
    destruct (get_prop body "action") as [[action | ] | e]; try reflexivity;
    destruct (get_prop body "note") as [note | e]; try reflexivity.
  unfold bind, lift, ret. cbv beta iota.
  destruct (truthy_json id'); [ | reflexivity].
  destruct (truthy_json action); [ | reflexivity].
  change (negb true || negb true) with false. cbv iota.
  destruct (Array_includes [JStr "approve"; JStr "reject"] (Some action));
    [intros [=] | reflexivity].
Qed.

(** An id without a text: line 59 throws before the first put. *)
Lemma persist_no_name (id decision : json) (e : JsError) (env : Env) :
  ToString_json id = Throw e -> Approve.persist id decision env = (Throw e, env).
Proof. intros Hname. unfold Approve.persist, bind, lift. rewrite Hname. reflexivity. Qed.

(** A call that passes the checks and whose id has no text answers 200
    without a store, and throws with one, writing nothing. *)
Lemma onRequestPost_no_name (request : Request) (now : string) (env : Env)
    (id decision : json) (e : JsError) :
  checked request now = Some (id, decision) ->
  ToString_json id = Throw e ->
  Approve.onRequestPost request now env
  = (if bool_decide (is_Some (APPROVALS env))
     then Throw e else Value (decision_response decision), env).
Proof.
  intros Hchecked Hname.
  rewrite (onRequestPost_checked _ _ _ _ env Hchecked).
  unfold bind at 1. unfold bound. cbn [binding].
  destruct (APPROVALS env) as [kv | ].
  - rewrite bool_decide_eq_true_2 by eauto.
    unfold bind. rewrite (persist_no_name _ _ _ _ Hname). reflexivity.
  - rewrite bool_decide_eq_false_2 by apply is_Some_None. reflexivity.
Qed.

(** Any call that records nothing leaves the environment as it was. *)
Lemma onRequestPost_not_recorded (request : Request) (now : string) (env : Env) :
  recorded request now = None ->
  snd (Approve.onRequestPost request now env) = env.
Proof.
  unfold recorded.
  destruct (checked request now) as [[id decision] | ] eqn:Hchecked.
  - destruct (ToString_json id) as [name | e] eqn:Hname; [discriminate | ].
    intros _. rewrite (onRequestPost_no_name _ _ _ _ _ _ Hchecked Hname). reflexivity.
  - intros _. apply onRequestPost_not_checked, Hchecked.
Qed.

(** With the store configured and readable, a recording call answers
    200 and leaves the namespace [persisted]. *)
Lemma onRequestPost_persists (request : Request) (now : string) (env : Env) (kv : KV)
    (name : string) (id decision : json) (items hist : list json) :
  checked request now = Some (id, decision) ->
  ToString_json id = Value name ->
  APPROVALS env = Some kv ->
  stored_list kv "pending" = Value items ->
  Forall not_null items ->
  stored_list kv "history" = Value hist ->
  Approve.onRequestPost request now env
  = (Value (decision_response decision),
     set_binding NS_APPROVALS (persisted kv name id decision items hist) env).
Proof.
  intros Hchecked Hname Hkv Hpending Hnn Hhistory.
  rewrite (onRequestPost_checked _ _ _ _ env Hchecked).
  rewrite (bind_value _ _ env env true) by (apply (bound_some _ _ kv); exact Hkv).
  rewrite (bind_value _ _ env _ tt (persist_run env kv name id decision items hist
                                      Hname Hkv Hpending Hnn Hhistory)).
  reflexivity.
Qed.

End PostRuns.

Section PersistedViews.
Context `{Hlaws : JSONLaws}.

Lemma persisted_history (kv : KV) (name : string) (id decision : json) (items hist : list json) :
  stored_list (persisted kv name id decision items hist) "history"
  = Value (firstn 100 (decision :: hist)).
Proof. unfold persisted. apply stored_list_insert. Qed.

Lemma persisted_pending (kv : KV) (name : string) (id decision : json) (items hist : list json) :
  stored_list kv "pending" = Value items ->
  stored_list (persisted kv name id decision items hist) "pending"
  = Value (List.filter (other_id id) items).
Proof.
  intros Hpending. unfold persisted.
  rewrite stored_list_insert_ne by discriminate.
  destruct (truthy_str (kv !! "pending")) eqn:Htruthy.
  - apply stored_list_insert.
  - rewrite stored_list_insert_ne by apply decision_key_not_pending.
    unfold stored_list in Hpending |- *. rewrite Htruthy in Hpending |- *.
    injection Hpending as <-. reflexivity.
Qed.

Lemma persisted_pending_raw (kv : KV) (name : string) (id decision : json) (items hist : list json) :
  persisted kv name id decision items hist !! "pending"
  = if truthy_str (kv !! "pending")
    then Some (JSON_stringify (JArr (List.filter (other_id id) items)))
    else kv !! "pending".
Proof.
  unfold persisted. rewrite lookup_insert_ne by discriminate.
  destruct (truthy_str (kv !! "pending")).
  - apply lookup_insert_eq.
  - apply lookup_insert_ne, decision_key_not_pending.
Qed.

Lemma persisted_decision (kv : KV) (name : string) (id decision : json) (items hist : list json) :
  persisted kv name id decision items hist !! ("decision:" +:+ name)
  = Some (JSON_stringify decision).
Proof.
  unfold persisted.
  rewrite lookup_insert_ne by (apply not_eq_sym, decision_key_not_history).
  destruct (truthy_str (kv !! "pending")).
  - rewrite lookup_insert_ne by (apply not_eq_sym, decision_key_not_pending).
    apply lookup_insert_eq.
  - apply lookup_insert_eq.
Qed.

Lemma persisted_pending_ok (kv : KV) (name : string) (id decision : json) (items hist : list json) :
  stored_list kv "pending" = Value items ->
  Forall not_null items ->
  pending_ok (persisted kv name id decision items hist).
Proof.
  intros Hpending Hnn. exists (List.filter (other_id id) items). split.
  - apply persisted_pending, Hpending.
  - apply Forall_not_null_filter, Hnn.
Qed.

End PersistedViews.

(** [GET /api/approve] lists exactly these sequences. *)
Lemma onRequestGet_lists `{Hcodec : JSONCodec} `{Hb64 : Base64} (request : Request)
    (env : Env) (kv : KV) (email : json) (items hist : list json) :
  Approve.getAuthenticatedEmail request = Some email ->
  APPROVALS env = Some kv ->
  stored_list kv "pending" = Value items ->
  stored_list kv "history" = Value hist ->
  Approve.onRequestGet request env
  = (Value (json_response (JObj [("pending", JArr items); ("history", JArr hist)]) 200), env).
Proof.
  intros Hemail Hkv Hpending Hhistory.
  unfold Approve.onRequestGet. rewrite Hemail.
  rewrite (bind_value _ _ env env true (bound_some NS_APPROVALS env kv Hkv)).
  change (negb true) with false. cbv iota.
  rewrite (bind_value _ _ env env (kv !! "pending")) by (apply KV_get_run; exact Hkv).
  rewrite (bind_value _ _ env env (kv !! "history")) by (apply KV_get_run; exact Hkv).
  unfold stored_list in Hpending, Hhistory. unfold bind, lift, ret.
  destruct (truthy_str (kv !! "pending")).
  - destruct (JSON_parse_or_throw (default EmptyString (kv !! "pending"))) as [doc | e];
      [ | discriminate Hpending].
    destruct doc; try discriminate Hpending. injection Hpending as ->.
    destruct (truthy_str (kv !! "history")).
    + destruct (JSON_parse_or_throw (default EmptyString (kv !! "history"))) as [hdoc | e];
        [ | discriminate Hhistory].
      destruct hdoc; try discriminate Hhistory. injection Hhistory as ->. reflexivity.
    + injection Hhistory as <-. reflexivity.
  - injection Hpending as <-.
    destruct (truthy_str (kv !! "history")).
    + destruct (JSON_parse_or_throw (default EmptyString (kv !! "history"))) as [hdoc | e];
        [ | discriminate Hhistory].
      destruct hdoc; try discriminate Hhistory. injection Hhistory as ->. reflexivity.
    + injection Hhistory as <-. reflexivity.
Qed.

Lemma filter_other_id_absent (id : json) (items : list json) :
  Forall (fun item => strict_eq (item_id item) (Some id) = false) items ->
  List.filter (other_id id) items = items.
Proof.
  induction 1 as [ | item items Habsent _ IH]; simpl.
  - reflexivity.
  - unfold other_id at 1. rewrite Habsent. simpl. f_equal. exact IH.
Qed.

(** ** The approval ledger: recording a decision *)

Lemma in_filter_other_id (id : json) (items : list json) (item : json) :
  In item (List.filter (other_id id) items)
  <-> In item items /\ strict_eq (item_id item) (Some id) = false.
Proof.
  rewrite filter_In. unfold other_id. rewrite Bool.negb_true_iff. reflexivity.
Qed.

(** C1. With the approvals store configured, [POST /api/approve] for an
    accepted request whose id has a text to key the decision record with
    (every string id has, and every number; an object only without an
    own [toString] member) answers with the decision, writes back the
    pending queue without the items whose [id] is identical to the
    decided one (for a string id: exactly the items whose [id] is another
    value stay, in their order), and stores a history whose first entry
    is the new decision [{id, action, note or empty, by, at}]. *)
Theorem record_decision_filters_pending_and_prepends `{Hlaws : JSONLaws} `{Hb64 : Base64}
    (env : Env) (kv : KV) (request : Request) (now email name : string)
    (id action : json) (note : jsval) (items hist : list json) :
  accepted request email id action note ->
  ToString_json id = Value name ->
  APPROVALS env = Some kv ->
  stored_list kv "pending" = Value items ->
  Forall not_null items ->
  stored_list kv "history" = Value hist ->
  let decision := JObj [("id", id); ("action", action);
                        ("note", or_else note (JStr EmptyString));
                        ("by", JStr email); ("at", JStr now)] in
  let remaining := List.filter (other_id id) items in
  exists kv' : KV,
    Approve.onRequestPost request now env
    = (Value (decision_response decision), set_binding NS_APPROVALS kv' env) /\
    (truthy_str (kv !! "pending") = true ->
     kv' !! "pending" = Some (JSON_stringify (JArr remaining))) /\
    stored_list kv' "pending" = Value remaining /\
    (forall item : json,
        In item remaining <-> In item items /\ strict_eq (item_id item) (Some id) = false) /\
    (forall s : string, id = JStr s ->
        forall item : json, In item remaining <-> In item items /\ item_id item <> Some (JStr s)) /\
    stored_list kv' "history" = Value (firstn 100 (decision :: hist)) /\
    head (firstn 100 (decision :: hist)) = Some decision.
Proof.
  intros Hacc Hname Hkv Hpending Hnn Hhistory decision remaining.
  pose proof (accepted_checked _ _ _ _ _ now Hacc) as Hrec.
  exists (persisted kv name id decision items hist).
  split; [ | split; [ | split; [ | split; [ | split; [ | split]]]]].
  - exact (onRequestPost_persists _ _ _ _ _ _ _ _ _ Hrec Hname Hkv Hpending Hnn Hhistory).
  - intros Htruthy. rewrite persisted_pending_raw, Htruthy. reflexivity.
  - apply persisted_pending, Hpending.
  - intros item. apply in_filter_other_id.
  - intros s -> item. unfold remaining. rewrite in_filter_other_id.
    split; intros [Hin Hid]; (split; [exact Hin | ]).
    + intros Heq. apply strict_eq_string in Heq. congruence.
    + destruct (strict_eq (item_id item) (Some (JStr s))) eqn:Heq; [ | reflexivity].
      apply strict_eq_string in Heq. contradiction.
  - apply persisted_history.
  - reflexivity.
Qed.

(** C5. Recording a decision for an id that no pending item carries
    (and that has a text to key the decision record with, as every
    string and number has) succeeds with status 200, leaves the pending
    queue as it was, and still puts the new decision in front of the
    history. *)
Theorem decision_for_absent_id_keeps_pending `{Hlaws : JSONLaws} `{Hb64 : Base64}
    (env : Env) (kv : KV) (request : Request) (now email name : string)
    (id action : json) (note : jsval) (items hist : list json) :
  accepted request email id action note ->
  ToString_json id = Value name ->
  APPROVALS env = Some kv ->
  stored_list kv "pending" = Value items ->
  Forall not_null items ->
  Forall (fun item => strict_eq (item_id item) (Some id) = false) items ->
  stored_list kv "history" = Value hist ->
  let decision := Approve.make_decision id action note (JStr email) now in
  exists kv' : KV,
    Approve.onRequestPost request now env
    = (Value (decision_response decision), set_binding NS_APPROVALS kv' env) /\
    status (decision_response decision) = 200 /\
    stored_list kv' "pending" = Value items /\
    stored_list kv' "history" = Value (decision :: firstn 99 hist).
Proof.
  intros Hacc Hname Hkv Hpending Hnn Habsent Hhistory decision.
  pose proof (accepted_checked _ _ _ _ _ now Hacc) as Hrec.
  exists (persisted kv name id decision items hist).
  split; [ | split; [ | split]].
  - exact (onRequestPost_persists _ _ _ _ _ _ _ _ _ Hrec Hname Hkv Hpending Hnn Hhistory).
  - reflexivity.
  - rewrite (persisted_pending _ _ _ _ _ _ Hpending).
    rewrite (filter_other_id_absent _ _ Habsent). reflexivity.
  - apply persisted_history.
Qed.

(** C6. Without an approvals store the accepted request is still answered
    with the full decision [{ok, id, action, note, by, at}], and nothing
    at all is written: the environment is unchanged. *)
Theorem unconfigured_store_answers_without_persisting `{Hcodec : JSONCodec} `{Hb64 : Base64}
    (env : Env) (request : Request) (now email : string)
    (id action : json) (note : jsval) :
  accepted request email id action note ->
  APPROVALS env = None ->
  Approve.onRequestPost request now env
  = (Value (json_response
              (JObj [("ok", JBool true); ("id", id); ("action", action);
                     ("note", or_else note (JStr EmptyString));
                     ("by", JStr email); ("at", JStr now)]) 200),
     env).
Proof.
  intros Hacc Hnone.
  rewrite (onRequestPost_checked _ _ _ _ env (accepted_checked _ _ _ _ _ now Hacc)).
  rewrite (bind_value _ _ env env false) by (apply bound_none; exact Hnone).
  reflexivity.
Qed.

(** C9. With the approvals store configured but no pending key in it, an
    accepted request does not create the key, while the decision record
    and the history are written.  The record is keyed by the text of the
    id, [name]: the id itself if it is a string, what the runtime prints
    for it if it is a number. *)
Theorem absent_pending_key_stays_absent `{Hcodec : JSONCodec} `{Hb64 : Base64}
    (env : Env) (kv : KV) (request : Request) (now email name : string)
    (id action : json) (note : jsval) (hist : list json) :
  accepted request email id action note ->
  ToString_json id = Value name ->
  APPROVALS env = Some kv ->
  kv !! "pending" = None ->
  stored_list kv "history" = Value hist ->
  let decision := Approve.make_decision id action note (JStr email) now in
  exists kv' : KV,
    Approve.onRequestPost request now env
    = (Value (decision_response decision), set_binding NS_APPROVALS kv' env) /\
    kv' !! "pending" = None /\
    kv' !! ("decision:" +:+ name) = Some (JSON_stringify decision) /\
    kv' !! "history" = Some (JSON_stringify (JArr (firstn 100 (decision :: hist)))).
Proof.
  intros Hacc Hname Hkv Hnone Hhistory decision.
  pose proof (accepted_checked _ _ _ _ _ now Hacc) as Hrec.
  exists (persisted kv name id decision [] hist).
  split; [ | split; [ | split]].
  - apply (onRequestPost_persists _ _ _ _ _ _ _ _ _ Hrec Hname Hkv);
      [ | constructor | exact Hhistory].
    apply stored_list_absent, Hnone.
  - rewrite persisted_pending_raw, Hnone. reflexivity.
  - apply persisted_decision.
  - unfold persisted. apply lookup_insert_eq.
Qed.

(** ** The history under a sequence of calls *)

Lemma take_app_take_le {A : Type} (l t : list A) (m k : nat) :
  (m <= k)%nat -> firstn m (l ++ firstn k t) = firstn m (l ++ t).
Proof.
  revert m. induction l as [ | x l IH]; intros m Hle; simpl.
  - rewrite firstn_firstn. f_equal. lia.
  - destruct m as [ | m]; simpl; [reflexivity | ].
    f_equal. apply IH. lia.
Qed.

(** Prepending and truncating, call after call, is truncating once. *)
Lemma prepend_all (ds hist : list json) :
  (length hist <= 100)%nat ->
  fold_left (fun h d => firstn 100 (d :: h)) ds hist = firstn 100 (rev ds ++ hist).
Proof.
  revert hist. induction ds as [ | d ds IH]; intros hist Hlen.
  - simpl. symmetry. apply firstn_all2. exact Hlen.
  - cbn [fold_left rev]. rewrite IH by (rewrite length_firstn; lia).
    rewrite take_app_take_le by lia.
    rewrite <- app_assoc. reflexivity.
Qed.

Lemma take_rev_drop {A : Type} (n : nat) (l t : list A) :
  (n <= length l)%nat ->
  firstn n (rev l ++ t) = rev (skipn (length l - n) l).
Proof.
  intros Hle.
  rewrite firstn_app, length_rev.
  replace (n - length l)%nat with 0%nat by lia.
  rewrite firstn_O, app_nil_r.
  rewrite <- (firstn_skipn (length l - n) l) at 1.
  rewrite rev_app_distr, firstn_app, length_rev, length_skipn.
  replace (n - (length l - (length l - n)))%nat with 0%nat by lia.
  rewrite firstn_O, app_nil_r.
  apply firstn_all2. rewrite length_rev, length_skipn. lia.
Qed.

Section Sequences.
Context `{Hlaws : JSONLaws} `{Hb64 : Base64}.

Lemma run_posts_history (calls : list (Request * string)) :
  forall (env : Env) (kv : KV) (hist : list json),
    APPROVALS env = Some kv ->
    pending_ok kv ->
    stored_list kv "history" = Value hist ->
    exists kv' : KV,
      APPROVALS (run_posts calls env) = Some kv' /\
      pending_ok kv' /\
      stored_list kv' "history"
      = Value (fold_left (fun h d => firstn 100 (d :: h)) (decisions calls) hist).
Proof.
  induction calls as [ | [request now] calls IH]; intros env kv hist Hkv Hok Hhistory.
  - exists kv. simpl. auto.
  - cbn [run_posts decisions].
    destruct (recorded request now) as [[id decision] | ] eqn:Hrec.
    + destruct Hok as (items & Hpending & Hnn).
      destruct (recorded_checked _ _ _ _ Hrec) as (Hchecked & name & Hname).
      rewrite (onRequestPost_persists _ _ _ _ _ _ _ _ _
                 Hchecked Hname Hkv Hpending Hnn Hhistory).
      cbn [snd fold_left].
      apply (IH _ (persisted kv name id decision items hist)).
      * reflexivity.
      * apply persisted_pending_ok; assumption.
      * apply persisted_history.
    + rewrite (onRequestPost_not_recorded _ _ _ Hrec).
      apply (IH env kv hist); assumption.
Qed.

End Sequences.

(** C2. Starting from a history of at most 100 entries, after any
    sequence of calls of [POST /api/approve] the stored history is the
    recorded decisions, newest first, followed by the old entries, cut to
    100; so it never holds more than 100 entries, and once 100 or more
    decisions are recorded (101 in particular) it is exactly the 100 most
    recent ones, newest first.  The recorded decisions are those of the
    calls that pass every check and whose id has a text to key the
    decision record with; any other call returns or throws before the
    first write. *)
Theorem history_capped_newest_first `{Hlaws : JSONLaws} `{Hb64 : Base64}
    (calls : list (Request * string)) (env : Env) (kv : KV) (hist : list json) :
  APPROVALS env = Some kv ->
  pending_ok kv ->
  stored_list kv "history" = Value hist ->
  (length hist <= 100)%nat ->
  exists (kv' : KV) (hist' : list json),
    APPROVALS (run_posts calls env) = Some kv' /\
    stored_list kv' "history" = Value hist' /\
    hist' = firstn 100 (rev (decisions calls) ++ hist) /\
    (length hist' <= 100)%nat /\
    ((100 <= length (decisions calls))%nat ->
     hist' = rev (skipn (length (decisions calls) - 100) (decisions calls)) /\
     length hist' = 100%nat).
Proof.
  intros Hkv Hok Hhistory Hlen.
  destruct (run_posts_history calls env kv hist Hkv Hok Hhistory) as (kv' & Hkv' & _ & Hhist').
  rewrite prepend_all in Hhist' by exact Hlen.
  exists kv', (firstn 100 (rev (decisions calls) ++ hist)).
  split; [exact Hkv' | ]. split; [exact Hhist' | ]. split; [reflexivity | ].
  split.
  - rewrite length_firstn. lia.
  - intros Hmany. rewrite take_rev_drop by exact Hmany. split; [reflexivity | ].
    rewrite length_rev, length_skipn. lia.
Qed.

(** ** The order of the checks of [POST /api/approve] *)

Lemma get_prop_value_not_null (body : json) (name : string) (v : jsval) :
  get_prop body name = Value v -> not_null body.
Proof. intros Hget ->. discriminate Hget. Qed.

Lemma includes_string_In (arr : list string) (s : string) :
  includes_string arr s = true <-> In s arr.
Proof.
  unfold includes_string. rewrite existsb_exists. split.
  - intros (x & Hin & Heq). apply String.eqb_eq in Heq. subst x. exact Hin.
  - intros Hin. exists s. split; [exact Hin | apply String.eqb_refl].
Qed.

Section Checks.
Context `{Hcodec : JSONCodec} `{Hb64 : Base64}.

Lemma not_approver_forbidden (request : Request) (now : string) (env : Env) (email : string) :
  Approve.getAuthenticatedEmail request = Some (JStr email) ->
  is_approver email = false ->
  Approve.onRequestPost request now env = (Value (failure_response NotAuthorized), env).
Proof.
  intros Hemail Hno. unfold Approve.onRequestPost, is_approver in *.
  rewrite Hemail. cbn [call_toLowerCase]. unfold bind at 1. unfold lift at 1.
  rewrite Hno. reflexivity.
Qed.

Lemma first_failure_returned (request : Request) (now : string) (env : Env)
    (email : string) (body : json) (id action : jsval) (f : Failure) :
  Approve.getAuthenticatedEmail request = Some (JStr email) ->
  body_json request = Some body ->
  get_prop body "id" = Value id ->
  get_prop body "action" = Value action ->
  first_failure id action email = Some f ->
  Approve.onRequestPost request now env = (Value (failure_response f), env).
Proof.
  intros Hemail Hbody Hid Haction Hfail.
  unfold first_failure in Hfail.
  destruct (is_approver email) eqn:Happrover; simpl in Hfail.
  2:{ injection Hfail as <-. apply (not_approver_forbidden _ _ _ email); assumption. }
  destruct (get_prop_not_null body "note" (get_prop_value_not_null _ _ _ Hid)) as [note Hnote].
  unfold Approve.onRequestPost. unfold is_approver in Happrover.
  rewrite Hemail. cbn [call_toLowerCase]. unfold bind at 1. unfold lift at 1.
  rewrite Happrover, Hbody, Hid, Haction, Hnote.
  change (negb true) with false. unfold bind, lift, ret. cbv beta iota.
  unfold has_fields, valid_action in Hfail.
  destruct id as [id | ]; [ | injection Hfail as <-; reflexivity].
  destruct action as [action | ].
  2:{ simpl in Hfail. rewrite Bool.andb_false_r in Hfail. injection Hfail as <-. reflexivity. }
  simpl truthy in Hfail.
  destruct (truthy_json id); [ | injection Hfail as <-; reflexivity].
  destruct (truthy_json action); [ | injection Hfail as <-; reflexivity].
  change (negb true || negb true) with false. cbv iota.
  cbn [andb negb] in Hfail.
  destruct (Array_includes [JStr "approve"; JStr "reject"] (Some action));
    [discriminate Hfail | ].
  injection Hfail as <-. reflexivity.
Qed.

End Checks.

Section Distinct.
Context `{Hlaws : JSONLaws}.

Lemma JSON_stringify_inj (a b : json) : JSON_stringify a = JSON_stringify b -> a = b.
Proof.
  intros Heq. apply (f_equal JSON_parse) in Heq.
  rewrite !parse_stringify in Heq. congruence.
Qed.

Lemma failure_responses_distinct :
  failure_response NotAuthorized <> failure_response MissingField /\
  failure_response NotAuthorized <> failure_response InvalidAction /\
  failure_response MissingField <> failure_response InvalidAction.
Proof.
  unfold failure_response, json_response. repeat split; intros Heq.
  - discriminate Heq.
  - discriminate Heq.
  - injection Heq as Heq. apply JSON_stringify_inj in Heq. discriminate Heq.
Qed.

End Distinct.

(** C4, amended.  The allow-list is checked first, before the body is
    read: a caller who is not an approver gets NotAuthorized whatever the
    body holds.  For an approver, missing [id] or [action] gives
    MissingField whatever the action kind, and only with both present does
    an action other than approve/reject give InvalidAction.  The three
    failures are distinct responses, none writes anything, and membership
    in the allow-list is tested on the lower-cased identity. *)
Theorem preconditions_allow_list_first `{Hlaws : JSONLaws} `{Hb64 : Base64}
    (request : Request) (now : string) (env : Env) (email : string) :
  Approve.getAuthenticatedEmail request = Some (JStr email) ->
  (is_approver email = false ->
   Approve.onRequestPost request now env = (Value (failure_response NotAuthorized), env)) /\
  (forall (body : json) (id action : jsval) (f : Failure),
      body_json request = Some body ->
      get_prop body "id" = Value id ->
      get_prop body "action" = Value action ->
      first_failure id action email = Some f ->
      Approve.onRequestPost request now env = (Value (failure_response f), env)) /\
  (failure_response NotAuthorized <> failure_response MissingField /\
   failure_response NotAuthorized <> failure_response InvalidAction /\
   failure_response MissingField <> failure_response InvalidAction) /\
  (is_approver email = true <-> In (toLowerCase email) Approve.ALLOWED_APPROVERS).
Proof.
  intros Hemail. split; [ | split; [ | split]].
  - intros Hno. apply (not_approver_forbidden _ _ _ email); assumption.
  - intros body id action f Hbody Hid Haction Hfail.
    apply (first_failure_returned _ _ _ email body id action); assumption.
  - apply failure_responses_distinct.
  - apply includes_string_In.
Qed.

(** ** The status relay *)

Lemma seed_of_not_null (statusData : json) :
  not_null statusData ->
  exists pending_approvals : jsval,
    get_prop statusData "pending_approvals" = Value pending_approvals /\
    seed_of statusData = or_else pending_approvals (JArr []).
Proof.
  intros Hnn. destruct (get_prop_not_null statusData "pending_approvals" Hnn) as [v Hv].
  exists v. unfold seed_of. rewrite Hv. auto.
Qed.

Section Push.
Context `{Hcodec : JSONCodec}.

Lemma seed_pending_run (env : Env) (kv : KV) (statusData : json) :
  APPROVALS env = Some kv ->
  not_null statusData ->
  Sync.seed_pending statusData env
  = (Value tt,
     set_binding NS_APPROVALS
       (if truthy_str (kv !! "pending") then kv
        else <["pending" := JSON_stringify (seed_of statusData)]> kv) env).
Proof.
  intros Hkv Hnn. unfold Sync.seed_pending.
  rewrite (bind_value _ _ env env (kv !! "pending")) by (apply KV_get_run; exact Hkv).
  destruct (truthy_str (kv !! "pending")); simpl negb; cbv iota.
  - unfold ret. destruct env; simpl in *. rewrite Hkv. reflexivity.
  - destruct (seed_of_not_null statusData Hnn) as (v & Hv & Hseed).
    unfold bind, lift. rewrite Hv, Hseed.
    apply KV_put_run. exact Hkv.
Qed.

(** An authenticated push of a snapshot that is not [null] leaves the
    environment [pushed], and then answers 200 or throws, as building
    the agents text does. *)
Lemma push_outcome (request : Request) (now_sync now_resp : string) (env : Env)
    (statusData : json) :
  authorized_push request env ->
  body_json request = Some statusData ->
  not_null statusData ->
  Sync.onRequestPost request now_sync now_resp env
  = (match Sync.agents_summary statusData with
     | Value agents => Value (push_response now_resp agents)
     | Throw e => Throw e
     end, pushed env statusData now_sync).
Proof.
  intros [Hsecret Htoken] Hbody Hnn.
  unfold Sync.onRequestPost. rewrite Hsecret, Htoken, String.eqb_refl, Hbody.
  simpl orb. cbv iota.
  unfold pushed.
  destruct env as [secret dashboard approvals]. simpl in *.
  destruct dashboard as [dkv | ]; destruct approvals as [akv | ];
    unfold bind, bound, KV_put, lift, ret;
    repeat (cbn [binding set_binding DASHBOARD_DATA APPROVALS SYNC_SECRET];
            first [ rewrite bool_decide_eq_true_2 by eauto
                  | rewrite bool_decide_eq_false_2 by apply is_Some_None ];
            cbv beta iota);
    cbn [binding set_binding DASHBOARD_DATA APPROVALS SYNC_SECRET];
    try match goal with
        | |- context [Sync.seed_pending statusData ?e] =>
            rewrite (seed_pending_run e akv statusData eq_refl Hnn)
        end;
    cbn [binding set_binding DASHBOARD_DATA APPROVALS SYNC_SECRET fmap option_fmap option_map];
    destruct (Sync.agents_summary statusData); reflexivity.
Qed.

Lemma push_store (request : Request) (now_sync now_resp : string) (env : Env)
    (statusData : json) :
  authorized_push request env ->
  body_json request = Some statusData ->
  not_null statusData ->
  snd (Sync.onRequestPost request now_sync now_resp env) = pushed env statusData now_sync.
Proof.
  intros Hauth Hbody Hnn. rewrite (push_outcome _ _ _ _ _ Hauth Hbody Hnn). reflexivity.
Qed.

Lemma push_run (request : Request) (now_sync now_resp : string) (env : Env)
    (statusData : json) (agents : string) :
  authorized_push request env ->
  body_json request = Some statusData ->
  not_null statusData ->
  Sync.agents_summary statusData = Value agents ->
  Sync.onRequestPost request now_sync now_resp env
  = (Value (push_response now_resp agents), pushed env statusData now_sync).
Proof.
  intros Hauth Hbody Hnn Hagents.
  rewrite (push_outcome _ _ _ _ _ Hauth Hbody Hnn), Hagents. reflexivity.
Qed.

Lemma get_status_stored (env : Env) (raw : string) :
  stored_status env = Some raw ->
  raw <> EmptyString ->
  Sync.onRequestGet env = (Value (status_response raw), env).
Proof.
  unfold stored_status, Sync.onRequestGet. intros Hstored Hne.
  destruct (DASHBOARD_DATA env) as [kv | ] eqn:Hkv; [ | discriminate Hstored].
  rewrite (bind_value _ _ env env true (bound_some NS_DASHBOARD_DATA env kv Hkv)).
  rewrite (bind_value _ _ env env (kv !! "status")) by (apply KV_get_run; exact Hkv).
  rewrite Hstored. simpl.
  destruct (String.eqb_spec raw EmptyString) as [Heq | _]; [contradiction | reflexivity].
Qed.

Lemma get_status_nothing_stored (env : Env) :
  stored_status env = None ->
  Sync.onRequestGet env = (Value not_found_response, env).
Proof.
  unfold stored_status, Sync.onRequestGet. intros Hstored.
  destruct (DASHBOARD_DATA env) as [kv | ] eqn:Hkv.
  - rewrite (bind_value _ _ env env true (bound_some NS_DASHBOARD_DATA env kv Hkv)).
    rewrite (bind_value _ _ env env (kv !! "status")) by (apply KV_get_run; exact Hkv).
    rewrite Hstored. reflexivity.
  - rewrite (bind_value _ _ env env false (bound_none NS_DASHBOARD_DATA env Hkv)).
    reflexivity.
Qed.

End Push.

Lemma authorized_push_pushed `{Hcodec : JSONCodec} (request : Request) (env : Env)
    (statusData : json) (now_sync : string) :
  authorized_push request env -> authorized_push request (pushed env statusData now_sync).
Proof. intros Hauth. exact Hauth. Qed.

Lemma seed_of_array (statusData : json) (l : list json) :
  get_prop statusData "pending_approvals" = Value (Some (JArr l)) ->
  seed_of statusData = JArr l.
Proof. intros Hget. unfold seed_of. rewrite Hget. reflexivity. Qed.

Lemma seed_of_absent (statusData : json) :
  get_prop statusData "pending_approvals" = Value undefined ->
  seed_of statusData = JArr [].
Proof. intros Hget. unfold seed_of. rewrite Hget. reflexivity. Qed.

(** C3. Seeding fires at most once.  An authenticated push that finds no
    pending value in the approvals store writes the snapshot's
    [pending_approvals] list as the queue (the empty sequence when the
    field is absent), and any later push leaves that queue alone; a push
    that finds a stored pending value leaves the approvals store as it
    is. *)
Theorem pending_queue_seeded_once `{Hlaws : JSONLaws}
    (request : Request) (now_sync now_resp : string) (env : Env) (kv : KV)
    (statusData : json) :
  authorized_push request env ->
  body_json request = Some statusData ->
  not_null statusData ->
  APPROVALS env = Some kv ->
  let env' := snd (Sync.onRequestPost request now_sync now_resp env) in
  (kv !! "pending" = None ->
   exists kv' : KV,
     APPROVALS env' = Some kv' /\
     kv' = <["pending" := JSON_stringify (seed_of statusData)]> kv /\
     (forall l : list json,
         get_prop statusData "pending_approvals" = Value (Some (JArr l)) ->
         stored_list kv' "pending" = Value l) /\
     (get_prop statusData "pending_approvals" = Value undefined ->
      stored_list kv' "pending" = Value []) /\
     (forall (request2 : Request) (now_sync2 now_resp2 : string) (statusData2 : json),
         authorized_push request2 env ->
         body_json request2 = Some statusData2 ->
         not_null statusData2 ->
         APPROVALS (snd (Sync.onRequestPost request2 now_sync2 now_resp2 env')) = Some kv')) /\
  (forall raw : string,
      kv !! "pending" = Some raw -> raw <> EmptyString -> APPROVALS env' = Some kv).
Proof.
  intros Hauth Hbody Hnn Hkv env'.
  unfold env'. rewrite (push_store _ _ _ _ _ Hauth Hbody Hnn).
  split.
  - intros Hnone.
    exists (<["pending" := JSON_stringify (seed_of statusData)]> kv).
    split; [ | split; [reflexivity | split; [ | split]]].
    + unfold pushed. cbn [APPROVALS]. rewrite Hkv.
      cbn [fmap option_fmap option_map]. rewrite Hnone. reflexivity.
    + intros l Hl. rewrite (seed_of_array _ _ Hl). apply stored_list_insert.
    + intros Habsent. rewrite (seed_of_absent _ Habsent). apply stored_list_insert.
    + intros request2 now_sync2 now_resp2 statusData2 Hauth2 Hbody2 Hnn2.
      rewrite (push_store request2 _ _ _ statusData2
                 (authorized_push_pushed _ _ _ _ Hauth2) Hbody2 Hnn2).
      unfold pushed. cbn [APPROVALS]. rewrite Hkv. cbn [fmap option_fmap option_map].
      rewrite Hnone. cbn [truthy_str]. cbv iota.
      rewrite lookup_insert_eq, truthy_stringify. reflexivity.
  - intros raw Hraw Hne. unfold pushed. cbn [APPROVALS]. rewrite Hkv.
    cbn [fmap option_fmap option_map]. rewrite Hraw. unfold truthy_str.
    destruct (String.eqb_spec raw EmptyString) as [Heq | _]; [contradiction | reflexivity].
Qed.

(** C10. The two stores are gated separately: with the status store
    unbound and the approvals store bound but holding no pending value, an
    authenticated push writes the snapshot's [pending_approvals] as the
    pending queue and stores neither the snapshot nor the last-sync time
    (the status store stays unbound); and it answers 200, with the agents
    text that lines 53-55 build for the snapshot. *)
Theorem seeding_without_status_store `{Hcodec : JSONCodec}
    (request : Request) (now_sync now_resp : string) (env : Env) (kv : KV)
    (statusData : json) :
  authorized_push request env ->
  body_json request = Some statusData ->
  not_null statusData ->
  DASHBOARD_DATA env = None ->
  APPROVALS env = Some kv ->
  kv !! "pending" = None ->
  snd (Sync.onRequestPost request now_sync now_resp env)
  = {| SYNC_SECRET := SYNC_SECRET env;
       DASHBOARD_DATA := None;
       APPROVALS := Some (<["pending" := JSON_stringify (seed_of statusData)]> kv) |} /\
  (forall agents : string,
      Sync.agents_summary statusData = Value agents ->
      fst (Sync.onRequestPost request now_sync now_resp env)
      = Value (push_response now_resp agents) /\
      status (push_response now_resp agents) = 200) /\
  (forall l : list json,
      get_prop statusData "pending_approvals" = Value (Some (JArr l)) ->
      seed_of statusData = JArr l).
Proof.
  intros Hauth Hbody Hnn Hnone Hkv Hpending.
  split; [ | split].
  - rewrite (push_store _ _ _ _ _ Hauth Hbody Hnn). unfold pushed.
    rewrite Hnone, Hkv. cbn [fmap option_fmap option_map]. rewrite Hpending. reflexivity.
  - intros agents Hagents.
    rewrite (push_run _ _ _ _ _ _ Hauth Hbody Hnn Hagents). split; reflexivity.
  - apply seed_of_array.
Qed.

(** C8. [GET /api/sync] answers 404 while no snapshot is stored, and
    otherwise answers with exactly the string stored under the status key;
    after an authenticated push with the status store bound that string is
    the serialization of the pushed snapshot, whatever was stored before.
    With the status store unbound a push stores nothing, and the answer
    stays 404. *)
Theorem latest_snapshot_returned_verbatim `{Hlaws : JSONLaws} (env : Env) :
  (stored_status env = None ->
   Sync.onRequestGet env = (Value not_found_response, env) /\
   status not_found_response = 404) /\
  (forall raw : string,
      stored_status env = Some raw -> raw <> EmptyString ->
      Sync.onRequestGet env = (Value (status_response raw), env) /\
      body (status_response raw) = raw /\ status (status_response raw) = 200) /\
  (forall (request : Request) (now_sync now_resp : string) (statusData : json),
      authorized_push request env ->
      body_json request = Some statusData ->
      not_null statusData ->
      let env' := snd (Sync.onRequestPost request now_sync now_resp env) in
      (forall kv : KV,
          DASHBOARD_DATA env = Some kv ->
          stored_status env' = Some (JSON_stringify statusData) /\
          Sync.onRequestGet env'
          = (Value (status_response (JSON_stringify statusData)), env')) /\
      (DASHBOARD_DATA env = None ->
       stored_status env' = None /\
       Sync.onRequestGet env' = (Value not_found_response, env'))).
Proof.
  split; [ | split].
  - intros Hnone. split; [apply get_status_nothing_stored, Hnone | reflexivity].
  - intros raw Hraw Hne. split; [apply get_status_stored; assumption | split; reflexivity].
  - intros request now_sync now_resp statusData Hauth Hbody Hnn env'.
    assert (Hrun : env' = pushed env statusData now_sync)
      by (unfold env'; apply (push_store _ _ _ _ _ Hauth Hbody Hnn)).
    split.
    + intros kv Hkv.
      assert (Hstored : stored_status env' = Some (JSON_stringify statusData)).
      { rewrite Hrun. unfold stored_status, pushed. cbn [DASHBOARD_DATA]. rewrite Hkv.
        cbn [fmap option_fmap option_map].
        rewrite lookup_insert_ne by discriminate. apply lookup_insert_eq. }
      split; [exact Hstored | ].
      apply get_status_stored; [exact Hstored | apply stringify_nonempty].
    + intros Hunbound.
      assert (Hstored : stored_status env' = None).
      { rewrite Hrun. unfold stored_status, pushed. cbn [DASHBOARD_DATA]. rewrite Hunbound.
        reflexivity. }
      split; [exact Hstored | apply get_status_nothing_stored, Hstored].
Qed.

(** C7, at the input where the code departs from it: for a snapshot whose
    [summary] is present but carries no [active_agents], the response's
    [agents] field is the string [undefined active], not [unknown]. *)
Theorem agents_field_without_active_agents `{Hcodec : JSONCodec}
    (request : Request) (now_sync now_resp : string) (env : Env) :
  authorized_push request env ->
  body_json request = Some (JObj [("summary", JObj [])]) ->
  get_prop (JObj [("summary", JObj [])]) "summary" = Value (Some (JObj [])) /\
  get_prop (JObj []) "active_agents" = Value undefined /\
  fst (Sync.onRequestPost request now_sync now_resp env)
  = Value (push_response now_resp "undefined active").
Proof.
  intros Hauth Hbody. split; [reflexivity | split; [reflexivity | ]].
  rewrite (push_run _ _ _ _ _ "undefined active" Hauth Hbody);
    [reflexivity | discriminate | reflexivity].
Qed.

(** ** The compact JSON codec satisfies the laws *)

Module CompactJSONFacts.
Import CompactJSON.

(** Induction on documents, with the hypothesis for every element of an
    array and every member of an object. *)
Lemma json_nested_ind (P : json -> Prop) :
  P JNull ->
  (forall b, P (JBool b)) ->
  (forall n, P (JNum n)) ->
  (forall s, P (JStr s)) ->
  (forall items, Forall P items -> P (JArr items)) ->
  (forall props, Forall (fun m => P (snd m)) props -> P (JObj props)) ->
  forall v, P v.
Proof.
  intros Hnull Hbool Hnum Hstr Harr Hobj.
  fix IH 1. intros [ | b | n | s | items | props].
  - exact Hnull.
  - apply Hbool.
  - apply Hnum.
  - apply Hstr.
  - apply Harr. induction items as [ | x items IHitems]; constructor.
    + apply IH.
    + exact IHitems.
  - apply Hobj. induction props as [ | [name x] props IHprops]; constructor.
    + apply IH.
    + exact IHprops.
Qed.

(** *** Strings *)

Lemma read_escape_char (c : ascii) (k : string) :
  read_string (escape_char c +:+ k) = push_char c (read_string k).
Proof.
  destruct c as [[ | ] [ | ] [ | ] [ | ] [ | ] [ | ] [ | ] [ | ]]; reflexivity.
Qed.

Lemma read_write_string (s k : string) : read_string (write_string s k) = Some (s, k).
Proof.
  induction s as [ | c s IH]; cbn [write_string].
  - reflexivity.
  - rewrite read_escape_char, IH. reflexivity.
Qed.

Lemma length_append (a b : string) :
  String.length (a +:+ b) = (String.length a + String.length b)%nat.
Proof. induction a as [ | c a IH]; simpl; [reflexivity | f_equal; exact IH]. Qed.

Lemma escape_char_length (c : ascii) : (1 <= String.length (escape_char c))%nat.
Proof.
  destruct c as [[ | ] [ | ] [ | ] [ | ] [ | ] [ | ] [ | ] [ | ]];
    apply Nat.leb_le; reflexivity.
Qed.

Lemma write_string_length (s k : string) :
  (S (String.length k) <= String.length (write_string s k))%nat.
Proof.
  induction s as [ | c s IH]; cbn [write_string String.length].
  - lia.
  - rewrite length_append. pose proof (escape_char_length c). lia.
Qed.

(** *** Numbers *)

Lemma uint_text (u : Decimal.uint) : number_text (NilEmpty.string_of_uint u) = true.
Proof. induction u; cbn; auto. Qed.

Lemma decimal_numeral_text (n : Z) : number_text (decimal_numeral n) = true.
Proof.
  unfold decimal_numeral.
  destruct (Z.to_int n) as [u | u]; cbn [NilZero.string_of_int number_text].
  - destruct u; try apply uint_text. reflexivity.
  - destruct u; try (cbn; apply uint_text). reflexivity.
Qed.

Lemma decimal_numeral_head (n : Z) :
  exists (c : ascii) (r : string), decimal_numeral n = String c r /\ number_char c = true.
Proof.
  pose proof (decimal_numeral_text n) as Htext.
  unfold decimal_numeral in *.
  destruct (Z.to_int n) as [u | u]; cbn [NilZero.string_of_int] in *.
  - destruct u; cbn in *; eauto.
  - eauto.
Qed.

Lemma span_number_text (s k : string) :
  number_text s = true -> terminated k -> span_number (s +:+ k) = (s, k).
Proof.
  intros Htext Hterm. induction s as [ | c s IH]; simpl.
  - destruct k as [ | c k]; simpl in *; [reflexivity | rewrite Hterm; reflexivity].
  - simpl in Htext. apply andb_prop in Htext as [Hc Hs].
    rewrite Hc, (IH Hs). reflexivity.
Qed.

Lemma to_int_not_nil (n : Z) :
  Z.to_int n <> Decimal.Pos Decimal.Nil /\ Z.to_int n <> Decimal.Neg Decimal.Nil.
Proof.
  destruct n as [ | p | p]; cbn; split; try discriminate;
    intros [= Heq]; exact (DecimalPos.Unsigned.to_uint_nonnil p Heq).
Qed.

Lemma read_number_write (n : Z) (k : string) :
  terminated k -> read_number (decimal_numeral n +:+ k) = Some (JNum n, k).
Proof.
  intros Hterm. unfold read_number.
  rewrite (span_number_text _ _ (decimal_numeral_text n) Hterm).
  unfold decimal_numeral.
  destruct (to_int_not_nil n) as [Hpos Hneg].
  rewrite (NilZero.isi _ Hpos Hneg), DecimalZ.of_to. reflexivity.
Qed.

(** *** Values *)

Lemma number_char_is_no_opener (c : ascii) :
  number_char c = true ->
  Ascii.eqb c quote = false /\ Ascii.eqb c "[" = false /\ Ascii.eqb c "{" = false /\
  Ascii.eqb c "]" = false /\
  Ascii.eqb "n" c = false /\ Ascii.eqb "t" c = false /\ Ascii.eqb "f" c = false.
Proof.
  destruct c as [[ | ] [ | ] [ | ] [ | ] [ | ] [ | ] [ | ] [ | ]];
    intros Hc; try discriminate Hc; repeat split; reflexivity.
Qed.

Lemma strip_prefix_other (a c : ascii) (p s : string) :
  Ascii.eqb a c = false -> strip_prefix (String a p) (String c s) = None.
Proof. intros Hne. cbn [strip_prefix]. rewrite Hne. reflexivity. Qed.

Lemma read_value_number (fuel : nat) (n : Z) (k : string) :
  terminated k -> read_value (S fuel) (decimal_numeral n +:+ k) = Some (JNum n, k).
Proof.
  intros Hterm. rewrite <- (read_number_write n k Hterm).
  destruct (decimal_numeral_head n) as (c & r & Heq & Hc). rewrite Heq.
  destruct (number_char_is_no_opener c Hc) as (Hq & Ha & Ho & _ & Hn & Ht & Hf).
  change (String c r +:+ k) with (String c (r +:+ k)).
  cbn [read_value]. rewrite Hq, Ha, Ho. unfold read_literal.
  rewrite !strip_prefix_other by assumption. reflexivity.
Qed.

Lemma write_to_head (v : json) (k : string) :
  exists (c : ascii) (r : string), write_to v k = String c r /\ Ascii.eqb c "]" = false.
Proof.
  destruct v as [ | [ | ] | n | s | items | props]; try (simpl; eauto; fail).
  destruct (decimal_numeral_head n) as (c & r & Heq & Hc).
  exists c, (r +:+ k). split.
  - simpl. rewrite Heq. reflexivity.
  - apply (number_char_is_no_opener c Hc).
Qed.

Lemma read_value_array (fuel : nat) (c : ascii) (r : string) :
  Ascii.eqb c "]" = false ->
  read_value (S fuel) (String "[" (String c r))
  = match read_elements fuel (String c r) with
    | Some (items, k') => Some (JArr items, k')
    | None => None
    end.
Proof. intros Hc. simpl. rewrite Hc. reflexivity. Qed.

Lemma read_elements_step (fuel : nat) (s : string) :
  read_elements (S fuel) s
  = match read_value fuel s with
    | Some (x, String c k) =>
        if Ascii.eqb c ","
        then match read_elements fuel k with
             | Some (items, k') => Some (x :: items, k')
             | None => None
             end
        else if Ascii.eqb c "]" then Some ([x], k) else None
    | _ => None
    end.
Proof. reflexivity. Qed.

Lemma read_members_step (fuel : nat) (name : string) (x : json) (tail : string)
    (w : json -> string -> string) :
  read_members (S fuel) (write_member w name x tail)
  = match read_value fuel (w x tail) with
    | Some (y, String c k) =>
        if Ascii.eqb c ","
        then match read_members fuel k with
             | Some (props, k') => Some ((name, y) :: props, k')
             | None => None
             end
        else if Ascii.eqb c "}" then Some ([(name, y)], k) else None
    | _ => None
    end.
Proof.
  unfold write_member. cbn [read_members].
  change (Ascii.eqb quote quote) with true. cbv iota.
  rewrite read_write_string. reflexivity.
Qed.

Lemma read_elements_write (k : string) (rest : list json) :
  Forall reads_back rest ->
  forall (x : json) (fuel : nat),
    reads_back x ->
    (need_items (x :: rest) <= fuel)%nat ->
    read_elements fuel (write_to x (write_items write_to (String "]" k) rest))
    = Some (x :: rest, k).
Proof.
  induction 1 as [ | y rest Hy _ IH]; intros x fuel Hx Hfuel;
    (destruct fuel as [ | fuel]; [cbn in Hfuel; lia | ]);
    rewrite read_elements_step; cbn [write_items].
  - rewrite Hx; [reflexivity | cbn in Hfuel; lia | reflexivity].
  - rewrite Hx; [ | cbn in Hfuel |- *; lia | reflexivity].
    change (Ascii.eqb "," ",") with true. cbv iota.
    rewrite (IH y fuel Hy); [reflexivity | ].
    cbn in Hfuel |- *. lia.
Qed.

Lemma read_members_write (k : string) (rest : list (string * json)) :
  Forall (fun m => reads_back (snd m)) rest ->
  forall (name : string) (x : json) (fuel : nat),
    reads_back x ->
    (need_members ((name, x) :: rest) <= fuel)%nat ->
    read_members fuel
      (write_member write_to name x (write_members write_to (String "}" k) rest))
    = Some ((name, x) :: rest, k).
Proof.
  induction 1 as [ | [name' y] rest Hy _ IH]; intros name x fuel Hx Hfuel;
    (destruct fuel as [ | fuel]; [cbn in Hfuel; lia | ]);
    rewrite read_members_step; cbn [write_members].
  - rewrite Hx; [reflexivity | cbn in Hfuel; lia | reflexivity].
  - rewrite Hx; [ | cbn in Hfuel |- *; lia | reflexivity].
    change (Ascii.eqb "," ",") with true. cbv iota.
    rewrite (IH name' y fuel Hy); [reflexivity | ].
    cbn in Hfuel |- *. lia.
Qed.

Lemma read_write_to (v : json) : reads_back v.
Proof.
  induction v as [ | b | n | s | items Hitems | props Hprops] using json_nested_ind;
    intros fuel k Hfuel Hterm;
    (destruct fuel as [ | fuel]; [cbn in Hfuel; lia | ]).
  - reflexivity.
  - destruct b; reflexivity.
  - apply read_value_number, Hterm.
  - cbn [write_to read_value]. change (Ascii.eqb quote quote) with true. cbv iota.
    rewrite read_write_string. reflexivity.
  - destruct items as [ | x rest]; [reflexivity | ].
    cbn [write_to].
    destruct (write_to_head x (write_items write_to (String "]" k) rest)) as (c & r & Heq & Hc).
    rewrite Heq, (read_value_array _ _ _ Hc), <- Heq.
    inversion Hitems as [ | ? ? Hx Hrest]; subst.
    rewrite (read_elements_write k rest Hrest x fuel Hx); [reflexivity | ].
    cbn in Hfuel. unfold need_items. cbn. lia.
  - destruct props as [ | [name x] rest]; [reflexivity | ].
    cbn [write_to].
    inversion Hprops as [ | ? ? Hx Hrest]; subst. cbn [snd] in Hx.
    transitivity (match read_members fuel
                          (write_member write_to name x
                             (write_members write_to (String "}" k) rest)) with
                  | Some (props, k') => Some (JObj props, k')
                  | None => None
                  end).
    + reflexivity.
    + rewrite (read_members_write k rest Hrest name x fuel Hx); [reflexivity | ].
      cbn in Hfuel. unfold need_members. cbn. lia.
Qed.

(** *** The fuel [read] takes is enough *)

Lemma write_items_length (k : string) (rest : list json) :
  Forall fuel_in_text rest ->
  (need_items rest + S (String.length k)
   <= String.length (write_items write_to (String "]" k) rest))%nat.
Proof.
  induction 1 as [ | y rest Hy _ IH]; cbn [write_items need_items fold_right String.length].
  - lia.
  - pose proof (Hy (write_items write_to (String "]" k) rest)) as Hlen.
    unfold need_items in IH. lia.
Qed.

Lemma write_member_length (name : string) (x : json) (tail : string) :
  fuel_in_text x ->
  (need x + String.length tail + 3 <= String.length (write_member write_to name x tail))%nat.
Proof.
  intros Hx. unfold write_member. cbn [String.length].
  pose proof (write_string_length name (String ":" (write_to x tail))) as Hname.
  cbn [String.length] in Hname. pose proof (Hx tail). lia.
Qed.

Lemma write_members_length (k : string) (rest : list (string * json)) :
  Forall (fun m => fuel_in_text (snd m)) rest ->
  (need_members rest + S (String.length k)
   <= String.length (write_members write_to (String "}" k) rest))%nat.
Proof.
  induction 1 as [ | [name y] rest Hy _ IH];
    cbn [write_members need_members fold_right String.length snd].
  - lia.
  - pose proof (write_member_length name y (write_members write_to (String "}" k) rest) Hy).
    unfold need_members in IH. lia.
Qed.

Lemma need_in_text (v : json) : fuel_in_text v.
Proof.
  induction v as [ | b | n | s | items Hitems | props Hprops] using json_nested_ind;
    intros k.
  - cbn [write_to need]. rewrite length_append. simpl. lia.
  - destruct b; cbn [write_to need]; rewrite length_append; simpl; lia.
  - cbn [write_to need]. rewrite length_append.
    destruct (decimal_numeral_head n) as (c & r & Heq & _). rewrite Heq. cbn. lia.
  - cbn [write_to need String.length]. pose proof (write_string_length s k). lia.
  - destruct items as [ | x rest]; [cbn; lia | ].
    inversion Hitems as [ | ? ? Hx Hrest]; subst.
    cbn [write_to need fold_right String.length].
    pose proof (Hx (write_items write_to (String "]" k) rest)).
    pose proof (write_items_length k rest Hrest) as Hlen. unfold need_items in Hlen. lia.
  - destruct props as [ | [name x] rest]; [cbn; lia | ].
    inversion Hprops as [ | ? ? Hx Hrest]; subst. cbn [snd] in Hx.
    cbn [write_to need fold_right String.length snd].
    pose proof (write_member_length name x (write_members write_to (String "}" k) rest) Hx).
    pose proof (write_members_length k rest Hrest) as Hlen. unfold need_members in Hlen. lia.
Qed.

Lemma read_write (v : json) : read (write v) = Some v.
Proof.
  unfold read, write. rewrite read_write_to; [reflexivity | | exact I].
  pose proof (need_in_text v EmptyString). lia.
Qed.

Lemma write_nonempty (v : json) : write v <> EmptyString.
Proof.
  unfold write. destruct (write_to_head v EmptyString) as (c & r & Heq & _).
  rewrite Heq. discriminate.
Qed.

End CompactJSONFacts.

Lemma compact_json_laws : @JSONLaws CompactJSON.codec.
Proof.
  split.
  - exact CompactJSONFacts.read_write.
  - exact CompactJSONFacts.write_nonempty.
Qed.

(** ** The scenarios of the specification, evaluated *)

Section Evaluated.
Import Scenario.
Local Existing Instance CompactJSON.codec.
Local Existing Instance Access.base64.

Example scenario_identities :
  Approve.getAuthenticatedEmail approve_A = Some (JStr approver) /\
  Approve.getAuthenticatedEmail stranger_empty = Some (JStr stranger).
Proof. split; vm_compute; reflexivity. Qed.

Lemma approve_A_accepted : accepted approve_A approver (JStr "A") (JStr "approve") undefined.
Proof.
  unfold accepted. repeat split; try reflexivity.
  - exists (JObj [("id", JStr "A"); ("action", JStr "approve")]). repeat split.
  - left. reflexivity.
Defined.

Lemma reject_C_accepted :
  accepted reject_C approver (JStr "C") (JStr "reject") (Some (JStr "not ours")).
Proof.
  unfold accepted. repeat split; try reflexivity.
  - exists (JObj [("id", JStr "C"); ("action", JStr "reject"); ("note", JStr "not ours")]).
    repeat split.
  - right. reflexivity.
Defined.

Lemma ledger_AB_pending : stored_list ledger_AB "pending" = Value [item_A; item_B].
Proof. vm_compute. reflexivity. Defined.

Lemma items_AB_not_null : Forall not_null [item_A; item_B].
Proof. repeat constructor; discriminate. Defined.

Lemma push_authorized (statusData : json) (env : Env) :
  SYNC_SECRET env = Some "s3cret" -> authorized_push (push_request statusData) env.
Proof. intros Hsecret. unfold authorized_push. rewrite Hsecret. split; reflexivity. Defined.

(** C1 on the scenario of the specification: with pending [[A, B]],
    approving A leaves pending [[B]] and a history that starts with the
    decision on A. *)
Lemma approving_A_of_A_B_leaves_B :
  exists kv' : KV,
    Approve.onRequestPost approve_A T env_AB
    = (Value (decision_response decision_A), set_binding NS_APPROVALS kv' env_AB) /\
    kv' !! "pending" = Some (CompactJSON.write (JArr [item_B])) /\
    stored_list kv' "pending" = Value [item_B] /\
    stored_list kv' "history" = Value [decision_A].
Proof.
  destruct (@record_decision_filters_pending_and_prepends CompactJSON.codec compact_json_laws
              Access.base64
              env_AB ledger_AB approve_A T approver "A" (JStr "A") (JStr "approve") undefined
              [item_A; item_B] [] approve_A_accepted eq_refl eq_refl ledger_AB_pending
              items_AB_not_null eq_refl)
    as (kv' & Hrun & Hraw & Hpending & _ & _ & Hhistory & _).
  exists kv'. split; [exact Hrun | ]. split; [exact (Hraw eq_refl) | ].
  split; [exact Hpending | exact Hhistory].
Defined.

(** C5 on a concrete ledger: rejecting C, which is not pending, leaves
    pending [[A, B]] and records the decision. *)
Lemma rejecting_absent_C_keeps_A_B :
  exists kv' : KV,
    Approve.onRequestPost reject_C T env_AB
    = (Value (decision_response decision_C), set_binding NS_APPROVALS kv' env_AB) /\
    status (decision_response decision_C) = 200 /\
    stored_list kv' "pending" = Value [item_A; item_B] /\
    stored_list kv' "history" = Value [decision_C].
Proof.
  apply (@decision_for_absent_id_keeps_pending CompactJSON.codec compact_json_laws
           Access.base64
           env_AB ledger_AB reject_C T approver "C" (JStr "C") (JStr "reject")
           (Some (JStr "not ours")) [item_A; item_B] []).
  - exact reject_C_accepted.
  - reflexivity.
  - reflexivity.
  - exact ledger_AB_pending.
  - exact items_AB_not_null.
  - repeat constructor.
  - reflexivity.
Defined.

(** C6 on a deployment without an approvals store. *)
Lemma approving_A_without_store :
  Approve.onRequestPost approve_A T env_no_approvals
  = (Value (json_response
              (JObj [("ok", JBool true); ("id", JStr "A"); ("action", JStr "approve");
                     ("note", JStr EmptyString); ("by", JStr approver); ("at", JStr T)])
              200),
     env_no_approvals).
Proof.
  apply (@unconfigured_store_answers_without_persisting CompactJSON.codec Access.base64
           env_no_approvals approve_A T approver (JStr "A") (JStr "approve") undefined).
  - exact approve_A_accepted.
  - reflexivity.
Defined.

(** C9 on a fresh approvals store. *)
Lemma approving_A_on_fresh_store :
  exists kv' : KV,
    Approve.onRequestPost approve_A T env_fresh
    = (Value (decision_response decision_A), set_binding NS_APPROVALS kv' env_fresh) /\
    kv' !! "pending" = None /\
    kv' !! "decision:A" = Some (CompactJSON.write decision_A) /\
    kv' !! "history" = Some (CompactJSON.write (JArr [decision_A])).
Proof.
  apply (@absent_pending_key_stays_absent CompactJSON.codec Access.base64
           env_fresh ∅ approve_A T approver "A" (JStr "A") (JStr "approve") undefined []).
  - exact approve_A_accepted.
  - reflexivity.
  - reflexivity.
  - reflexivity.
  - reflexivity.
Defined.

(** C2 on 101 distinct decisions recorded into the ledger: the history
    holds exactly the last 100 of them, newest first. *)
Lemma history_after_101_decisions :
  exists (kv' : KV) (hist' : list json),
    APPROVALS (run_posts calls_101 env_AB) = Some kv' /\
    stored_list kv' "history" = Value hist' /\
    hist' = rev (skipn 1 (decisions calls_101)) /\
    length hist' = 100%nat.
Proof.
  destruct (@history_capped_newest_first CompactJSON.codec compact_json_laws Access.base64
              calls_101 env_AB ledger_AB [] eq_refl
              (ex_intro _ [item_A; item_B] (conj ledger_AB_pending items_AB_not_null))
              eq_refl (Nat.le_0_l 100))
    as (kv' & hist' & Hkv & Hstored & _ & _ & Hmany).
  assert (H101 : (100 <= length (decisions calls_101))%nat)
    by (apply Nat.leb_le; vm_compute; reflexivity).
  destruct (Hmany H101) as [Heq Hlen].
  exists kv', hist'. split; [exact Hkv | ]. split; [exact Hstored | ].
  split; [exact Heq | exact Hlen].
Defined.

(** C4 as the specification words it, refuted: a stranger who sends
    neither id nor action violates the first documented precondition,
    yet the answer is the allow-list failure, a different response. *)
Lemma documented_check_order_refuted :
  Approve.getAuthenticatedEmail stranger_empty = Some (JStr stranger) /\
  body_json stranger_empty = Some (JObj []) /\
  get_prop (JObj []) "id" = Value undefined /\
  get_prop (JObj []) "action" = Value undefined /\
  documented_first_failure undefined undefined stranger = Some MissingField /\
  fst (Approve.onRequestPost stranger_empty T env_AB) = Value (failure_response NotAuthorized) /\
  fst (Approve.onRequestPost stranger_empty T env_AB) <> Value (failure_response MissingField).
Proof.
  repeat split. vm_compute. discriminate.
Qed.

(** C4, amended, on a request that lacks the id and names an unknown
    action: the earlier failure, MissingField, is the answer. *)
Lemma missing_id_reported_before_bad_action :
  Approve.onRequestPost approver_bad_action T env_AB
  = (Value (failure_response MissingField), env_AB).
Proof.
  destruct (@preconditions_allow_list_first CompactJSON.codec compact_json_laws Access.base64
              approver_bad_action T env_AB approver eq_refl)
    as (_ & Hfirst & _ & _).
  apply (Hfirst (JObj [("action", JStr "postpone")]) undefined (Some (JStr "postpone")));
    reflexivity.
Defined.

(** C3 on a fresh deployment: the first push seeds pending [[A, B]], a
    second push with another list leaves it. *)
Lemma second_push_keeps_seed :
  exists kv' : KV,
    APPROVALS (snd (Sync.onRequestPost (push_request snapshot_AB) T T env_fresh)) = Some kv' /\
    stored_list kv' "pending" = Value [item_A; item_B] /\
    APPROVALS (snd (Sync.onRequestPost (push_request snapshot_later) T' T'
                      (snd (Sync.onRequestPost (push_request snapshot_AB) T T env_fresh))))
    = Some kv'.
Proof.
  destruct (@pending_queue_seeded_once CompactJSON.codec compact_json_laws
              (push_request snapshot_AB) T T env_fresh ∅ snapshot_AB
              (push_authorized snapshot_AB env_fresh eq_refl) eq_refl
              ltac:(discriminate) eq_refl)
    as [Hseed _].
  destruct (Hseed eq_refl) as (kv' & Hkv' & _ & Hlist & _ & Hsecond).
  exists kv'. split; [exact Hkv' | ]. split; [exact (Hlist [item_A; item_B] eq_refl) | ].
  apply (Hsecond (push_request snapshot_later) T' T' snapshot_later).
  - exact (push_authorized snapshot_later env_fresh eq_refl).
  - reflexivity.
  - discriminate.
Defined.

(** C10 on a deployment without a status store. *)
Lemma push_without_status_store_seeds :
  Sync.onRequestPost (push_request snapshot_AB) T T' env_no_status
  = (Value (push_response T' "3 active"),
     {| SYNC_SECRET := Some "s3cret";
        DASHBOARD_DATA := None;
        APPROVALS := Some (<["pending" := CompactJSON.write (JArr [item_A; item_B])]> ∅) |}).
Proof.
  destruct (@seeding_without_status_store CompactJSON.codec
              (push_request snapshot_AB) T T' env_no_status ∅ snapshot_AB
              (push_authorized snapshot_AB env_no_status eq_refl) eq_refl
              ltac:(discriminate) eq_refl eq_refl eq_refl)
    as (Hstore & Hanswer & _).
  destruct (Hanswer "3 active" eq_refl) as [Hfst _].
  rewrite (surjective_pairing (Sync.onRequestPost (push_request snapshot_AB) T T'
                                 env_no_status)).
  rewrite Hfst, Hstore. reflexivity.
Defined.

(** C8 on a fresh deployment: 404 before the first push, the stored
    text of the snapshot after it. *)
Lemma status_before_and_after_first_push :
  Sync.onRequestGet env_fresh = (Value not_found_response, env_fresh) /\
  Sync.onRequestGet (snd (Sync.onRequestPost (push_request snapshot_AB) T T' env_fresh))
  = (Value (status_response (CompactJSON.write snapshot_AB)),
     snd (Sync.onRequestPost (push_request snapshot_AB) T T' env_fresh)).
Proof.
  destruct (@latest_snapshot_returned_verbatim CompactJSON.codec compact_json_laws env_fresh)
    as (Hnone & _ & Hpush).
  split.
  - exact (proj1 (Hnone eq_refl)).
  - destruct (Hpush (push_request snapshot_AB) T T' snapshot_AB
                (push_authorized snapshot_AB env_fresh eq_refl) eq_refl
                ltac:(discriminate)) as [Hbound _].
    exact (proj2 (Hbound ∅ eq_refl)).
Defined.

(** C7 at the failing input. *)
Lemma push_of_summary_without_count :
  fst (Sync.onRequestPost (push_request snapshot_no_count) T T' env_fresh)
  = Value (push_response T' "undefined active").
Proof.
  apply (@agents_field_without_active_agents CompactJSON.codec
           (push_request snapshot_no_count) T T' env_fresh).
  - exact (push_authorized snapshot_no_count env_fresh eq_refl).
  - reflexivity.
Defined.

End Evaluated.

(** * Further properties of the handlers *)

(** ** What the handlers write *)

Section Keeps.
Context {R : Env -> Env -> Prop}.
Hypothesis R_refl : forall env : Env, R env env.
Hypothesis R_trans : forall a b c : Env, R a b -> R b c -> R a c.

Lemma keeps_ret {A : Type} (a : A) : keeps R (ret a).
Proof. intros env. apply R_refl. Qed.

Lemma keeps_lift {A : Type} (r : result A) : keeps R (lift r).
Proof. intros env. apply R_refl. Qed.

Lemma keeps_bound (ns : Namespace) : keeps R (bound ns).
Proof. intros env. apply R_refl. Qed.

Lemma keeps_KV_get (ns : Namespace) (key : string) : keeps R (KV_get ns key).
Proof. intros env. unfold KV_get. destruct (binding ns env); apply R_refl. Qed.

Lemma keeps_bind {A B : Type} (m : M A) (k : A -> M B) :
  keeps R m -> (forall a : A, keeps R (k a)) -> keeps R (bind m k).
Proof.
  intros Hm Hk env. unfold bind. specialize (Hm env).
  destruct (m env) as [[a | e] env1]; cbn [snd] in *.
  - apply (R_trans _ env1); [exact Hm | apply Hk].
  - exact Hm.
Qed.

End Keeps.

Lemma kv_agree_refl (touched : string -> bool) (a : option KV) : kv_agree touched a a.
Proof. destruct a; simpl; auto. Qed.

Lemma kv_agree_trans (touched : string -> bool) (a b c : option KV) :
  kv_agree touched a b -> kv_agree touched b c -> kv_agree touched a c.
Proof.
  destruct a, b, c; simpl; try tauto.
  intros Hab Hbc key Hkey. rewrite (Hbc key Hkey). apply Hab, Hkey.
Qed.

Lemma writes_only_refl (d a : string -> bool) (env : Env) : writes_only d a env env.
Proof. repeat split; apply kv_agree_refl. Qed.

Lemma writes_only_trans (d a : string -> bool) (e1 e2 e3 : Env) :
  writes_only d a e1 e2 -> writes_only d a e2 e3 -> writes_only d a e1 e3.
Proof.
  intros (Hs1 & Hd1 & Ha1) (Hs2 & Hd2 & Ha2). repeat split.
  - congruence.
  - exact (kv_agree_trans _ _ _ _ Hd1 Hd2).
  - exact (kv_agree_trans _ _ _ _ Ha1 Ha2).
Qed.

Lemma keeps_KV_put (d a : string -> bool) (ns : Namespace) (key value : string) :
  (match ns with NS_DASHBOARD_DATA => d key | NS_APPROVALS => a key end) = true ->
  keeps (writes_only d a) (KV_put ns key value).
Proof.
  intros Htouched env. unfold KV_put.
  destruct (binding ns env) as [kv | ] eqn:Hkv; cbn [snd]; [ | apply writes_only_refl].
  destruct ns; cbn [binding] in Hkv; unfold writes_only, set_binding;
    cbn [SYNC_SECRET DASHBOARD_DATA APPROVALS]; rewrite Hkv;
    (split; [reflexivity | split]); try apply kv_agree_refl;
    intros key' Hkey'; apply lookup_insert_ne; intros ->; congruence.
Qed.

Lemma ledger_key_decision (name : string) : ledger_key name ("decision:" +:+ name) = true.
Proof. unfold ledger_key. rewrite String.eqb_refl. reflexivity. Qed.

Ltac keeps_steps :=
  repeat first
    [ apply (keeps_bind (writes_only_trans _ _)); [ | intros ? ]
    | apply (keeps_ret (writes_only_refl _ _))
    | apply (keeps_lift (writes_only_refl _ _))
    | apply (keeps_bound (writes_only_refl _ _))
    | apply (keeps_KV_get (writes_only_refl _ _))
    | apply keeps_KV_put; first [reflexivity | apply ledger_key_decision]
    | match goal with
      | |- keeps _ (if ?b then _ else _) => destruct b
      | |- keeps _ (match ?x with _ => _ end) => destruct x
      end ].

Ltac reads_steps :=
  repeat first
    [ apply (keeps_bind (@eq_trans Env)); [ | intros ? ]
    | apply (keeps_ret (@eq_refl Env))
    | apply (keeps_lift (@eq_refl Env))
    | apply (keeps_bound (@eq_refl Env))
    | apply (keeps_KV_get (@eq_refl Env))
    | match goal with
      | |- keeps _ (if ?b then _ else _) => destruct b
      | |- keeps _ (match ?x with _ => _ end) => destruct x
      end ].

Section WritesOnly.
Context `{Hcodec : JSONCodec}.

Lemma persist_writes_ledger (name : string) (id decision : json) :
  ToString_json id = Value name ->
  keeps (writes_only no_key (ledger_key name)) (Approve.persist id decision).
Proof.
  intros Hname env. unfold Approve.persist. rewrite Hname.
  unfold bind at 1. unfold lift at 1.
  refine ((_ : keeps (writes_only no_key (ledger_key name)) _) env).
  keeps_steps.
Qed.

Lemma seed_pending_writes_pending (statusData : json) :
  keeps (writes_only status_key pending_key) (Sync.seed_pending statusData).
Proof. unfold Sync.seed_pending. keeps_steps. Qed.

End WritesOnly.

Lemma kv_agree_no_key (a b : option KV) : kv_agree no_key a b -> b = a.
Proof.
  destruct a as [kv | ], b as [kv' | ]; simpl; try tauto.
  intros Hall. f_equal. apply map_eq. intros key. apply Hall. reflexivity.
Qed.

Section HandlersWrite.
Context `{Hcodec : JSONCodec} `{Hb64 : Base64}.

Lemma checked_id (request : Request) (now : string) (id decision : json) :
  checked request now = Some (id, decision) ->
  exists body : json, body_json request = Some body /\ get_prop body "id" = Value (Some id).
Proof.
  unfold checked.
  destruct (Approve.getAuthenticatedEmail request) as [[ | b | n | email | l | o] | ];
    try discriminate.
  destruct (is_approver email); [ | discriminate].
  destruct (body_json request) as [body | ]; [ | discriminate].
  destruct (get_prop body "id") as [[id' | ] | e] eqn:Hid; try discriminate.
  destruct (get_prop body "action") as [[action | ] | e]; try discriminate.
  destruct (get_prop body "note") as [note | e]; try discriminate.
  destruct (truthy_json id' && truthy_json action && valid_action (Some action));
    [ | discriminate].
  intros [= <- _]. exists body. split; [reflexivity | exact Hid].
Qed.

Lemma approve_post_keeps (request : Request) (now : string) :
  keeps (writes_only no_key (request_keys request)) (Approve.onRequestPost request now).
Proof.
  intros env.
  destruct (recorded request now) as [[id decision] | ] eqn:Hrec.
  - destruct (recorded_checked _ _ _ _ Hrec) as (Hchecked & name & Hname).
    destruct (checked_id _ _ _ _ Hchecked) as (body & Hbody & Hid).
    assert (Hkeys : request_keys request = ledger_key name)
      by (unfold request_keys; rewrite Hbody, Hid, Hname; reflexivity).
    rewrite Hkeys, (onRequestPost_checked _ _ _ _ env Hchecked).
    pose proof (persist_writes_ledger name id decision Hname env) as Hpersist.
    unfold bind, bound, ret.
    destruct (bool_decide (is_Some (binding NS_APPROVALS env))); [ | apply writes_only_refl].
    destruct (Approve.persist id decision env) as [[[] | e] env1]; exact Hpersist.
  - rewrite (onRequestPost_not_recorded _ _ _ Hrec). apply writes_only_refl.
Qed.

Lemma sync_post_keeps (request : Request) (now_sync now_resp : string) :
  keeps (writes_only status_key pending_key) (Sync.onRequestPost request now_sync now_resp).
Proof.
  intros env. unfold Sync.onRequestPost.
  destruct (negb (truthy_str (SYNC_SECRET env)) || _); [apply writes_only_refl | ].
  destruct (body_json request) as [statusData | ]; [ | apply writes_only_refl].
  refine ((_ : keeps (writes_only status_key pending_key) _) env).
  repeat first [ apply seed_pending_writes_pending | progress keeps_steps ].
Qed.

Lemma approve_get_keeps (request : Request) : keeps eq (Approve.onRequestGet request).
Proof.
  unfold Approve.onRequestGet.
  reads_steps.
Qed.

End HandlersWrite.

(** X1. Whatever the request and whatever the stores hold, and also when
    it throws, [POST /api/approve] leaves the sync secret and the status
    store as they are, neither binds nor unbinds the approvals store, and
    changes there at most three keys: the pending queue, the history, and
    the record of the one decision the body names, [decision:] followed
    by the text of the body's [id].  Every other key, the records of
    other decisions included, keeps its value. *)
Theorem approve_post_touches_only_the_ledger `{Hcodec : JSONCodec} `{Hb64 : Base64}
    (request : Request) (now : string) (env : Env) :
  let env' := snd (Approve.onRequestPost request now env) in
  SYNC_SECRET env' = SYNC_SECRET env /\
  DASHBOARD_DATA env' = DASHBOARD_DATA env /\
  kv_agree (request_keys request) (APPROVALS env) (APPROVALS env') /\
  (forall key : string,
      request_keys request key = true ->
      key = "pending" \/ key = "history" \/
      exists (body id : json) (name : string),
        body_json request = Some body /\
        get_prop body "id" = Value (Some id) /\
        ToString_json id = Value name /\
        key = "decision:" +:+ name).
Proof.
  destruct (approve_post_keeps request now env) as (Hsecret & Hdash & Happrovals).
  split; [exact Hsecret | ]. split; [apply kv_agree_no_key, Hdash | ].
  split; [exact Happrovals | ].
  intros key. unfold request_keys.
  destruct (body_json request) as [body | ]; [ | discriminate].
  destruct (get_prop body "id") as [[id | ] | e] eqn:Hid; try discriminate.
  destruct (ToString_json id) as [name | e] eqn:Hname; [ | discriminate].
  unfold ledger_key. intros Hkey.
  apply Bool.orb_true_iff in Hkey. destruct Hkey as [Hkey | Hkey].
  - apply Bool.orb_true_iff in Hkey. destruct Hkey as [Hkey | Hkey].
    + right; right. exists body, id, name. apply String.eqb_eq in Hkey. auto.
    + left. apply String.eqb_eq, Hkey.
  - right; left. apply String.eqb_eq, Hkey.
Qed.

(** X2. Whatever the request and whatever the stores hold, and also when
    it throws, [POST /api/sync] leaves the sync secret as it is, changes
    in the status store at most the keys [status] and [last_sync], and in
    the approvals store at most the key [pending]: decision records and
    history are out of its reach. *)
Theorem sync_post_touches_only_status_and_pending `{Hcodec : JSONCodec}
    (request : Request) (now_sync now_resp : string) (env : Env) :
  let env' := snd (Sync.onRequestPost request now_sync now_resp env) in
  SYNC_SECRET env' = SYNC_SECRET env /\
  kv_agree status_key (DASHBOARD_DATA env) (DASHBOARD_DATA env') /\
  kv_agree pending_key (APPROVALS env) (APPROVALS env') /\
  (forall (kv kv' : KV) (key : string),
      APPROVALS env = Some kv -> APPROVALS env' = Some kv' ->
      key = "history" \/ String.prefix "decision:" key = true ->
      kv' !! key = kv !! key).
Proof.
  destruct (sync_post_keeps request now_sync now_resp env) as (Hsecret & Hdash & Happrovals).
  split; [exact Hsecret | ]. split; [exact Hdash | ]. split; [exact Happrovals | ].
  intros kv kv' key Hkv Hkv' Hkey. rewrite Hkv, Hkv' in Happrovals.
  apply Happrovals. unfold pending_key.
  destruct Hkey as [-> | Hprefix]; [reflexivity | ].
  destruct (String.eqb_spec key "pending") as [-> | _]; [discriminate Hprefix | reflexivity].
Qed.

(** X3. Both [GET] handlers only read: for every request and every store
    contents, [GET /api/approve] returns the environment unchanged, also
    when parsing a stored value throws, and [GET /api/sync] returns it
    unchanged, never throws, and answers 200 or 404. *)
Theorem get_handlers_only_read `{Hcodec : JSONCodec} `{Hb64 : Base64}
    (request : Request) (env : Env) :
  snd (Approve.onRequestGet request env) = env /\
  exists response : Response,
    Sync.onRequestGet env = (Value response, env) /\
    (status response = 200 \/ status response = 404).
Proof.
  split.
  - symmetry. apply approve_get_keeps.
  - destruct (stored_status env) as [raw | ] eqn:Hstored.
    + destruct (String.eqb_spec raw EmptyString) as [-> | Hne].
      * exists not_found_response. split; [ | right; reflexivity].
        unfold stored_status, Sync.onRequestGet in *.
        destruct (DASHBOARD_DATA env) as [kv | ] eqn:Hkv; [ | discriminate Hstored].
        rewrite (bind_value _ _ env env true (bound_some NS_DASHBOARD_DATA env kv Hkv)).
        rewrite (bind_value _ _ env env (kv !! "status")) by (apply KV_get_run; exact Hkv).
        rewrite Hstored. reflexivity.
      * exists (status_response raw). split; [ | left; reflexivity].
        apply get_status_stored; assumption.
    + exists not_found_response. split; [ | right; reflexivity].
      apply get_status_nothing_stored, Hstored.
Qed.

(** ** What the handlers answer *)

Lemma returns_ret {A : Type} (P : A -> Prop) (a : A) : P a -> returns P (ret a).
Proof. intros Ha env. exact Ha. Qed.

Lemma returns_bind {A B : Type} (P : B -> Prop) (m : M A) (k : A -> M B) :
  (forall a : A, returns P (k a)) -> returns P (bind m k).
Proof.
  intros Hk env. unfold bind.
  destruct (m env) as [[a | e] env1]; cbn [fst].
  - apply Hk.
  - exact I.
Qed.

Ltac returns_steps :=
  repeat first
    [ apply returns_bind; intros ?
    | apply returns_ret; reflexivity
    | match goal with
      | |- returns _ (if ?b then _ else _) => destruct b
      | |- returns _ (match ?x with _ => _ end) => destruct x
      end ].

(** X4. Every response any of the four handlers returns, success or
    failure, carries the headers of the [json] helper: JSON content type
    and [Cache-Control: no-store]. *)
Theorem every_response_is_no_store `{Hcodec : JSONCodec} `{Hb64 : Base64}
    (request : Request) (now now' : string) (env : Env) (response : Response) :
  fst (Approve.onRequestPost request now env) = Value response \/
  fst (Approve.onRequestGet request env) = Value response \/
  fst (Sync.onRequestPost request now now' env) = Value response \/
  fst (Sync.onRequestGet env) = Value response ->
  headers response
  = [("Content-Type", "application/json"); ("Cache-Control", "no-store")].
Proof.
  set (P := fun r : Response => headers r = json_headers).
  assert (H1 : returns P (Approve.onRequestPost request now))
    by (unfold Approve.onRequestPost; returns_steps).
  assert (H2 : returns P (Approve.onRequestGet request))
    by (unfold Approve.onRequestGet; returns_steps).
  assert (H3 : returns P (Sync.onRequestPost request now now')).
  { intros env0. unfold Sync.onRequestPost.
    destruct (negb (truthy_str (SYNC_SECRET env0)) || _); [reflexivity | ].
    destruct (body_json request) as [statusData | ]; [ | reflexivity].
    refine ((_ : returns P _) env0). returns_steps. }
  assert (H4 : returns P Sync.onRequestGet)
    by (unfold Sync.onRequestGet; returns_steps).
  intros [Hr | [Hr | [Hr | Hr]]].
  - specialize (H1 env). rewrite Hr in H1. exact H1.
  - specialize (H2 env). rewrite Hr in H2. exact H2.
  - specialize (H3 env). rewrite Hr in H3. exact H3.
  - specialize (H4 env). rewrite Hr in H4. exact H4.
Qed.


(** X21. An accepted request whose id has no text, such as an object
    with an own [toString] member, is not recorded: with the approvals
    store bound the call throws where the key of the decision record is
    built, before the first write; only without a store is it answered
    200. *)
Theorem id_without_text_is_not_recorded `{Hcodec : JSONCodec} `{Hb64 : Base64}
    (request : Request) (now email : string) (id action : json) (note : jsval)
    (e : JsError) (env : Env) :
  accepted request email id action note ->
  ToString_json id = Throw e ->
  recorded request now = None /\
  (forall kv : KV,
      APPROVALS env = Some kv ->
      Approve.onRequestPost request now env = (Throw e, env)) /\
  (APPROVALS env = None ->
   Approve.onRequestPost request now env
   = (Value (decision_response (Approve.make_decision id action note (JStr email) now)),
      env)) /\
  (forall (props : list (string * json)) (member : json),
      id = JObj props -> own_property props "toString" = Some member -> e = TypeError).
Proof.
  intros Hacc Hname.
  pose proof (accepted_checked _ _ _ _ _ now Hacc) as Hchecked.
  split; [ | split; [ | split]].
  - unfold recorded. rewrite Hchecked, Hname. reflexivity.
  - intros kv Hkv. rewrite (onRequestPost_no_name _ _ _ _ _ _ Hchecked Hname), Hkv.
    rewrite bool_decide_eq_true_2 by eauto. reflexivity.
  - intros Hkv. rewrite (onRequestPost_no_name _ _ _ _ _ _ Hchecked Hname), Hkv.
    rewrite bool_decide_eq_false_2 by apply is_Some_None. reflexivity.
  - intros props member -> Hmember. cbn [ToString_json] in Hname.
    rewrite Hmember in Hname. congruence.
Qed.

(** ** Stored values the ledger cannot use *)

Lemma Array_filter_null (id : json) (items : list json) :
  In JNull items ->
  Array_filter (fun item =>
                  match get_prop item "id" with
                  | Value item_id => Value (negb (strict_eq item_id (Some id)))
                  | Throw e => Throw e
                  end) items
  = Throw TypeError.
Proof.
  induction items as [ | x items IH]; intros Hin; [contradiction | ].
  cbn [Array_filter].
  destruct x as [ | b | n | s | l | props]; try reflexivity;
    (destruct Hin as [Heq | Hin]; [discriminate Heq | ]);
    cbn [get_prop]; rewrite (IH Hin); reflexivity.
Qed.

Section Unusable.
Context `{Hcodec : JSONCodec}.

Lemma persist_pending_fails (env : Env) (kv : KV) (name : string) (id decision : json)
    (e : JsError) :
  ToString_json id = Value name ->
  APPROVALS env = Some kv ->
  pending_fails kv e ->
  Approve.persist id decision env
  = (Throw e,
     set_binding NS_APPROVALS
       (<["decision:" +:+ name := JSON_stringify decision]> kv) env).
Proof.
  intros Hname Hkv Hfails. unfold Approve.persist. rewrite Hname.
  set (kv1 := <["decision:" +:+ name := JSON_stringify decision]> kv).
  assert (Hp1 : kv1 !! "pending" = kv !! "pending")
    by (apply lookup_insert_ne, decision_key_not_pending).
  unfold bind, lift, ret.
  rewrite (KV_put_run NS_APPROVALS _ _ env kv Hkv). cbv beta iota.
  rewrite (KV_get_run _ _ _ kv1) by apply binding_set_binding. cbv beta iota.
  rewrite Hp1. unfold pending_fails, stored_list in Hfails.
  destruct (truthy_str (kv !! "pending")).
  - destruct (JSON_parse_or_throw (default EmptyString (kv !! "pending"))) as [doc | e'].
    + destruct Hfails as [Hthrow | (-> & items & Hitems & Hnull)].
      * rewrite Hthrow. reflexivity.
      * rewrite Hitems, (Array_filter_null id items Hnull). reflexivity.
    + destruct Hfails as [[= ->] | (_ & items & [=] & _)]. reflexivity.
  - destruct Hfails as [[=] | (_ & items & [= <-] & [])].
Qed.

Lemma persist_history_fails (env : Env) (kv : KV) (name : string) (id decision : json)
    (items : list json) (e : JsError) :
  ToString_json id = Value name ->
  APPROVALS env = Some kv ->
  stored_list kv "pending" = Value items ->
  Forall not_null items ->
  stored_list kv "history" = Throw e ->
  Approve.persist id decision env
  = (Throw e,
     set_binding NS_APPROVALS
       (let kv1 := <["decision:" +:+ name := JSON_stringify decision]> kv in
        if truthy_str (kv !! "pending")
        then <["pending" := JSON_stringify (JArr (List.filter (other_id id) items))]> kv1
        else kv1) env).
Proof.
  intros Hname Hkv Hpending Hnn Hhistory. unfold Approve.persist, stored_list in *.
  rewrite Hname.
  set (kv1 := <["decision:" +:+ name := JSON_stringify decision]> kv).
  assert (Hp1 : kv1 !! "pending" = kv !! "pending")
    by (apply lookup_insert_ne, decision_key_not_pending).
  assert (Hh1 : kv1 !! "history" = kv !! "history")
    by (apply lookup_insert_ne, decision_key_not_history).
  unfold bind, lift, ret.
  rewrite (KV_put_run NS_APPROVALS _ _ env kv Hkv). cbv beta iota.
  rewrite (KV_get_run _ _ _ kv1) by apply binding_set_binding. cbv beta iota.
  rewrite Hp1.
  destruct (truthy_str (kv !! "history")) eqn:Hth; [ | discriminate Hhistory].
  destruct (truthy_str (kv !! "pending")).
  - destruct (JSON_parse_or_throw (default EmptyString (kv !! "pending"))) as [doc | e'];
      [ | discriminate Hpending].
    rewrite Hpending, (Array_filter_other_id id items Hnn).
    rewrite (KV_put_run _ _ _ _ kv1) by apply binding_set_binding.
    rewrite set_binding_twice. cbv beta iota.
    set (kv2 := <["pending" := JSON_stringify (JArr (List.filter (other_id id) items))]> kv1).
    assert (Hh2 : kv2 !! "history" = kv !! "history")
      by (unfold kv2; rewrite lookup_insert_ne by discriminate; exact Hh1).
    rewrite (KV_get_run _ _ _ kv2) by apply binding_set_binding. cbv beta iota.
    rewrite Hh2, Hth.
    destruct (JSON_parse_or_throw (default EmptyString (kv !! "history"))) as [hdoc | e'].
    + rewrite Hhistory. reflexivity.
    + injection Hhistory as ->. reflexivity.
  - rewrite (KV_get_run _ _ _ kv1) by apply binding_set_binding. cbv beta iota.
    rewrite Hh1, Hth.
    destruct (JSON_parse_or_throw (default EmptyString (kv !! "history"))) as [hdoc | e'].
    + rewrite Hhistory. reflexivity.
    + injection Hhistory as ->. reflexivity.
Qed.

End Unusable.

(** X6. The writes of a decision are not atomic.  When the stored
    pending value cannot be filtered (it does not parse, is not an array,
    or holds a [null] item), an accepted request whose id has the text
    [name] throws, yet the decision record is already stored under
    [decision:] followed by that text; pending and history are left as
    they were, so the history never shows that decision. *)
Theorem unusable_pending_leaves_decision_record `{Hcodec : JSONCodec} `{Hb64 : Base64}
    (env : Env) (kv : KV) (request : Request) (now email name : string)
    (id action : json) (note : jsval) (e : JsError) :
  accepted request email id action note ->
  ToString_json id = Value name ->
  APPROVALS env = Some kv ->
  pending_fails kv e ->
  let decision := Approve.make_decision id action note (JStr email) now in
  exists kv' : KV,
    Approve.onRequestPost request now env = (Throw e, set_binding NS_APPROVALS kv' env) /\
    kv' !! ("decision:" +:+ name) = Some (JSON_stringify decision) /\
    kv' !! "pending" = kv !! "pending" /\
    kv' !! "history" = kv !! "history".
Proof.
  intros Hacc Hname Hkv Hfails decision.
  exists (<["decision:" +:+ name := JSON_stringify decision]> kv).
  split; [ | split; [ | split]].
  - rewrite (onRequestPost_checked _ _ _ _ env (accepted_checked _ _ _ _ _ now Hacc)).
    rewrite (bind_value _ _ env env true (bound_some NS_APPROVALS env kv Hkv)).
    unfold bind at 1.
    rewrite (persist_pending_fails env kv name id _ e Hname Hkv Hfails). reflexivity.
  - apply lookup_insert_eq.
  - apply lookup_insert_ne, decision_key_not_pending.
  - apply lookup_insert_ne, decision_key_not_history.
Qed.

(** X7. When the pending queue is fine but the stored history value does
    not parse or is not an array, an accepted request whose id has the
    text [name] throws after it has stored the decision record and
    written back the filtered pending queue; the history value is left
    as it was. *)
Theorem unusable_history_after_pending_update `{Hlaws : JSONLaws} `{Hb64 : Base64}
    (env : Env) (kv : KV) (request : Request) (now email name : string)
    (id action : json) (note : jsval) (items : list json) (e : JsError) :
  accepted request email id action note ->
  ToString_json id = Value name ->
  APPROVALS env = Some kv ->
  stored_list kv "pending" = Value items ->
  Forall not_null items ->
  stored_list kv "history" = Throw e ->
  let decision := Approve.make_decision id action note (JStr email) now in
  exists kv' : KV,
    Approve.onRequestPost request now env = (Throw e, set_binding NS_APPROVALS kv' env) /\
    kv' !! ("decision:" +:+ name) = Some (JSON_stringify decision) /\
    stored_list kv' "pending" = Value (List.filter (other_id id) items) /\
    kv' !! "history" = kv !! "history".
Proof.
  intros Hacc Hname Hkv Hpending Hnn Hhistory decision.
  eexists. split.
  - rewrite (onRequestPost_checked _ _ _ _ env (accepted_checked _ _ _ _ _ now Hacc)).
    rewrite (bind_value _ _ env env true (bound_some NS_APPROVALS env kv Hkv)).
    unfold bind at 1.
    rewrite (persist_history_fails env kv name id _ items e
               Hname Hkv Hpending Hnn Hhistory).
    reflexivity.
  - cbv zeta. destruct (truthy_str (kv !! "pending")) eqn:Htruthy.
    + split; [ | split].
      * rewrite lookup_insert_ne by (apply not_eq_sym, decision_key_not_pending).
        apply lookup_insert_eq.
      * apply stored_list_insert.
      * rewrite lookup_insert_ne by discriminate.
        apply lookup_insert_ne, decision_key_not_history.
    + split; [ | split].
      * apply lookup_insert_eq.
      * rewrite stored_list_insert_ne by apply decision_key_not_pending.
        unfold stored_list in Hpending |- *. rewrite Htruthy in Hpending |- *.
        injection Hpending as <-. reflexivity.
      * apply lookup_insert_ne, decision_key_not_history.
Qed.

(** ** Decisions in sequence *)

Lemma filter_filter_and {A : Type} (f g : A -> bool) (l : list A) :
  List.filter g (List.filter f l) = List.filter (fun x => f x && g x) l.
Proof.
  induction l as [ | x l IH]; simpl; [reflexivity | ].
  destruct (f x); simpl; [destruct (g x); simpl; congruence | exact IH].
Qed.

Lemma filter_fmap_sublist {A B : Type} (h : A -> B) (f : A -> bool) (l : list A) :
  map h (List.filter f l) `sublist_of` map h l.
Proof.
  induction l as [ | x l IH]; simpl; [constructor | ].
  destruct (f x); simpl; [apply sublist_skip | apply sublist_cons]; exact IH.
Qed.

Lemma filter_sublist {A : Type} (f : A -> bool) (l : list A) :
  List.filter f l `sublist_of` l.
Proof.
  induction l as [ | x l IH]; simpl; [constructor | ].
  destruct (f x); [apply sublist_skip | apply sublist_cons]; exact IH.
Qed.

Section SequencePending.
Context `{Hlaws : JSONLaws} `{Hb64 : Base64}.

Lemma run_posts_pending (calls : list (Request * string)) :
  forall (env : Env) (kv : KV) (items hist : list json),
    APPROVALS env = Some kv ->
    stored_list kv "pending" = Value items ->
    Forall not_null items ->
    stored_list kv "history" = Value hist ->
    exists kv' : KV,
      APPROVALS (run_posts calls env) = Some kv' /\
      stored_list kv' "pending" = Value (List.filter (undecided (decided calls)) items).
Proof.
  induction calls as [ | [request now] calls IH]; intros env kv items hist Hkv Hpending Hnn Hhist.
  - exists kv. split; [exact Hkv | ]. cbn [run_posts decided].
    rewrite Hpending. f_equal. symmetry.
    unfold undecided. cbn [forallb]. clear. induction items; simpl; congruence.
  - cbn [run_posts decided].
    destruct (recorded request now) as [[id decision] | ] eqn:Hrec.
    + destruct (recorded_checked _ _ _ _ Hrec) as (Hchecked & name & Hname).
      rewrite (onRequestPost_persists _ _ _ _ _ _ _ _ _
                 Hchecked Hname Hkv Hpending Hnn Hhist).
      cbn [snd].
      destruct (IH (set_binding NS_APPROVALS (persisted kv name id decision items hist) env)
                  (persisted kv name id decision items hist)
                  (List.filter (other_id id) items) (firstn 100 (decision :: hist)))
        as (kv' & Hkv' & Hp').
      * reflexivity.
      * apply persisted_pending, Hpending.
      * apply Forall_not_null_filter, Hnn.
      * apply persisted_history.
      * exists kv'. split; [exact Hkv' | ].
        rewrite Hp', filter_filter_and. reflexivity.
    + rewrite (onRequestPost_not_recorded _ _ _ Hrec).
      apply (IH env kv items hist); assumption.
Qed.

End SequencePending.

(** X8. After any sequence of calls of [POST /api/approve] on a usable
    ledger, the pending queue is the initial one without the items whose
    id is identical to an id some call recorded a decision for: it is a
    sub-sequence of the initial queue (nothing is ever added or
    reordered), it is independent of the order of the calls, and if the
    ids of the initial queue were pairwise distinct they still are. *)
Theorem pending_after_calls `{Hlaws : JSONLaws} `{Hb64 : Base64}
    (calls : list (Request * string)) (env : Env) (kv : KV) (items hist : list json) :
  APPROVALS env = Some kv ->
  stored_list kv "pending" = Value items ->
  Forall not_null items ->
  stored_list kv "history" = Value hist ->
  exists (kv' : KV) (remaining : list json),
    APPROVALS (run_posts calls env) = Some kv' /\
    stored_list kv' "pending" = Value remaining /\
    (forall item : json,
        In item remaining
        <-> In item items /\
            forall id : json, In id (decided calls) ->
                              strict_eq (item_id item) (Some id) = false) /\
    (forall ids : list json,
        (forall id : json, In id ids <-> In id (decided calls)) ->
        List.filter (undecided ids) items = remaining) /\
    remaining `sublist_of` items /\
    (NoDup (map item_id items) -> NoDup (map item_id remaining)).
Proof.
  intros Hkv Hpending Hnn Hhist.
  destruct (run_posts_pending calls env kv items hist Hkv Hpending Hnn Hhist)
    as (kv' & Hkv' & Hp').
  exists kv', (List.filter (undecided (decided calls)) items).
  split; [exact Hkv' | ]. split; [exact Hp' | ]. split; [ | split; [ | split]].
  - intros item. rewrite filter_In. unfold undecided. rewrite forallb_forall.
    unfold other_id. split; intros [Hin Hall]; (split; [exact Hin | ]); intros id Hid.
    + apply Bool.negb_true_iff, Hall, Hid.
    + apply Bool.negb_true_iff, Hall, Hid.
  - intros ids Hsame. apply List.filter_ext. intros item. unfold undecided.
    apply Bool.eq_true_iff_eq. rewrite !forallb_forall.
    split; intros Hall id Hid; apply Hall, Hsame, Hid.
  - apply filter_sublist.
  - intros Hdistinct. apply (sublist_NoDup _ (map item_id items)); [exact Hdistinct | ].
    apply filter_fmap_sublist.
Qed.

(** X9. Deciding an id again is accepted like the first time: for an id
    with the text [name], the second call answers 200, the record under
    [decision:] followed by that text is overwritten by the second
    decision, and the history holds both, the second in front of the
    first. *)
Theorem redeciding_overwrites_record_and_stacks_history `{Hlaws : JSONLaws} `{Hb64 : Base64}
    (env : Env) (kv : KV) (first second : Request) (now1 now2 email1 email2 name : string)
    (id action1 action2 : json) (note1 note2 : jsval) (items hist : list json) :
  accepted first email1 id action1 note1 ->
  accepted second email2 id action2 note2 ->
  ToString_json id = Value name ->
  APPROVALS env = Some kv ->
  stored_list kv "pending" = Value items ->
  Forall not_null items ->
  stored_list kv "history" = Value hist ->
  let d1 := Approve.make_decision id action1 note1 (JStr email1) now1 in
  let d2 := Approve.make_decision id action2 note2 (JStr email2) now2 in
  let env1 := snd (Approve.onRequestPost first now1 env) in
  exists kv2 : KV,
    Approve.onRequestPost second now2 env1
    = (Value (decision_response d2), set_binding NS_APPROVALS kv2 env) /\
    kv2 !! ("decision:" +:+ name) = Some (JSON_stringify d2) /\
    stored_list kv2 "history" = Value (firstn 100 (d2 :: d1 :: hist)) /\
    stored_list kv2 "pending" = Value (List.filter (other_id id) items).
Proof.
  intros Hacc1 Hacc2 Hname Hkv Hpending Hnn Hhist d1 d2 env1.
  pose proof (accepted_checked _ _ _ _ _ now1 Hacc1) as Hrec1.
  pose proof (accepted_checked _ _ _ _ _ now2 Hacc2) as Hrec2.
  set (kv1 := persisted kv name id d1 items hist).
  assert (Henv1 : env1 = set_binding NS_APPROVALS kv1 env)
    by (unfold env1;
        rewrite (onRequestPost_persists _ _ _ _ _ _ _ _ _
                   Hrec1 Hname Hkv Hpending Hnn Hhist);
        reflexivity).
  exists (persisted kv1 name id d2 (List.filter (other_id id) items)
            (firstn 100 (d1 :: hist))).
  split; [ | split; [ | split]].
  - rewrite Henv1.
    rewrite (onRequestPost_persists second now2 (set_binding NS_APPROVALS kv1 env) kv1
               name id d2 (List.filter (other_id id) items) (firstn 100 (d1 :: hist))
               Hrec2 Hname).
    + rewrite set_binding_twice. reflexivity.
    + reflexivity.
    + apply persisted_pending, Hpending.
    + apply Forall_not_null_filter, Hnn.
    + apply persisted_history.
  - apply persisted_decision.
  - rewrite persisted_history.
    f_equal. apply (take_app_take_le [d2] (d1 :: hist) 100 100). lia.
  - rewrite (persisted_pending kv1 name id d2 _ _
               (persisted_pending kv name id d1 items hist Hpending)).
    rewrite filter_filter_and. f_equal.
    clear. induction items as [ | x l IH]; simpl; [reflexivity | ].
    destruct (other_id id x); simpl; congruence.
Qed.

(** ** Listing the ledger *)

(** X10. [GET /api/approve] asks for authentication only: without an
    identity it answers 401, with one it never consults the allow-list,
    so any two authenticated callers get the same answer; and without an
    approvals store that answer is the two empty sequences. *)
Theorem listing_needs_authentication_only `{Hcodec : JSONCodec} `{Hb64 : Base64}
    (request : Request) (env : Env) :
  (Approve.getAuthenticatedEmail request = None ->
   Approve.onRequestGet request env = (Value (failure_response Unauthorized), env)) /\
  (forall (other : Request) (email email' : json),
      Approve.getAuthenticatedEmail request = Some email ->
      Approve.getAuthenticatedEmail other = Some email' ->
      Approve.onRequestGet request env = Approve.onRequestGet other env) /\
  (forall email : json,
      Approve.getAuthenticatedEmail request = Some email ->
      APPROVALS env = None ->
      Approve.onRequestGet request env
      = (Value (json_response (JObj [("pending", JArr []); ("history", JArr [])]) 200), env)).
Proof.
  split; [ | split].
  - intros Hnone. unfold Approve.onRequestGet. rewrite Hnone. reflexivity.
  - intros other email email' Hemail Hother. unfold Approve.onRequestGet.
    rewrite Hemail, Hother. reflexivity.
  - intros email Hemail Hunbound. unfold Approve.onRequestGet. rewrite Hemail.
    rewrite (bind_value _ _ env env false (bound_none NS_APPROVALS env Hunbound)).
    reflexivity.
Qed.

(** X11. What [POST /api/approve] stores is what [GET /api/approve]
    lists: after an accepted request (whose id has a text to key the
    decision record with) on a usable ledger, a listing by any
    authenticated caller answers 200 with the pending queue without the
    decided items and the history with the new decision in front. *)
Theorem listing_after_decision `{Hlaws : JSONLaws} `{Hb64 : Base64}
    (env : Env) (kv : KV) (request reader : Request) (now email name : string)
    (email' : json) (id action : json) (note : jsval) (items hist : list json) :
  accepted request email id action note ->
  ToString_json id = Value name ->
  Approve.getAuthenticatedEmail reader = Some email' ->
  APPROVALS env = Some kv ->
  stored_list kv "pending" = Value items ->
  Forall not_null items ->
  stored_list kv "history" = Value hist ->
  let decision := Approve.make_decision id action note (JStr email) now in
  let env' := snd (Approve.onRequestPost request now env) in
  Approve.onRequestGet reader env'
  = (Value (json_response
              (JObj [("pending", JArr (List.filter (other_id id) items));
                     ("history", JArr (decision :: firstn 99 hist))]) 200),
     env').
Proof.
  intros Hacc Hname Hreader Hkv Hpending Hnn Hhist decision env'.
  pose proof (accepted_checked _ _ _ _ _ now Hacc) as Hrec.
  unfold env'.
  rewrite (onRequestPost_persists _ _ _ _ _ _ _ _ _ Hrec Hname Hkv Hpending Hnn Hhist).
  cbn [snd].
  apply (onRequestGet_lists reader _ (persisted kv name id decision items hist) email').
  - exact Hreader.
  - reflexivity.
  - apply persisted_pending, Hpending.
  - apply persisted_history.
Qed.

(** ** The push credential *)

Lemma substring_all (s : string) : substring 0 (String.length s) s = s.
Proof. induction s as [ | c s IH]; simpl; [reflexivity | rewrite IH; reflexivity]. Qed.

Lemma String_replace_bearer (token : string) :
  String_replace ("Bearer " +:+ token) "Bearer " EmptyString = token.
Proof.
  assert (Hprefix : String.prefix "Bearer " ("Bearer " +:+ token) = true)
    by (simpl; destruct token; reflexivity).
  change ("Bearer " +:+ token)
    with (String "B" (String "e" (String "a" (String "r" (String "e" (String "r"
           (String " " token))))))) in *.
  cbn [String_replace]. rewrite Hprefix.
  cbn [String.length Nat.sub substring]. rewrite Nat.sub_0_r. simpl String.append.
  apply substring_all.
Qed.

Section Credential.
Context `{Hcodec : JSONCodec}.

Lemma push_refused (request : Request) (now_sync now_resp : string) (env : Env) :
  negb (truthy_str (SYNC_SECRET env))
  || negb (String.eqb
             (String_replace (default EmptyString (header_Authorization request))
                "Bearer " EmptyString)
             (default EmptyString (SYNC_SECRET env))) = true ->
  Sync.onRequestPost request now_sync now_resp env
  = (Value (json_response (Sync.error_body "Unauthorized") 401), env).
Proof. intros Hrefused. unfold Sync.onRequestPost. rewrite Hrefused. reflexivity. Qed.

End Credential.

(** X12. With a secret configured, a push whose [Authorization] header
    is [Bearer <token>] is let through exactly when the token is the
    secret: a snapshot that is not [null] is then written to the stores,
    and answered 200 with the agents text lines 53-55 build for it.  With
    another token, or without the header, the answer is 401 and nothing
    is written. *)
Theorem bearer_token_must_be_the_secret `{Hcodec : JSONCodec}
    (request : Request) (now_sync now_resp : string) (env : Env) (secret : string) :
  SYNC_SECRET env = Some secret ->
  secret <> EmptyString ->
  (forall token : string,
      header_Authorization request = Some ("Bearer " +:+ token) ->
      (token = secret ->
       authorized_push request env /\
       forall statusData : json,
         body_json request = Some statusData ->
         not_null statusData ->
         snd (Sync.onRequestPost request now_sync now_resp env)
         = pushed env statusData now_sync /\
         forall agents : string,
           Sync.agents_summary statusData = Value agents ->
           fst (Sync.onRequestPost request now_sync now_resp env)
           = Value (push_response now_resp agents)) /\
      (token <> secret ->
       Sync.onRequestPost request now_sync now_resp env
       = (Value (json_response (Sync.error_body "Unauthorized") 401), env))) /\
  (header_Authorization request = None ->
   Sync.onRequestPost request now_sync now_resp env
   = (Value (json_response (Sync.error_body "Unauthorized") 401), env)).
Proof.
  intros Hsecret Hne.
  assert (Htruthy : truthy_str (SYNC_SECRET env) = true).
  { rewrite Hsecret. simpl.
    destruct (String.eqb_spec secret EmptyString); [contradiction | reflexivity]. }
  split.
  - intros token Hheader. split.
    + intros ->.
      assert (Hauth : authorized_push request env).
      { split; [exact Htruthy | ].
        rewrite Hheader, Hsecret. apply String_replace_bearer. }
      split; [exact Hauth | ].
      intros statusData Hbody Hnn. split; [apply push_store; assumption | ].
      intros agents Hagents.
      rewrite (push_run _ _ _ _ _ _ Hauth Hbody Hnn Hagents). reflexivity.
    + intros Hother. apply push_refused.
      rewrite Htruthy, Hheader, Hsecret. cbn [default from_option id negb orb]. unfold id.
      rewrite String_replace_bearer.
      destruct (String.eqb_spec token secret); [contradiction | reflexivity].
  - intros Hnone. apply push_refused.
    rewrite Htruthy, Hnone, Hsecret. cbn [default from_option id negb orb]. unfold id.
    change (String_replace EmptyString "Bearer " EmptyString) with EmptyString.
    destruct (String.eqb_spec EmptyString secret) as [Heq | _];
      [symmetry in Heq; contradiction | reflexivity].
Qed.

(** X13. A push is refused before anything is written: when no secret
    is configured (unset or empty) every push is answered 401, whatever
    its header, and an authenticated push whose body is not JSON is
    answered 400; the environment is unchanged in both cases. *)
Theorem refused_push_writes_nothing `{Hcodec : JSONCodec}
    (request : Request) (now_sync now_resp : string) (env : Env) :
  (truthy_str (SYNC_SECRET env) = false ->
   Sync.onRequestPost request now_sync now_resp env
   = (Value (json_response (Sync.error_body "Unauthorized") 401), env)) /\
  (authorized_push request env ->
   body_json request = None ->
   Sync.onRequestPost request now_sync now_resp env
   = (Value (json_response (Sync.error_body "Invalid JSON") 400), env)).
Proof.
  split.
  - intros Hunset. apply push_refused. rewrite Hunset. reflexivity.
  - intros [Hsecret Htoken] Hbody. unfold Sync.onRequestPost.
    rewrite Hsecret, Htoken, String.eqb_refl, Hbody. reflexivity.
Qed.

(** ** Pushed snapshots *)

(** X14. An authenticated push whose body is the JSON value [null] is
    not refused: if the status store is bound, the snapshot and the sync
    time are stored first; then reading a field of the snapshot throws a
    TypeError, and the approvals store is left as it was. *)
Theorem null_snapshot_is_stored_then_throws `{Hcodec : JSONCodec}
    (request : Request) (now_sync now_resp : string) (env : Env) :
  authorized_push request env ->
  body_json request = Some JNull ->
  Sync.onRequestPost request now_sync now_resp env
  = (Throw TypeError,
     {| SYNC_SECRET := SYNC_SECRET env;
        DASHBOARD_DATA :=
          (fun kv : KV => <["last_sync" := now_sync]> (<["status" := JSON_stringify JNull]> kv))
            <$> DASHBOARD_DATA env;
        APPROVALS := APPROVALS env |}).
Proof.
  intros [Hsecret Htoken] Hbody.
  unfold Sync.onRequestPost. rewrite Hsecret, Htoken, String.eqb_refl, Hbody.
  simpl orb. cbv iota.
  destruct env as [secret dashboard approvals]. cbn [SYNC_SECRET DASHBOARD_DATA APPROVALS].
  destruct dashboard as [dkv | ]; destruct approvals as [akv | ];
    unfold Sync.seed_pending, bind, bound, KV_put, KV_get, lift, ret;
    repeat (cbn [binding set_binding DASHBOARD_DATA APPROVALS SYNC_SECRET];
            first [ rewrite bool_decide_eq_true_2 by eauto
                  | rewrite bool_decide_eq_false_2 by apply is_Some_None ];
            cbv beta iota);
    cbn [binding set_binding DASHBOARD_DATA APPROVALS SYNC_SECRET
           fmap option_fmap option_map];
    try (destruct (truthy_str (akv !! "pending")); cbn [negb]; cbv iota);
    reflexivity.
Qed.

Lemma insert_status_twice (kv : KV) (s1 s2 t1 t2 : string) :
  <["last_sync" := t2]> (<["status" := s2]> (<["last_sync" := t1]> (<["status" := s1]> kv)))
  = <["last_sync" := t2]> (<["status" := s2]> kv).
Proof.
  apply map_eq. intros key.
  destruct (decide (key = "last_sync")) as [-> | Hsync].
  - rewrite !lookup_insert_eq. reflexivity.
  - rewrite !(lookup_insert_ne _ "last_sync") by congruence.
    destruct (decide (key = "status")) as [-> | Hstatus].
    + rewrite !lookup_insert_eq. reflexivity.
    + rewrite !(lookup_insert_ne _ "status") by congruence.
      rewrite !(lookup_insert_ne _ "last_sync") by congruence.
      rewrite !(lookup_insert_ne _ "status") by congruence. reflexivity.
Qed.

(** X15. Each push replaces the stored snapshot wholesale: after two
    authenticated pushes the status store is what the second push alone
    would have left (its snapshot under [status], its time under
    [last_sync]), while the pending queue is what the first push left. *)
Theorem later_push_replaces_snapshot `{Hlaws : JSONLaws}
    (first second : Request) (t1 t1' t2 t2' : string) (env : Env) (s1 s2 : json) :
  authorized_push first env ->
  authorized_push second env ->
  body_json first = Some s1 ->
  body_json second = Some s2 ->
  not_null s1 ->
  not_null s2 ->
  let env1 := snd (Sync.onRequestPost first t1 t1' env) in
  let env2 := snd (Sync.onRequestPost second t2 t2' env1) in
  DASHBOARD_DATA env2 = DASHBOARD_DATA (snd (Sync.onRequestPost second t2 t2' env)) /\
  (forall kv : KV,
      DASHBOARD_DATA env = Some kv ->
      exists kv2 : KV,
        DASHBOARD_DATA env2 = Some kv2 /\
        kv2 !! "status" = Some (JSON_stringify s2) /\
        kv2 !! "last_sync" = Some t2) /\
  APPROVALS env2 = APPROVALS env1.
Proof.
  intros Hauth1 Hauth2 Hbody1 Hbody2 Hnn1 Hnn2 env1 env2.
  assert (Henv1 : env1 = pushed env s1 t1)
    by (unfold env1; apply (push_store _ _ _ _ _ Hauth1 Hbody1 Hnn1)).
  assert (Henv2 : env2 = pushed env1 s2 t2).
  { unfold env2. apply (push_store second _ _ env1 s2); [ | exact Hbody2 | exact Hnn2].
    rewrite Henv1. exact Hauth2. }
  rewrite (push_store _ _ _ _ _ Hauth2 Hbody2 Hnn2).
  rewrite Henv2, Henv1. unfold pushed. cbn [DASHBOARD_DATA APPROVALS SYNC_SECRET].
  split; [ | split].
  - destruct (DASHBOARD_DATA env) as [kv | ]; cbn [fmap option_fmap option_map];
      [ | reflexivity].
    f_equal. apply insert_status_twice.
  - intros kv Hkv. rewrite Hkv. cbn [fmap option_fmap option_map].
    eexists. split; [reflexivity | ]. split.
    + rewrite lookup_insert_ne by discriminate. apply lookup_insert_eq.
    + apply lookup_insert_eq.
  - destruct (APPROVALS env) as [kv | ]; cbn [fmap option_fmap option_map];
      [ | reflexivity].
    f_equal. destruct (truthy_str (kv !! "pending")) eqn:Htruthy.
    + rewrite Htruthy. reflexivity.
    + rewrite lookup_insert_eq, truthy_stringify. reflexivity.
Qed.

(** X16. For an authenticated push of a snapshot that is not [null],
    the [agents] field of the answer is the text of the count followed
    by [ active] when the snapshot's [summary] carries [active_agents];
    for a number that text is what the runtime prints for it, the
    decimal numeral below 2^53.  A count without a text (an object with
    an own [toString] member) makes the call throw, after the stores are
    written.  The field is [unknown] when the snapshot has no [summary]
    or a falsy one. *)
Theorem agents_field_of_a_summary `{Hcodec : JSONCodec}
    (request : Request) (now_sync now_resp : string) (env : Env) (statusData : json) :
  authorized_push request env ->
  body_json request = Some statusData ->
  not_null statusData ->
  (forall (summary count : json) (text : string),
      get_prop statusData "summary" = Value (Some summary) ->
      get_prop summary "active_agents" = Value (Some count) ->
      ToString_json count = Value text ->
      fst (Sync.onRequestPost request now_sync now_resp env)
      = Value (push_response now_resp (text +:+ " active"))) /\
  (forall (summary : json) (n : Z),
      get_prop statusData "summary" = Value (Some summary) ->
      get_prop summary "active_agents" = Value (Some (JNum n)) ->
      fst (Sync.onRequestPost request now_sync now_resp env)
      = Value (push_response now_resp (Number_toString n +:+ " active")) /\
      (Z.abs n < 2 ^ 53 -> Number_toString n = decimal_numeral n)) /\
  (forall (summary count : json) (e : JsError),
      get_prop statusData "summary" = Value (Some summary) ->
      get_prop summary "active_agents" = Value (Some count) ->
      ToString_json count = Throw e ->
      Sync.onRequestPost request now_sync now_resp env
      = (Throw e, pushed env statusData now_sync)) /\
  (forall summary : jsval,
      get_prop statusData "summary" = Value summary ->
      truthy summary = false ->
      fst (Sync.onRequestPost request now_sync now_resp env)
      = Value (push_response now_resp "unknown")).
Proof.
  intros Hauth Hbody Hnn. rewrite (push_outcome _ _ _ _ _ Hauth Hbody Hnn). cbn [fst].
  assert (Hcount : forall summary count : json,
             get_prop statusData "summary" = Value (Some summary) ->
             get_prop summary "active_agents" = Value (Some count) ->
             Sync.agents_summary statusData
             = match ToString_json count with
               | Value text => Value (text +:+ " active")
               | Throw e => Throw e
               end).
  { intros summary count Hsummary Hactive. unfold Sync.agents_summary.
    rewrite Hsummary.
    destruct summary; try discriminate Hactive. cbn [truthy_json].
    rewrite Hactive. reflexivity. }
  split; [ | split; [ | split]].
  - intros summary count text Hsummary Hactive Htext.
    rewrite (Hcount _ _ Hsummary Hactive), Htext. reflexivity.
  - intros summary n Hsummary Hactive. split.
    + rewrite (Hcount _ _ Hsummary Hactive). reflexivity.
    + intros Hsafe. unfold Number_toString.
      destruct (Z.ltb_spec (Z.abs n) (2 ^ 53)) as [_ | Hge]; [reflexivity | lia].
  - intros summary count e Hsummary Hactive Htext.
    rewrite (Hcount _ _ Hsummary Hactive), Htext. reflexivity.
  - intros summary Hsummary Hfalsy. unfold Sync.agents_summary.
    rewrite Hsummary. destruct summary as [s | ]; [ | reflexivity].
    cbn [truthy] in Hfalsy. rewrite Hfalsy. reflexivity.
Qed.

(** X17. Seeding does not check that [pending_approvals] is a list: a
    first push whose [pending_approvals] is any other truthy value stores
    that value as the pending queue, and from then on every accepted
    [POST /api/approve] (for an id with a text, [name]) throws a
    TypeError at the filter, after storing its decision record. *)
Theorem seed_that_is_no_list_breaks_decisions `{Hlaws : JSONLaws} `{Hb64 : Base64}
    (push request : Request) (now_sync now_resp now email name : string) (env : Env)
    (kv : KV) (statusData seed id action : json) (note : jsval) :
  authorized_push push env ->
  body_json push = Some statusData ->
  get_prop statusData "pending_approvals" = Value (Some seed) ->
  truthy_json seed = true ->
  (forall l : list json, seed <> JArr l) ->
  APPROVALS env = Some kv ->
  kv !! "pending" = None ->
  accepted request email id action note ->
  ToString_json id = Value name ->
  let env1 := snd (Sync.onRequestPost push now_sync now_resp env) in
  exists kv1 : KV,
    APPROVALS env1 = Some kv1 /\
    kv1 !! "pending" = Some (JSON_stringify seed) /\
    fst (Approve.onRequestPost request now env1) = Throw TypeError /\
    APPROVALS (snd (Approve.onRequestPost request now env1))
    = Some (<["decision:" +:+ name
              := JSON_stringify (Approve.make_decision id action note (JStr email) now)]>
              kv1).
Proof.
  intros Hauth Hbody Hseed Htruthy Hnolist Hkv Hnone Hacc Hname env1.
  pose proof (get_prop_value_not_null _ _ _ Hseed) as Hnn.
  assert (Hseed_of : seed_of statusData = seed)
    by (unfold seed_of; rewrite Hseed; cbn [or_else]; rewrite Htruthy; reflexivity).
  set (kv1 := <["pending" := JSON_stringify seed]> kv).
  assert (Hkv1 : APPROVALS env1 = Some kv1).
  { unfold env1. rewrite (push_store _ _ _ _ _ Hauth Hbody Hnn).
    unfold pushed. cbn [APPROVALS]. rewrite Hkv. cbn [fmap option_fmap option_map].
    rewrite Hnone, Hseed_of. reflexivity. }
  assert (Hfails : pending_fails kv1 TypeError).
  { left. unfold stored_list, kv1. rewrite lookup_insert_eq, truthy_stringify.
    change (default EmptyString (Some (JSON_stringify seed))) with (JSON_stringify seed).
    unfold JSON_parse_or_throw. rewrite parse_stringify.
    destruct seed; try reflexivity. exfalso. eapply Hnolist. reflexivity. }
  exists kv1. split; [exact Hkv1 | ]. split; [apply lookup_insert_eq | ].
  assert (Hrun : Approve.onRequestPost request now env1
                 = (Throw TypeError,
                    set_binding NS_APPROVALS
                      (<["decision:" +:+ name
                         := JSON_stringify
                              (Approve.make_decision id action note (JStr email) now)]>
                         kv1) env1)).
  { rewrite (onRequestPost_checked _ _ _ _ env1 (accepted_checked _ _ _ _ _ now Hacc)).
    rewrite (bind_value _ _ env1 env1 true (bound_some NS_APPROVALS env1 kv1 Hkv1)).
    unfold bind at 1.
    rewrite (persist_pending_fails env1 kv1 name id _ TypeError Hname Hkv1 Hfails).
    reflexivity. }
  rewrite Hrun. split; reflexivity.
Qed.

(** ** The Access cookie *)

Module AccessFacts.
Import Access.

Lemma until_semicolon_stops (token tail : string) :
  free_of ";" token = true ->
  tail = EmptyString \/ (exists r : string, tail = String ";" r) ->
  until_semicolon (token +:+ tail) = token.
Proof.
  intros Hfree Htail. induction token as [ | c token IH]; simpl.
  - destruct Htail as [-> | [r ->]]; reflexivity.
  - simpl in Hfree. apply andb_prop in Hfree as [Hc Hrest].
    apply Bool.negb_true_iff in Hc. rewrite Hc, (IH Hrest). reflexivity.
Qed.

Lemma match_here_token (token tail : string) :
  token <> EmptyString ->
  free_of ";" token = true ->
  tail = EmptyString \/ (exists r : string, tail = String ";" r) ->
  match_here ("CF_Authorization=" +:+ token +:+ tail) = Some token.
Proof.
  intros Hne Hfree Htail. unfold match_here.
  change (after_prefix "CF_Authorization=" ("CF_Authorization=" +:+ token +:+ tail))
    with (Some (token +:+ tail)).
  cbv beta iota. rewrite (until_semicolon_stops token tail Hfree Htail).
  destruct token; [contradiction | reflexivity].
Qed.

Lemma match_skips (pre s : string) :
  free_of "C" pre = true ->
  match_CF_Authorization (pre +:+ s) = match_CF_Authorization s.
Proof.
  intros Hfree. induction pre as [ | c pre IH]; [reflexivity | ].
  simpl in Hfree. apply andb_prop in Hfree as [Hc Hrest].
  apply Bool.negb_true_iff in Hc.
  change (String c pre +:+ s) with (String c (pre +:+ s)).
  cbn [match_CF_Authorization]. unfold match_here at 1. cbn [after_prefix].
  rewrite Ascii.eqb_sym, Hc. apply IH, Hrest.
Qed.

Lemma match_nothing (s : string) :
  free_of "C" s = true -> match_CF_Authorization s = None.
Proof.
  intros Hfree. induction s as [ | c s IH]; [reflexivity | ].
  simpl in Hfree. apply andb_prop in Hfree as [Hc Hrest].
  apply Bool.negb_true_iff in Hc.
  cbn [match_CF_Authorization]. unfold match_here at 1. cbn [after_prefix].
  rewrite Ascii.eqb_sym, Hc. apply IH, Hrest.
Qed.

Lemma split_dot_head (h rest : string) :
  free_of "." h = true ->
  split_dot (h +:+ String "." rest) = h :: split_dot rest.
Proof.
  intros Hfree. induction h as [ | c h IH]; simpl.
  - reflexivity.
  - simpl in Hfree. apply andb_prop in Hfree as [Hc Hrest].
    apply Bool.negb_true_iff in Hc. rewrite Hc, (IH Hrest). reflexivity.
Qed.

Lemma split_dot_single (s : string) : free_of "." s = true -> split_dot s = [s].
Proof.
  intros Hfree. induction s as [ | c s IH]; simpl.
  - reflexivity.
  - simpl in Hfree. apply andb_prop in Hfree as [Hc Hrest].
    apply Bool.negb_true_iff in Hc. rewrite Hc, (IH Hrest). reflexivity.
Qed.

Lemma free_of_app (c : ascii) (a b : string) :
  free_of c (a +:+ b) = free_of c a && free_of c b.
Proof.
  induction a as [ | x a IH]; simpl; [reflexivity | ].
  rewrite IH. apply Bool.andb_assoc.
Qed.

Lemma after_prefix_spec (p s rest : string) :
  after_prefix p s = Some rest -> s = p +:+ rest.
Proof.
  revert s. induction p as [ | a p IH]; intros s; simpl.
  - intros [= ->]. reflexivity.
  - destruct s as [ | b s]; [discriminate | ].
    destruct (Ascii.eqb_spec a b) as [-> | _]; [ | discriminate].
    intros Hrest. rewrite (IH s Hrest). reflexivity.
Qed.

Lemma until_semicolon_spec (s : string) :
  free_of ";" (until_semicolon s) = true /\
  exists tail : string,
    s = until_semicolon s +:+ tail /\
    (tail = EmptyString \/ exists r : string, tail = String ";" r).
Proof.
  induction s as [ | c s (Hfree & tail & Heq & Htail)]; simpl.
  - split; [reflexivity | ]. exists EmptyString. auto.
  - destruct (Ascii.eqb_spec c ";") as [-> | Hne]; simpl.
    + split; [reflexivity | ]. exists (String ";" s). eauto.
    + split.
      * rewrite Hfree. destruct (Ascii.eqb_spec c ";"); [contradiction | reflexivity].
      * exists tail. split; [ | exact Htail].
        change (String c s = String c (until_semicolon s +:+ tail)).
        f_equal. exact Heq.
Qed.

(** What the pattern captures does occur in the cookie, after the
    literal name, up to the next semicolon or the end. *)
Lemma match_sound (cookie token : string) :
  match_CF_Authorization cookie = Some token ->
  token <> EmptyString /\
  free_of ";" token = true /\
  exists pre tail : string,
    cookie = pre +:+ "CF_Authorization=" +:+ token +:+ tail /\
    (tail = EmptyString \/ exists r : string, tail = String ";" r).
Proof.
  induction cookie as [ | c cookie IH]; cbn [match_CF_Authorization].
  - discriminate.
  - destruct (match_here (String c cookie)) as [found | ] eqn:Hhere.
    + intros [= ->]. unfold match_here in Hhere.
      destruct (after_prefix "CF_Authorization=" (String c cookie)) as [rest | ] eqn:Hrest;
        [ | discriminate Hhere].
      apply after_prefix_spec in Hrest.
      destruct (until_semicolon_spec rest) as (Hfree & tail & Heq & Htail).
      destruct (until_semicolon rest) as [ | t0 t] eqn:Huntil; [discriminate Hhere | ].
      injection Hhere as <-.
      split; [discriminate | ]. split; [exact Hfree | ].
      exists EmptyString, tail. split; [ | exact Htail].
      rewrite Hrest, Heq. reflexivity.
    + intros Hrec. destruct (IH Hrec) as (Hne & Hfree & pre & tail & Heq & Htail).
      split; [exact Hne | ]. split; [exact Hfree | ].
      exists (String c pre), tail. split; [ | exact Htail]. rewrite Heq. reflexivity.
Qed.

End AccessFacts.

Section AccessCookie.
Context `{Hcodec : JSONCodec} `{Hb64 : Base64}.

Lemma cookie_or_empty (cookie_header : option string) :
  default EmptyString (if truthy_str cookie_header then cookie_header else None)
  = default EmptyString cookie_header.
Proof.
  destruct cookie_header as [cookie | ]; [ | reflexivity]. simpl.
  destruct (String.eqb_spec cookie EmptyString) as [-> | _]; reflexivity.
Qed.

Lemma getAuthenticatedEmail_token (pre token tail : string) :
  Access.free_of "C" pre = true ->
  token <> EmptyString ->
  Access.free_of ";" token = true ->
  tail = EmptyString \/ (exists r : string, tail = String ";" r) ->
  Access.getAuthenticatedEmail (Some (pre +:+ "CF_Authorization=" +:+ token +:+ tail))
  = Access.token_email token.
Proof.
  intros Hpre Hne Hfree Htail. unfold Access.getAuthenticatedEmail.
  rewrite cookie_or_empty. cbn [default from_option]. unfold id.
  rewrite (AccessFacts.match_skips pre _ Hpre).
  replace (Access.match_CF_Authorization ("CF_Authorization=" +:+ token +:+ tail))
    with (Some token); [reflexivity | ].
  symmetry.
  pose proof (AccessFacts.match_here_token token tail Hne Hfree Htail) as Hhere.
  change ("CF_Authorization=" +:+ token +:+ tail)
    with (String "C" ("F_Authorization=" +:+ token +:+ tail)) in *.
  cbn [Access.match_CF_Authorization]. rewrite Hhere. reflexivity.
Qed.

End AccessCookie.

(** X18. The identity is read from the second dot-separated segment of
    the token and from nothing else: whatever the first segment and the
    signature are, whatever comes after the semicolon, and whatever
    text without the letter [C] (other cookies, which then hold no
    earlier token) comes before, the helper returns what the decoded
    second segment gives.  The signature is never examined. *)
Theorem identity_is_read_from_the_second_segment `{Hcodec : JSONCodec} `{Hb64 : Base64}
    (pre header payload signature tail : string) :
  Access.free_of "C" pre = true ->
  Access.free_of "." header = true ->
  Access.free_of ";" header = true ->
  Access.free_of "." payload = true ->
  Access.free_of ";" payload = true ->
  Access.free_of ";" signature = true ->
  tail = EmptyString \/ (exists r : string, tail = String ";" r) ->
  let token := header +:+ "." +:+ payload +:+ "." +:+ signature in
  let unsigned := header +:+ "." +:+ payload in
  Access.getAuthenticatedEmail (Some (pre +:+ "CF_Authorization=" +:+ token +:+ tail))
  = Access.payload_email payload /\
  Access.getAuthenticatedEmail (Some (pre +:+ "CF_Authorization=" +:+ unsigned +:+ tail))
  = Access.payload_email payload.
Proof.
  intros Hpre Hdot_h Hsemi_h Hdot_p Hsemi_p Hsemi_s Htail token unsigned.
  split.
  - rewrite (getAuthenticatedEmail_token pre token tail Hpre); [ | | | exact Htail].
    + unfold Access.token_email, token.
      change (header +:+ "." +:+ payload +:+ "." +:+ signature)
        with (header +:+ String "." (payload +:+ String "." signature)).
      rewrite (AccessFacts.split_dot_head header _ Hdot_h).
      rewrite (AccessFacts.split_dot_head payload _ Hdot_p). reflexivity.
    + unfold token. destruct header; discriminate.
    + unfold token. rewrite !AccessFacts.free_of_app, Hsemi_h, Hsemi_p, Hsemi_s.
      reflexivity.
  - rewrite (getAuthenticatedEmail_token pre unsigned tail Hpre); [ | | | exact Htail].
    + unfold Access.token_email, unsigned.
      change (header +:+ "." +:+ payload) with (header +:+ String "." payload).
      rewrite (AccessFacts.split_dot_head header _ Hdot_h).
      rewrite (AccessFacts.split_dot_single payload Hdot_p). reflexivity.
    + unfold unsigned. destruct header; discriminate.
    + unfold unsigned. rewrite !AccessFacts.free_of_app, Hsemi_h, Hsemi_p. reflexivity.
Qed.

(** X19. Without a token there is no identity: the helper returns
    [null] when the [Cookie] header is missing, and whenever it returns
    an identity, the cookie does hold [CF_Authorization=] followed by a
    non-empty token that runs to the next semicolon or the end, and the
    identity is the one that token gives.  A pair with an empty value
    (and no letter [C] elsewhere in the header) gives [null]. *)
Theorem no_token_no_identity `{Hcodec : JSONCodec} `{Hb64 : Base64} :
  Access.getAuthenticatedEmail None = None /\
  (forall (cookie : string) (email : json),
      Access.getAuthenticatedEmail (Some cookie) = Some email ->
      exists pre token tail : string,
        cookie = pre +:+ "CF_Authorization=" +:+ token +:+ tail /\
        token <> EmptyString /\
        Access.free_of ";" token = true /\
        (tail = EmptyString \/ exists r : string, tail = String ";" r) /\
        Access.token_email token = Some email) /\
  (forall pre rest : string,
      Access.free_of "C" pre = true ->
      Access.free_of "C" rest = true ->
      Access.getAuthenticatedEmail (Some (pre +:+ "CF_Authorization=" +:+ String ";" rest))
      = None /\
      Access.getAuthenticatedEmail (Some (pre +:+ "CF_Authorization=")) = None).
Proof.
  split; [reflexivity | split].
  - intros cookie email. unfold Access.getAuthenticatedEmail.
    rewrite cookie_or_empty. cbn [default from_option]. unfold id.
    destruct (Access.match_CF_Authorization cookie) as [token | ] eqn:Hmatch;
      [ | discriminate].
    intros Hemail.
    destruct (AccessFacts.match_sound cookie token Hmatch)
      as (Hne & Hfree & pre & tail & Heq & Htail).
    exists pre, token, tail. auto.
  - intros pre rest Hpre Hrest. split.
    + unfold Access.getAuthenticatedEmail.
      rewrite cookie_or_empty. cbn [default from_option]. unfold id.
      rewrite (AccessFacts.match_skips pre _ Hpre).
      change ("CF_Authorization=" +:+ String ";" rest)
        with (String "C" ("F_Authorization=" +:+ String ";" rest)).
      cbn [Access.match_CF_Authorization].
      change (Access.match_here (String "C" ("F_Authorization=" +:+ String ";" rest)))
        with (@None string).
      rewrite AccessFacts.match_nothing; [reflexivity | ].
      rewrite AccessFacts.free_of_app. cbn [Access.free_of]. rewrite Hrest. reflexivity.
    + unfold Access.getAuthenticatedEmail.
      rewrite cookie_or_empty. cbn [default from_option]. unfold id.
      rewrite (AccessFacts.match_skips pre _ Hpre). reflexivity.
Qed.

(** X20. Whatever goes wrong with a token is swallowed and read as no
    identity: a token without a second segment (when [atob] rejects the
    string [undefined]), a segment [atob] rejects, a payload that is not
    JSON, the payload [null], a payload without [email] or with a falsy
    one.  What the helper does return is always truthy. *)
Theorem unusable_token_no_identity `{Hcodec : JSONCodec} `{Hb64 : Base64} :
  (forall token : string,
      Access.free_of "." token = true -> atob "undefined" = None ->
      Access.token_email token = None) /\
  (forall segment : string, atob segment = None -> Access.payload_email segment = None) /\
  (forall segment text : string,
      atob segment = Some text -> JSON_parse text = None ->
      Access.payload_email segment = None) /\
  (forall (segment text : string) (payload : json),
      atob segment = Some text -> JSON_parse text = Some payload ->
      (payload = JNull \/ exists email : jsval,
            get_prop payload "email" = Value email /\ truthy email = false) ->
      Access.payload_email segment = None) /\
  (forall (segment : string) (email : json),
      Access.payload_email segment = Some email -> truthy_json email = true).
Proof.
  split; [ | split; [ | split; [ | split]]].
  - intros token Hfree Hreject. unfold Access.token_email.
    rewrite (AccessFacts.split_dot_single token Hfree). cbn [nth_error default from_option].
    unfold id, Access.payload_email. rewrite Hreject. reflexivity.
  - intros segment Hreject. unfold Access.payload_email. rewrite Hreject. reflexivity.
  - intros segment text Hdecode Hparse. unfold Access.payload_email.
    rewrite Hdecode, Hparse. reflexivity.
  - intros segment text payload Hdecode Hparse Hbad. unfold Access.payload_email.
    rewrite Hdecode, Hparse.
    destruct Hbad as [-> | (email & Hemail & Hfalsy)]; [reflexivity | ].
    rewrite Hemail, Hfalsy. reflexivity.
  - intros segment email. unfold Access.payload_email.
    destruct (atob segment) as [text | ]; [ | discriminate].
    destruct (JSON_parse text) as [payload | ]; [ | discriminate].
    destruct (get_prop payload "email") as [[v | ] | e]; try discriminate.
    cbn [truthy]. destruct (truthy_json v) eqn:Htruthy; [ | discriminate].
    intros [= <-]. exact Htruthy.
Qed.

(** ** The further properties, evaluated *)

Section EvaluatedFurther.
Import Scenario Cases.
Local Existing Instance CompactJSON.codec.
Local Existing Instance Access.base64.

Lemma reject_A_accepted :
  accepted reject_A approver (JStr "A") (JStr "reject") (Some (JStr "changed my mind")).
Proof.
  unfold accepted. repeat split; try reflexivity.
  - exists (JObj [("id", JStr "A"); ("action", JStr "reject");
                  ("note", JStr "changed my mind")]).
    repeat split.
  - right. reflexivity.
Defined.

(** X1 on approving A: of the decision records only the one of A is
    within reach. *)
Lemma approving_A_touches_its_own_keys :
  request_keys approve_A "decision:A" = true /\
  request_keys approve_A "decision:B" = false /\
  kv_agree (request_keys approve_A) (APPROVALS env_AB)
    (APPROVALS (snd (Approve.onRequestPost approve_A T env_AB))).
Proof.
  split; [reflexivity | ]. split; [reflexivity | ].
  exact (proj1 (proj2 (proj2 (@approve_post_touches_only_the_ledger CompactJSON.codec
                                Access.base64 approve_A T env_AB)))).
Defined.

(** X4 on the answer to approving A. *)
Lemma decision_answer_is_no_store :
  headers (decision_response decision_A)
  = [("Content-Type", "application/json"); ("Cache-Control", "no-store")].
Proof.
  apply (@every_response_is_no_store CompactJSON.codec Access.base64 approve_A T T env_AB).
  left. vm_compute. reflexivity.
Defined.


Example numeric_identity_throws :
  Approve.getAuthenticatedEmail approve_A_as_number = Some (JNum 123) /\
  Approve.onRequestPost approve_A_as_number T env_AB = (Throw TypeError, env_AB).
Proof. split; vm_compute; reflexivity. Qed.

Lemma approve_odd_id_accepted :
  accepted approve_odd_id approver odd_id (JStr "approve") undefined.
Proof.
  unfold accepted. repeat split; try reflexivity.
  - exists (JObj [("id", odd_id); ("action", JStr "approve")]). repeat split.
  - left. reflexivity.
Defined.

(** X21 on an approver's request whose id is [{"toString": 1}]. *)
Lemma odd_id_is_not_recorded :
  Approve.onRequestPost approve_odd_id T env_AB = (Throw TypeError, env_AB).
Proof.
  apply (proj1 (proj2 (@id_without_text_is_not_recorded CompactJSON.codec Access.base64
                         approve_odd_id T approver odd_id (JStr "approve") undefined
                         TypeError env_AB approve_odd_id_accepted eq_refl))
           ledger_AB eq_refl).
Defined.

Lemma ledger_garbled_fails : pending_fails ledger_garbled SyntaxError.
Proof. left. vm_compute. reflexivity. Defined.

Lemma ledger_bad_history_pending :
  stored_list ledger_bad_history "pending" = Value [item_A; item_B].
Proof. vm_compute. reflexivity. Defined.

Lemma ledger_bad_history_fails : stored_list ledger_bad_history "history" = Throw TypeError.
Proof. vm_compute. reflexivity. Defined.

(** X6 on a ledger whose pending value is not JSON. *)
Lemma garbled_pending_leaves_decision_A :
  exists kv' : KV,
    Approve.onRequestPost approve_A T env_garbled
    = (Throw SyntaxError, set_binding NS_APPROVALS kv' env_garbled) /\
    kv' !! "decision:A" = Some (CompactJSON.write decision_A) /\
    kv' !! "pending" = Some "oops" /\
    kv' !! "history" = None.
Proof.
  destruct (@unusable_pending_leaves_decision_record CompactJSON.codec Access.base64
              env_garbled ledger_garbled approve_A T approver "A" (JStr "A")
              (JStr "approve") undefined SyntaxError approve_A_accepted eq_refl eq_refl
              ledger_garbled_fails)
    as (kv' & Hrun & Hrecord & Hpending & Hhistory).
  exists kv'. split; [exact Hrun | ]. split; [exact Hrecord | ].
  split; [rewrite Hpending | rewrite Hhistory]; vm_compute; reflexivity.
Defined.

(** X7 on a ledger whose history value is an object. *)
Lemma bad_history_after_pending_update :
  exists kv' : KV,
    Approve.onRequestPost approve_A T env_bad_history
    = (Throw TypeError, set_binding NS_APPROVALS kv' env_bad_history) /\
    kv' !! "decision:A" = Some (CompactJSON.write decision_A) /\
    stored_list kv' "pending" = Value [item_B] /\
    kv' !! "history" = Some (CompactJSON.write (JObj [])).
Proof.
  destruct (@unusable_history_after_pending_update CompactJSON.codec compact_json_laws
              Access.base64
              env_bad_history ledger_bad_history approve_A T approver "A" (JStr "A")
              (JStr "approve") undefined [item_A; item_B] TypeError approve_A_accepted
              eq_refl eq_refl ledger_bad_history_pending items_AB_not_null
              ledger_bad_history_fails)
    as (kv' & Hrun & Hrecord & Hpending & Hhistory).
  exists kv'. split; [exact Hrun | ]. split; [exact Hrecord | ].
  split; [exact Hpending | ]. rewrite Hhistory. vm_compute. reflexivity.
Defined.

(** X8 on approving A and then B: nothing is left pending. *)
Lemma approving_A_then_B_empties_pending :
  exists kv' : KV,
    APPROVALS (run_posts [(approve_A, T); (approve_B, T')] env_AB) = Some kv' /\
    stored_list kv' "pending" = Value [].
Proof.
  destruct (@pending_after_calls CompactJSON.codec compact_json_laws Access.base64
              [(approve_A, T); (approve_B, T')] env_AB ledger_AB [item_A; item_B] []
              eq_refl ledger_AB_pending items_AB_not_null eq_refl)
    as (kv' & remaining & Hkv' & Hstored & _ & Hsame & _).
  exists kv'. split; [exact Hkv' | ].
  assert (Hdecided : decided [(approve_A, T); (approve_B, T')] = [JStr "A"; JStr "B"])
    by (vm_compute; reflexivity).
  assert (Heq : List.filter (undecided [JStr "B"; JStr "A"]) [item_A; item_B] = remaining)
    by (apply Hsame; intros id; rewrite Hdecided; simpl; tauto).
  rewrite Hstored, <- Heq. reflexivity.
Defined.

(** X9 on approving A and then rejecting it. *)
Lemma rejecting_A_after_approving_it :
  exists kv2 : KV,
    Approve.onRequestPost reject_A T' (snd (Approve.onRequestPost approve_A T env_AB))
    = (Value (decision_response decision_A_rejected), set_binding NS_APPROVALS kv2 env_AB) /\
    kv2 !! "decision:A" = Some (CompactJSON.write decision_A_rejected) /\
    stored_list kv2 "history" = Value [decision_A_rejected; decision_A] /\
    stored_list kv2 "pending" = Value [item_B].
Proof.
  apply (@redeciding_overwrites_record_and_stacks_history CompactJSON.codec compact_json_laws
           Access.base64
           env_AB ledger_AB approve_A reject_A T T' approver approver "A" (JStr "A")
           (JStr "approve") (JStr "reject") undefined (Some (JStr "changed my mind"))
           [item_A; item_B] []).
  - exact approve_A_accepted.
  - exact reject_A_accepted.
  - reflexivity.
  - reflexivity.
  - exact ledger_AB_pending.
  - exact items_AB_not_null.
  - reflexivity.
Defined.

(** X11 on approving A and a listing by a caller who is no approver. *)
Lemma listing_after_approving_A :
  Approve.onRequestGet reader (snd (Approve.onRequestPost approve_A T env_AB))
  = (Value (json_response
              (JObj [("pending", JArr [item_B]); ("history", JArr [decision_A])]) 200),
     snd (Approve.onRequestPost approve_A T env_AB)).
Proof.
  apply (@listing_after_decision CompactJSON.codec compact_json_laws Access.base64
           env_AB ledger_AB approve_A reader T approver "A" (JStr "eve@example.com")
           (JStr "A") (JStr "approve") undefined [item_A; item_B] []).
  - exact approve_A_accepted.
  - reflexivity.
  - vm_compute. reflexivity.
  - reflexivity.
  - exact ledger_AB_pending.
  - exact items_AB_not_null.
  - reflexivity.
Defined.

(** X12 on a push with a wrong token. *)
Lemma wrong_token_is_refused :
  Sync.onRequestPost (push_with "Bearer guess" (Some snapshot_AB)) T T' env_fresh
  = (Value (json_response (Sync.error_body "Unauthorized") 401), env_fresh).
Proof.
  destruct (@bearer_token_must_be_the_secret CompactJSON.codec
              (push_with "Bearer guess" (Some snapshot_AB)) T T' env_fresh "s3cret"
              eq_refl ltac:(discriminate)) as [Hbearer _].
  apply (proj2 (Hbearer "guess" eq_refl)). discriminate.
Defined.

(** X14 on a push of [null]. *)
Lemma pushing_null_stores_it_and_throws :
  Sync.onRequestPost (push_request JNull) T T' env_fresh
  = (Throw TypeError,
     {| SYNC_SECRET := Some "s3cret";
        DASHBOARD_DATA := Some (<["last_sync" := T]> (<["status" := "null"]> ∅));
        APPROVALS := Some ∅ |}).
Proof.
  apply (@null_snapshot_is_stored_then_throws CompactJSON.codec
           (push_request JNull) T T' env_fresh).
  - exact (push_authorized JNull env_fresh eq_refl).
  - reflexivity.
Defined.

(** X15 on two pushes into a fresh deployment. *)
Lemma second_snapshot_replaces_first :
  exists kv2 : KV,
    DASHBOARD_DATA
      (snd (Sync.onRequestPost (push_request snapshot_later) T' T'
              (snd (Sync.onRequestPost (push_request snapshot_AB) T T env_fresh))))
    = Some kv2 /\
    kv2 !! "status" = Some (CompactJSON.write snapshot_later) /\
    kv2 !! "last_sync" = Some T'.
Proof.
  destruct (@later_push_replaces_snapshot CompactJSON.codec compact_json_laws
              (push_request snapshot_AB) (push_request snapshot_later) T T T' T' env_fresh
              snapshot_AB snapshot_later
              (push_authorized snapshot_AB env_fresh eq_refl)
              (push_authorized snapshot_later env_fresh eq_refl)
              eq_refl eq_refl ltac:(discriminate) ltac:(discriminate))
    as (_ & Hstatus & _).
  exact (Hstatus ∅ eq_refl).
Defined.

(** X16 on a snapshot that counts three agents. *)
Lemma three_agents_reported :
  fst (Sync.onRequestPost (push_request snapshot_AB) T T' env_fresh)
  = Value (push_response T' "3 active").
Proof.
  destruct (@agents_field_of_a_summary CompactJSON.codec
              (push_request snapshot_AB) T T' env_fresh snapshot_AB
              (push_authorized snapshot_AB env_fresh eq_refl) eq_refl ltac:(discriminate))
    as (_ & Hnumber & _).
  exact (proj1 (Hnumber (JObj [("active_agents", JNum 3)]) 3 eq_refl eq_refl)).
Defined.

(** X17 on a snapshot whose [pending_approvals] is an object. *)
Lemma object_seed_breaks_approving_A :
  exists kv1 : KV,
    APPROVALS (snd (Sync.onRequestPost (push_request snapshot_odd) T T env_fresh)) = Some kv1 /\
    kv1 !! "pending" = Some (CompactJSON.write (JObj [("A", JStr "x")])) /\
    fst (Approve.onRequestPost approve_A T'
           (snd (Sync.onRequestPost (push_request snapshot_odd) T T env_fresh)))
    = Throw TypeError.
Proof.
  destruct (@seed_that_is_no_list_breaks_decisions CompactJSON.codec compact_json_laws
              Access.base64
              (push_request snapshot_odd) approve_A T T T' approver "A" env_fresh ∅
              snapshot_odd (JObj [("A", JStr "x")]) (JStr "A") (JStr "approve") undefined
              (push_authorized snapshot_odd env_fresh eq_refl) eq_refl eq_refl eq_refl
              ltac:(discriminate) eq_refl eq_refl approve_A_accepted eq_refl)
    as (kv1 & Hkv1 & Hpending & Hthrow & _).
  exists kv1. split; [exact Hkv1 | ]. split; [exact Hpending | exact Hthrow].
Defined.

(** X18 on a cookie header with three cookies. *)
Lemma cookie_of_rinvest :
  Access.getAuthenticatedEmail (Some cookie_rinvest) = Some (JStr "rinvest4@gmail.com").
Proof.
  transitivity (Access.payload_email payload_rinvest).
  - exact (proj1 (@identity_is_read_from_the_second_segment CompactJSON.codec Access.base64
                    "theme=dark; " "eyJhbGciOiJSUzI1NiJ9" payload_rinvest "c2ln" "; lang=en"
                    eq_refl eq_refl eq_refl eq_refl eq_refl eq_refl
                    (or_intror (ex_intro _ " lang=en" eq_refl)))).
  - vm_compute. reflexivity.
Defined.

(** X10 on a listing by a caller outside the allow-list, without an
    approvals store. *)
Lemma listing_without_store :
  Approve.onRequestGet reader env_no_approvals
  = (Value (json_response (JObj [("pending", JArr []); ("history", JArr [])]) 200),
     env_no_approvals).
Proof.
  apply (proj2 (proj2 (@listing_needs_authentication_only CompactJSON.codec Access.base64
                         reader env_no_approvals))
           (JStr "eve@example.com")).
  - vm_compute. reflexivity.
  - reflexivity.
Defined.

(** X13 on a push with the right header to a deployment without a
    secret. *)
Lemma push_without_secret_is_refused :
  Sync.onRequestPost (push_request snapshot_AB) T T' env_no_secret
  = (Value (json_response (Sync.error_body "Unauthorized") 401), env_no_secret).
Proof.
  exact (proj1 (@refused_push_writes_nothing CompactJSON.codec
                  (push_request snapshot_AB) T T' env_no_secret) eq_refl).
Defined.

(** X19 on a cookie header whose token is empty. *)
Lemma cookie_with_empty_token :
  Access.getAuthenticatedEmail (Some "theme=dark; CF_Authorization=; lang=en") = None.
Proof.
  exact (proj1 (proj2 (proj2 (@no_token_no_identity CompactJSON.codec Access.base64))
                  "theme=dark; " " lang=en" eq_refl eq_refl)).
Defined.

(** X20 on a token that has a single segment. *)
Lemma token_with_one_segment :
  Access.token_email "eyJhbGciOiJSUzI1NiJ9" = None.
Proof.
  exact (proj1 (@unusable_token_no_identity CompactJSON.codec Access.base64)
           "eyJhbGciOiJSUzI1NiJ9" eq_refl eq_refl).
Defined.

End EvaluatedFurther.
